(** * mcp-atlassian: the translation and orchestration layer

    A shallow embedding of [types.py], [confluence.py], [jira.py] (both
    variants) and [server.py], and the properties of the specification
    that can be settled on it.

    Python values that come from the remote services or from the tool
    arguments are dynamically shaped; they are modelled by the type [json]
    together with the Python operations the code applies to them
    (subscripting, [.get], [in], truthiness, iteration), each failing with
    the exception Python raises.  The remote clients and the text
    preprocessor are collaborators: they are fields of the class
    [Collaborators], and every statement holds for all of them.

    A Python [str] is modelled by a [string] holding its UTF-8 encoding,
    as the string literals of this file do; its characters are its code
    points, each a byte that is no continuation byte together with the
    continuation bytes that follow it.  A lone surrogate, which a [str]
    read from JSON can hold, is encoded like any other code point, in
    three bytes. *)

From Stdlib Require Import String Ascii List ZArith QArith Bool Lia.
From Stdlib Require Import DecimalString.
Import ListNotations.
Local Open Scope string_scope.
Local Open Scope Z_scope.

Set Implicit Arguments.
Set Warnings "-register-all".

(** ** Python values *)

Inductive json : Type :=
| JNull
| JBool (b : bool)
| JInt (z : Z)
| JFloat (q : Q)
| JStr (s : string)
| JList (l : list json)
| JDict (d : list (string * json)).

(** A Python [dict] with string keys: insertion-ordered, one entry per key. *)
Definition dict : Type := list (string * json).

Fixpoint dict_get (k : string) (d : dict) : option json :=
  match d with
  | [] => None
  | (k', v) :: d' => if String.eqb k k' then Some v else dict_get k d'
  end.

(** [d[k] = v]: overwrite in place when the key is present, append otherwise. *)
Fixpoint dict_set (k : string) (v : json) (d : dict) : dict :=
  match d with
  | [] => [(k, v)]
  | (k', v') :: d' =>
      if String.eqb k k' then (k', v) :: d' else (k', v') :: dict_set k v d'
  end.

(** [d.update(e)] *)
Definition dict_update (d e : dict) : dict :=
  fold_left (fun acc kv => dict_set (fst kv) (snd kv) acc) e d.

Definition dict_keys (d : dict) : list string := map fst d.

(** Lookup in the field catalog, a mapping from names to identifiers. *)
Fixpoint assoc_get (k : string) (m : list (string * string)) : option string :=
  match m with
  | [] => None
  | (k', v) :: m' => if String.eqb k k' then Some v else assoc_get k m'
  end.

(** ** Exceptions *)

Inductive exn_class : Type :=
| ValueError | KeyError | TypeError | AttributeError | NameError
| RuntimeError
| RemoteError.   (* whatever a collaborator raises: transport, authorization *)

(** [exn_msg e] is [str(e)]. *)
Record exn : Type := Exn { exn_kind : exn_class; exn_msg : string }.

Inductive result (A : Type) : Type :=
| Ok (a : A)
| Err (e : exn).
Arguments Ok {A} a.
Arguments Err {A} e.

Definition rbind {A B} (r : result A) (f : A -> result B) : result B :=
  match r with
  | Ok a => f a
  | Err e => Err e
  end.

Declare Scope res_scope.
Delimit Scope res_scope with res.
Notation "x <-? r ; k" := (rbind r (fun x => k))
  (at level 61, r at next level, right associativity) : res_scope.

(** ** Strings *)

Definition str_of_Z (z : Z) : string := NilZero.string_of_int (Z.to_int z).

Definition type_name (j : json) : string :=
  match j with
  | JNull => "NoneType"
  | JBool _ => "bool"
  | JInt _ => "int"
  | JFloat _ => "float"
  | JStr _ => "str"
  | JList _ => "list"
  | JDict _ => "dict"
  end.

(** [s.startswith(p)] *)
Definition startswith (p s : string) : bool := String.prefix p s.

(** A byte [10xxxxxx], which continues the character begun before it. *)
Definition is_continuation (c : ascii) : bool :=
  let n := nat_of_ascii c in (Nat.leb 128 n && Nat.ltb n 192)%bool.

(** [len(s)]: the number of characters. *)
Fixpoint str_len (s : string) : nat :=
  match s with
  | EmptyString => 0
  | String c s' => ((if is_continuation c then 0 else 1) + str_len s')%nat
  end.

(** [s[:n]]: the first [n] characters. *)
Fixpoint str_take (n : nat) (s : string) : string :=
  match s with
  | EmptyString => EmptyString
  | String c s' =>
      if is_continuation c then String c (str_take n s')
      else match n with
           | O => EmptyString
           | S k => String c (str_take k s')
           end
  end.

(** [s] begins at a character boundary. *)
Definition starts_char (s : string) : bool :=
  match s with
  | EmptyString => true
  | String c _ => negb (is_continuation c)
  end.

(** [p in s] for strings. *)
Fixpoint str_contains (p s : string) : bool :=
  String.prefix p s ||
  match s with
  | EmptyString => false
  | String _ s' => str_contains p s'
  end.

(** [s.replace(old, new)] for a non-empty [old]: every occurrence, scanning
    from the left, occurrences never overlapping.  [skip] counts the
    characters of a matched occurrence still to be passed over. *)
Fixpoint replace_from (old new : string) (skip : nat) (s : string) : string :=
  match s with
  | EmptyString => EmptyString
  | String c s' =>
      match skip with
      | S k => replace_from old new k s'
      | O =>
          if String.prefix old s
          then new ++ replace_from old new (Nat.pred (String.length old)) s'
          else String c (replace_from old new 0 s')
      end
  end.

Definition str_replace (old new s : string) : string := replace_from old new 0 s.

(** [s.split(sep)] for a one-character separator. *)
Fixpoint str_split (sep : ascii) (s : string) : list string :=
  match s with
  | EmptyString => [EmptyString]
  | String c s' =>
      let r := str_split sep s' in
      if Ascii.eqb c sep then EmptyString :: r
      else match r with
           | h :: t => String c h :: t
           | [] => [String c EmptyString]
           end
  end.

(** [sep.join(l)] *)
Fixpoint str_join (sep : string) (l : list string) : string :=
  match l with
  | [] => ""
  | [x] => x
  | x :: l' => x ++ sep ++ str_join sep l'
  end.

(** [s.lower()] of a string of ASCII characters. *)
Definition lower_ascii (c : ascii) : ascii :=
  let n := nat_of_ascii c in
  if (Nat.leb 65 n && Nat.leb n 90)%bool then ascii_of_nat (n + 32) else c.

Fixpoint str_lower (s : string) : string :=
  match s with
  | EmptyString => EmptyString
  | String c s' => String (lower_ascii c) (str_lower s')
  end.

(** [s.rstrip('/')] *)
Fixpoint rstrip_slash (s : string) : string :=
  match s with
  | EmptyString => EmptyString
  | String c s' =>
      match rstrip_slash s' with
      | EmptyString => if Ascii.eqb c "/" then EmptyString else String c EmptyString
      | r => String c r
      end
  end.

Definition dq : string := String (ascii_of_nat 34) EmptyString.

(** [repr(s)] of a string of ASCII characters: in single quotes, or in
    double quotes when it holds a single quote and no double one; the
    quote, the backslash and the control characters escaped. *)
Definition hex_digit (n : nat) : ascii :=
  ascii_of_nat (if Nat.ltb n 10 then 48 + n else 87 + n).

Definition repr_char (quote c : ascii) : string :=
  let n := nat_of_ascii c in
  if Ascii.eqb c quote || Ascii.eqb c "\" then String "\" (String c EmptyString)
  else if Nat.eqb n 9 then "\t"
  else if Nat.eqb n 10 then "\n"
  else if Nat.eqb n 13 then "\r"
  else if Nat.ltb n 32 || Nat.eqb n 127
  then String "\" (String "x" (String (hex_digit (n / 16))
                                 (String (hex_digit (n mod 16)) EmptyString)))
  else String c EmptyString.

Fixpoint repr_chars (quote : ascii) (s : string) : string :=
  match s with
  | EmptyString => EmptyString
  | String c s' => repr_char quote c ++ repr_chars quote s'
  end.

Definition repr_ascii (s : string) : string :=
  let quote :=
    if str_contains "'" s && negb (str_contains dq s)
    then ascii_of_nat 34 else ascii_of_nat 39 in
  String quote (repr_chars quote s ++ String quote EmptyString).

Fixpoint is_ascii (s : string) : bool :=
  match s with
  | EmptyString => true
  | String c s' => Nat.ltb (nat_of_ascii c) 128 && is_ascii s'
  end.

(** ** Python operations on dynamically shaped values *)

(** [bool(j)] *)
Definition truthy (j : json) : bool :=
  match j with
  | JNull => false
  | JBool b => b
  | JInt z => negb (z =? 0)
  | JFloat q => negb (Qeq_bool q 0)
  | JStr s => negb (String.eqb s "")
  | JList l => match l with [] => false | _ => true end
  | JDict d => match d with [] => false | _ => true end
  end.

(** [repr(k)] of a key made of plain characters. *)
Definition repr_key (k : string) : string := "'" ++ k ++ "'".

(** [j[k]] for a string [k]. *)
Definition py_getitem (j : json) (k : string) : result json :=
  match j with
  | JDict d =>
      match dict_get k d with
      | Some v => Ok v
      | None => Err (Exn KeyError (repr_key k))
      end
  | JStr _ => Err (Exn TypeError "string indices must be integers, not 'str'")
  | JList _ => Err (Exn TypeError "list indices must be integers or slices, not str")
  | _ => Err (Exn TypeError ("'" ++ type_name j ++ "' object is not subscriptable"))
  end.

(** [j.get(k, default)] *)
Definition py_get (j : json) (k : string) (default : json) : result json :=
  match j with
  | JDict d =>
      match dict_get k d with
      | Some v => Ok v
      | None => Ok default
      end
  | _ => Err (Exn AttributeError
                  ("'" ++ type_name j ++ "' object has no attribute 'get'"))
  end.

(** [j == s] for a string [s]: only a string equals a string. *)
Definition py_eq_str (j : json) (s : string) : bool :=
  match j with
  | JStr t => String.eqb t s
  | _ => false
  end.

(** [j == z] for an integer [z]; Python compares numbers by value, and
    [True == 1]. *)
Definition py_eq_int (j : json) (z : Z) : bool :=
  match j with
  | JInt a => a =? z
  | JBool b => (if b then 1 else 0) =? z
  | JFloat q => Qeq_bool q (inject_Z z)
  | _ => false
  end.

(** [k in j] for a string [k]. *)
Definition py_in (k : string) (j : json) : result bool :=
  match j with
  | JDict d => Ok (existsb (String.eqb k) (dict_keys d))
  | JList l => Ok (existsb (fun x => py_eq_str x k) l)
  | JStr s => Ok (str_contains k s)
  | _ => Err (Exn TypeError
                  ("argument of type '" ++ type_name j ++ "' is not iterable"))
  end.

(** The characters of [s], one string each. *)
Fixpoint split_chars (s : string) : list string :=
  match s with
  | EmptyString => []
  | String c s' =>
      match split_chars s' with
      | (String d _ as h) :: t =>
          if is_continuation d then String c h :: t
          else String c EmptyString :: h :: t
      | l => String c EmptyString :: l
      end
  end.

Definition chars_of (s : string) : list json := map JStr (split_chars s).

(** The items a [for] loop over [j] visits. *)
Definition py_iter (j : json) : result (list json) :=
  match j with
  | JList l => Ok l
  | JDict d => Ok (map (fun kv => JStr (fst kv)) d)
  | JStr s => Ok (chars_of s)
  | _ => Err (Exn TypeError ("'" ++ type_name j ++ "' object is not iterable"))
  end.

(** [j.replace(old, new)] *)
Definition py_replace (j : json) (old new : string) : result string :=
  match j with
  | JStr s => Ok (str_replace old new s)
  | _ => Err (Exn AttributeError
                  ("'" ++ type_name j ++ "' object has no attribute 'replace'"))
  end.

(** ** [datetime.fromisoformat] and [strftime("%Y-%m-%d")]

    The two library functions as CPython 3.11 has them.  [fromisoformat]
    works on the UTF-8 bytes of its argument, which end with a NUL: the
    date goes up to a separator whose place the first characters decide
    (calendar dates [YYYY-MM-DD] and [YYYYMMDD], week dates [YYYY-Www],
    [YYYY-Www-D], [YYYYWww] and [YYYYWwwD]), one character of any kind
    separates it from the time ([HH[:MM[:SS]]] or the same without
    colons, a fraction after [.] or [,]), and an offset may follow the
    time.  The constructor then checks the ranges.  [strftime] writes
    the year in decimal without padding, as the C library on Linux does,
    and the month and the day with two digits. *)

Module Datetime.

Definition code (c : ascii) : Z := Z.of_nat (nat_of_ascii c).

(** The byte at index [i] of the buffer, the NUL past its end. *)
Definition byte_at (s : string) (i : nat) : Z :=
  match String.get i s with
  | Some c => code c
  | None => 0
  end.

Definition is_digit (c : Z) : bool := (48 <=? c) && (c <=? 57).

(** [parse_digits]: [n] digits from index [p] on, continuing [acc]. *)
Fixpoint digits_from (s : string) (p n : nat) (acc : Z) : option Z :=
  match n with
  | O => Some acc
  | S k =>
      let c := byte_at s p in
      if is_digit c then digits_from s (S p) k (10 * acc + (c - 48)) else None
  end.

(** The index of the first byte from [idx] on that is no digit. *)
Fixpoint skip_digits (s : string) (idx fuel : nat) : nat :=
  match fuel with
  | O => idx
  | S f => if is_digit (byte_at s idx) then skip_digits s (S idx) f else idx
  end.

(** [_find_isoformat_datetime_separator] *)
Definition find_separator (s : string) : option nat :=
  let len := String.length s in
  if Nat.eqb len 7 then Some 7%nat
  else if byte_at s 4 =? code "-" then
    if byte_at s 5 =? code "W" then
      if Nat.ltb len 8 then None
      else if Nat.ltb 8 len && (byte_at s 8 =? code "-") then
        if Nat.eqb len 9 then None
        else if Nat.ltb 10 len && is_digit (byte_at s 10) then Some 8%nat
        else Some 10%nat
      else Some 8%nat
    else Some 10%nat
  else if byte_at s 4 =? code "W" then
    let idx := skip_digits s 7 len in
    if Nat.ltb idx 9 then Some idx
    else if Nat.even idx then Some 7%nat else Some 8%nat
  else Some 8%nat.

(** The calendar, in the integer arithmetic of C. *)
Definition is_leap (y : Z) : bool :=
  (Z.rem y 4 =? 0) && (negb (Z.rem y 100 =? 0) || (Z.rem y 400 =? 0)).

Definition _days_in_month (m : Z) : Z :=
  match m with
  | 1 | 3 | 5 | 7 | 8 | 10 | 12 => 31
  | 4 | 6 | 9 | 11 => 30
  | 2 => 28
  | _ => 0
  end.

Definition _days_before_month (m : Z) : Z :=
  match m with
  | 2 => 31 | 3 => 59 | 4 => 90 | 5 => 120 | 6 => 151 | 7 => 181
  | 8 => 212 | 9 => 243 | 10 => 273 | 11 => 304 | 12 => 334
  | _ => 0
  end.

Definition days_in_month (y m : Z) : Z :=
  if (m =? 2) && is_leap y then 29 else _days_in_month m.

Definition days_before_month (y m : Z) : Z :=
  _days_before_month m + (if (2 <? m) && is_leap y then 1 else 0).

Definition days_before_year (year : Z) : Z :=
  let y := year - 1 in
  y * 365 + Z.quot y 4 - Z.quot y 100 + Z.quot y 400.

Definition ymd_to_ord (y m d : Z) : Z :=
  days_before_year y + days_before_month y m + d.

Definition weekday (y m d : Z) : Z := Z.rem (ymd_to_ord y m d + 6) 7.

Definition iso_week1_monday (year : Z) : Z :=
  let first_day := ymd_to_ord year 1 1 in
  let first_weekday := Z.rem (first_day + 6) 7 in
  let week1_monday := first_day - first_weekday in
  if 3 <? first_weekday then week1_monday + 7 else week1_monday.

(** [ord_to_ymd].  An ordinal below 1, which only week dates of the year
    0 reach, takes the C code outside its tables; the date it leaves has
    the year 1 and a month below 1. *)
Definition ord_to_ymd (ordinal : Z) : Z * Z * Z :=
  if ordinal <? 1 then (1, 0, 0) else
  let o := ordinal - 1 in
  let n400 := o / 146097 in
  let n := o mod 146097 in
  let n100 := n / 36524 in
  let n := n mod 36524 in
  let n4 := n / 1461 in
  let n := n mod 1461 in
  let n1 := n / 365 in
  let n := n mod 365 in
  let year := n400 * 400 + 1 + n100 * 100 + n4 * 4 + n1 in
  if (n1 =? 4) || (n100 =? 4) then (year - 1, 12, 31) else
  let leapyear := (n1 =? 3) && (negb (n4 =? 24) || (n100 =? 3)) in
  let month := Z.shiftr (n + 50) 5 in
  let preceding :=
    _days_before_month month + (if (2 <? month) && leapyear then 1 else 0) in
  if n <? preceding
  then (year, month - 1, n - (preceding - days_in_month year (month - 1)) + 1)
  else (year, month, n - preceding + 1).

Definition iso_to_ymd (iso_year iso_week iso_day : Z) : option (Z * Z * Z) :=
  let week_ok :=
    if (iso_week <=? 0) || (53 <=? iso_week) then
      (iso_week =? 53)
      && (let first_weekday := weekday iso_year 1 1 in
          (first_weekday =? 3) || ((first_weekday =? 2) && is_leap iso_year))
    else true in
  if negb week_ok then None
  else if (iso_day <=? 0) || (8 <=? iso_day) then None
  else
    Some (ord_to_ymd (iso_week1_monday iso_year + (iso_week - 1) * 7 + iso_day - 1)).

Definition obind {A B} (o : option A) (f : A -> option B) : option B :=
  match o with Some a => f a | None => None end.
Notation "x <-- o ; k" := (obind o (fun x => k))
  (at level 61, o at next level, right associativity).
Notation "' pat <-- o ; k" := (obind o (fun x => match x with pat => k end))
  (at level 61, pat pattern, o at next level, right associativity).

(** [parse_isoformat_date], on the bytes before index [sep]. *)
Definition parse_date (s : string) (sep : nat) : option (Z * Z * Z) :=
  year <-- digits_from s 0 4 0;
  let uses_separator := byte_at s 4 =? code "-" in
  let p := if uses_separator then 5%nat else 4%nat in
  if byte_at s p =? code "W" then
    let p := S p in
    iso_week <-- digits_from s p 2 0;
    let p := (p + 2)%nat in
    if Nat.ltb p sep then
      if uses_separator && negb (byte_at s p =? code "-") then None
      else
        let p := if uses_separator then S p else p in
        iso_day <-- digits_from s p 1 0;
        iso_to_ymd year iso_week iso_day
    else iso_to_ymd year iso_week 1
  else
    month <-- digits_from s p 2 0;
    let p := (p + 2)%nat in
    if uses_separator && negb (byte_at s p =? code "-") then None
    else
      let p := if uses_separator then S p else p in
      day <-- digits_from s p 2 0;
      Some (year, month, day).

(** Hour, minute, second and microsecond. *)
Definition clock : Type := Z * Z * Z * Z.

Definition set_field (i : nat) (v : Z) (t : clock) : clock :=
  let '(h, m, s, us) := t in
  match i with
  | O => (v, m, s, us)
  | S O => (h, v, s, us)
  | _ => (h, m, v, us)
  end.

Definition correction (n : nat) : Z :=
  match n with
  | 1%nat => 100000 | 2%nat => 10000 | 3%nat => 1000 | 4%nat => 100
  | 5%nat => 10
  | _ => 1
  end.

(** The fraction in [parse_hh_mm_ss_ff]: at most six digits count, the
    digits after them are passed over; the flag says that the bytes do
    not end there. *)
Definition fraction (s : string) (p stop : nat) (t : clock)
  : option (bool * clock) :=
  let remains := (stop - p)%nat in
  let to_parse := if Nat.leb 6 remains then 6%nat else remains in
  v <-- digits_from s p to_parse 0;
  let us := if Nat.ltb to_parse 6 then v * correction to_parse else v in
  let q := skip_digits s (p + to_parse) (String.length s) in
  let '(h, m, sec, _) := t in
  Some (negb (byte_at s q =? 0), (h, m, sec, us)).

(** The loop of [parse_hh_mm_ss_ff] over the fields that are [left], on
    the bytes from [p] to [stop]. *)
Fixpoint hms_fields (s : string) (left : nat) (p stop : nat) (has_separator : bool)
    (t : clock) : option (bool * clock) :=
  match left with
  | O => fraction s p stop t
  | S left' =>
      v <-- digits_from s p 2 0;
      let i := (3 - left)%nat in
      let t := set_field i v t in
      let c := byte_at s (p + 2) in
      let p := (p + 3)%nat in
      let has_separator :=
        if Nat.eqb i 0 then c =? code ":" else has_separator in
      if Nat.leb stop p then Some (negb (c =? 0), t)
      else if has_separator && (c =? code ":")
      then hms_fields s left' p stop has_separator t
      else if (c =? code ".") || (c =? code ",") then fraction s p stop t
      else if negb has_separator
      then hms_fields s left' (p - 1) stop has_separator t
      else None
  end.

Definition parse_hh_mm_ss_ff (s : string) (p stop : nat) : option (bool * clock) :=
  hms_fields s 3 p stop true (0, 0, 0, 0).

(** The search for the offset in [parse_isoformat_time], a do-while. *)
Fixpoint find_tz (s : string) (pos stop fuel : nat) : nat :=
  let c := byte_at s pos in
  if (c =? code "Z") || (c =? code "+") || (c =? code "-") then pos
  else match fuel with
       | O => S pos
       | S f => if Nat.ltb (S pos) stop then find_tz s (S pos) stop f else S pos
       end.

(** [parse_isoformat_time], on the bytes from [p] on: the time of day
    and, when there is one, the offset in seconds and microseconds. *)
Definition parse_time (s : string) (p : nat) : option (clock * option (Z * Z)) :=
  let stop := String.length s in
  let tzinfo_pos := find_tz s p stop stop in
  '(more, t) <-- parse_hh_mm_ss_ff s p tzinfo_pos;
  if Nat.eqb tzinfo_pos stop then
    if more : bool then None else Some (t, None)
  else if byte_at s tzinfo_pos =? code "Z" then
    if byte_at s (S tzinfo_pos) =? 0 then Some (t, Some (0, 0)) else None
  else
    let tzsign := if byte_at s tzinfo_pos =? code "-" then -1 else 1 in
    '(more, tz) <-- parse_hh_mm_ss_ff s (S tzinfo_pos) stop;
    let '(tzhour, tzminute, tzsecond, tzmicrosecond) := tz in
    if more : bool then None
    else Some (t, Some (tzsign * (tzhour * 3600 + tzminute * 60 + tzsecond),
                        tzsign * tzmicrosecond)).

(** The bytes of the separator, by its first byte. *)
Definition separator_width (c : Z) : nat :=
  if c <? 128 then 1%nat
  else if Z.land c 240 =? 224 then 3%nat
  else if Z.land c 240 =? 240 then 4%nat
  else 2%nat.

(** What [fromisoformat] ends with. *)
Inductive parsed : Type :=
| Date (year month day : Z)
| Invalid                       (* "Invalid isoformat string: ..." *)
| Refused (msg : string).       (* a range check of a constructor *)

(** [repr] of the [timedelta] of [seconds] and [microseconds], with its
    days. *)
Definition timedelta (seconds microseconds : Z) : Z * Z * Z :=
  let total := seconds * 1000000 + microseconds in
  let days := total / 86400000000 in
  let rest := total mod 86400000000 in
  (days, rest / 1000000, rest mod 1000000).

Definition keyword (name : string) (v : Z) : list string :=
  if v =? 0 then [] else [name ++ str_of_Z v].

Definition timedelta_repr (td : Z * Z * Z) : string :=
  let '(days, seconds, microseconds) := td in
  let args :=
    (keyword "days=" days ++ keyword "seconds=" seconds
     ++ keyword "microseconds=" microseconds)%list in
  "datetime.timedelta("
  ++ match args with [] => "0" | _ => str_join ", " args end ++ ")".

(** The check of [timezone] on its offset. *)
Definition check_offset (tz : option (Z * Z)) : option string :=
  match tz with
  | None => None
  | Some (tzoffset, tz_useconds) =>
      if tzoffset =? 0 then None else
      let '(days, seconds, microseconds) := timedelta tzoffset tz_useconds in
      if ((days =? -1) && (seconds =? 0) && (microseconds <? 1))
         || (days <? -1) || (1 <=? days)
      then Some ("offset must be a timedelta strictly between "
                 ++ "-timedelta(hours=24) and timedelta(hours=24), not "
                 ++ timedelta_repr (days, seconds, microseconds) ++ ".")
      else None
  end.

(** The checks of the [datetime] constructor, in their order. *)
Definition check_fields (y m d : Z) (t : clock) : option string :=
  let '(hour, minute, second, _) := t in
  if (y <? 1) || (9999 <? y) then Some ("year " ++ str_of_Z y ++ " is out of range")
  else if (m <? 1) || (12 <? m) then Some "month must be in 1..12"
  else if (d <? 1) || (days_in_month y m <? d)
  then Some "day is out of range for month"
  else if 23 <? hour then Some "hour must be in 0..23"
  else if 59 <? minute then Some "minute must be in 0..59"
  else if 59 <? second then Some "second must be in 0..59"
  else None.

(** A lone surrogate, which JSON can carry, is held as the three bytes
    [ED A0..BF xx]. *)
Definition surrogate_head (s : string) : bool :=
  (byte_at s 0 =? 237) && (160 <=? byte_at s 1) && (byte_at s 1 <=? 191).

Fixpoint has_surrogate (s : string) : bool :=
  surrogate_head s ||
  match s with
  | EmptyString => false
  | String _ s' => has_surrogate s'
  end.

Definition drop3 (s : string) : string :=
  match s with
  | String _ (String _ (String _ r)) => r
  | _ => EmptyString
  end.

(** The character of index [pos], when it is a surrogate, replaced by
    [T]. *)
Fixpoint replace_surrogate (pos : nat) (s : string) : option string :=
  match s with
  | EmptyString => None
  | String c s' =>
      if is_continuation c then option_map (String c) (replace_surrogate pos s')
      else match pos with
           | O => if surrogate_head s then Some (String "T" (drop3 s)) else None
           | S k => option_map (String c) (replace_surrogate k s')
           end
  end.

(** [_sanitize_isoformat_str]: the separator can be the character of
    index 7, 8 or 10; the first of them that is a surrogate becomes a
    [T]. *)
Definition sanitize (s : string) : string :=
  match replace_surrogate 7 s with
  | Some r => r
  | None =>
      match replace_surrogate 8 s with
      | Some r => r
      | None =>
          match replace_surrogate 10 s with
          | Some r => r
          | None => s
          end
      end
  end.

(** [datetime.fromisoformat]: a string of fewer than seven characters is
    refused at once, and so is one that cannot be encoded because a
    surrogate is left in it. *)
Definition fromisoformat (dtstr : string) : parsed :=
  if Nat.ltb (str_len dtstr) 7 then Invalid else
  let s := sanitize dtstr in
  if has_surrogate s then Invalid else
  match find_separator s with
  | None => Invalid
  | Some sep =>
      match parse_date s sep with
      | None => Invalid
      | Some (y, m, d) =>
          let time :=
            if Nat.ltb sep (String.length s)
            then parse_time s (sep + separator_width (byte_at s sep))
            else Some ((0, 0, 0, 0), None) in
          match time with
          | None => Invalid
          | Some (t, tz) =>
              match check_offset tz with
              | Some msg => Refused msg
              | None =>
                  match check_fields y m d t with
                  | Some msg => Refused msg
                  | None => Date y m d
                  end
              end
          end
      end
  end.

Definition digit_char (n : Z) : ascii := ascii_of_nat (Z.to_nat (48 + n)).

Definition pad2 (n : Z) : string :=
  String (digit_char (n / 10)) (String (digit_char (n mod 10)) EmptyString).

(** A year from 1 to 9999 in decimal. *)
Definition year_str (y : Z) : string :=
  let d1 := String (digit_char (y mod 10)) EmptyString in
  let d2 := String (digit_char ((y / 10) mod 10)) d1 in
  let d3 := String (digit_char ((y / 100) mod 10)) d2 in
  if y <? 10 then d1
  else if y <? 100 then d2
  else if y <? 1000 then d3
  else String (digit_char (y / 1000)) d3.

(** [d.strftime("%Y-%m-%d")]: the calendar date as parsed, no conversion
    to another time zone. *)
Definition strftime_ymd (y m d : Z) : string :=
  year_str y ++ "-" ++ pad2 m ++ "-" ++ pad2 d.

End Datetime.

(** ** types.py *)

Record Document : Type := mk_Document {
  page_content : json;
  metadata : dict
}.

Module ConfluencePageCreate.
Record t : Type := mk {
  space_key : string;
  title : string;
  content : string;
  parent_id : option string
}.
End ConfluencePageCreate.

Module ConfluencePageUpdate.
Record t : Type := mk {
  page_id : string;
  title : string;
  content : string;
  version : Z
}.
End ConfluencePageUpdate.

Module JiraIssueCreate.
Record t : Type := mk {
  project_key : string;
  summary : string;
  description : string;
  issue_type : string;
  epic_link : option string;
  custom_fields : dict
}.

(** The generated [__init__] followed by [__post_init__]: the object is
    returned only when [__post_init__] does not raise. *)
Definition new (project_key summary description issue_type : string)
    (epic_link : option string) (custom_fields : option dict) : result t :=
  if negb (String.eqb issue_type "Epic" || String.eqb issue_type "Story") then
    Err (Exn ValueError "issue_type must be either 'Epic' or 'Story'")
  else if String.eqb issue_type "Epic"
          && match epic_link with Some _ => true | None => false end then
    Err (Exn ValueError "Epic issues cannot have an epic_link")
  else
    Ok (mk project_key summary description issue_type epic_link
          (match custom_fields with
           | Some ((_ :: _) as d) => d
           | _ => []
           end)).
End JiraIssueCreate.

Module JiraIssueUpdate.
Record t : Type := mk {
  issue_key : string;
  fields : dict
}.
End JiraIssueUpdate.

(** ** Collaborators, state and effects *)

(** The methods of the two remote clients that the managers call. *)
Inductive method : Type :=
| confluence_get_all_spaces
| confluence_get_page_by_id
| confluence_get_page_by_title
| confluence_get_all_pages_from_space
| confluence_get_page_comments
| confluence_cql
| confluence_get_space
| confluence_create_page
| confluence_update_page
| jira_issue
| jira_jql
| jira_project
| jira_create_issue
| jira_update_issue_field
| jira_get_url
| jira_session_put.

(** A call with its arguments in the order the source writes them. *)
Record call : Type := Call { call_method : method; call_args : list json }.

(** The calls that modify the remote services. *)
Definition is_write (c : call) : bool :=
  match call_method c with
  | confluence_create_page | confluence_update_page
  | jira_create_issue | jira_update_issue_field | jira_session_put => true
  | _ => false
  end.

Inductive level : Type := INFO | WARNING | ERROR.

Inductive event : Type :=
| ECall (c : call)
| ELog (lvl : level) (msg : string).

(** What the code is linked against.  [remote] answers a client call with
    a nested structure or raises; the preprocessor's two operations may
    themselves consult the remote service.  [py_repr] is [repr()], which
    is [str()] too on floats and containers, [py_lower] is [str.lower()]
    with the case mapping of the interpreter's Unicode tables, and
    [int_of_str] is [int()] on a string; none of them is looked into. *)
Class Collaborators : Type := {
  World : Type;
  remote : call -> World -> result json * World;
  clean_jira_text : json -> World -> result json * World;
  process_html_content : json -> json -> World -> result (json * json) * World;
  py_repr : json -> string;
  py_lower : string -> string;
  int_of_str : string -> result Z;
  confluence_url : string;
  jira_url : string
}.

(** [str(j)], as an f-string formats a value. *)
Definition py_str `{Collaborators} (j : json) : string :=
  match j with
  | JStr s => s
  | JInt z => str_of_Z z
  | JNull => "None"
  | JBool true => "True"
  | JBool false => "False"
  | _ => py_repr j
  end.

(** [repr(s)] of a string. *)
Definition repr_str `{Collaborators} (s : string) : string :=
  if is_ascii s then repr_ascii s else py_repr (JStr s).

(** The display date both managers' issue code computes:
    [datetime.fromisoformat(j.replace("Z", "+00:00")).strftime("%Y-%m-%d")]. *)
Definition format_date `{Collaborators} (j : json) : result string :=
  (s <-? py_replace j "Z" "+00:00";
   match Datetime.fromisoformat s with
   | Datetime.Date y m d => Ok (Datetime.strftime_ymd y m d)
   | Datetime.Invalid =>
       Err (Exn ValueError ("Invalid isoformat string: " ++ repr_str s))
   | Datetime.Refused msg => Err (Exn ValueError msg)
   end)%res.

(** [int(j)] *)
Definition py_int `{Collaborators} (j : json) : result Z :=
  match j with
  | JInt z => Ok z
  | JBool b => Ok (if b then 1 else 0)
  | JFloat q => Ok (Z.quot (Qnum q) (Zpos (Qden q)))
  | JStr s => int_of_str s
  | _ => Err (Exn TypeError
                ("int() argument must be a string, a bytes-like object or a real number, not '"
                 ++ type_name j ++ "'"))
  end.

Section Effects.
Context `{Collaborators}.

(** The state a request runs in: the remote world, the field catalog
    [JiraManager.CUSTOM_FIELD_MAPPINGS] as the manager's construction left
    it, and the calls and log records issued so far. *)
Record state : Type := mk_state {
  world : World;
  CUSTOM_FIELD_MAPPINGS : list (string * string);
  trace : list event
}.

(** A computation keeps the state it reached when it raises. *)
Definition M (A : Type) : Type := state -> result A * state.

Definition ret {A} (a : A) : M A := fun s => (Ok a, s).

Definition raise_ {A} (e : exn) : M A := fun s => (Err e, s).

Definition bind {A B} (m : M A) (f : A -> M B) : M B :=
  fun s => match m s with
           | (Ok a, s') => f a s'
           | (Err e, s') => (Err e, s')
           end.

(** [try: m  except Exception as e: h e] *)
Definition try_except {A} (m : M A) (h : exn -> M A) : M A :=
  fun s => match m s with
           | (Ok a, s') => (Ok a, s')
           | (Err e, s') => h e s'
           end.

Definition lift {A} (r : result A) : M A := fun s => (r, s).

Definition emit (ev : event) : M unit :=
  fun s => (Ok tt, mk_state (world s) (CUSTOM_FIELD_MAPPINGS s) (trace s ++ [ev])).

Definition log (lvl : level) (msg : string) : M unit := emit (ELog lvl msg).

(** A call of a client method: recorded, then answered by the remote. *)
Definition invoke (m : method) (args : list json) : M json :=
  fun s =>
    let c := Call m args in
    let '(r, w) := remote c (world s) in
    (r, mk_state w (CUSTOM_FIELD_MAPPINGS s) (trace s ++ [ECall c])).

(** The state a call of a client method leaves. *)
Definition after_call (m : method) (args : list json) (s : state) : state :=
  mk_state (snd (remote (Call m args) (world s))) (CUSTOM_FIELD_MAPPINGS s)
    (trace s ++ [ECall (Call m args)]).

(** The state a log record leaves. *)
Definition after_log (lvl : level) (msg : string) (s : state) : state :=
  mk_state (world s) (CUSTOM_FIELD_MAPPINGS s) (trace s ++ [ELog lvl msg]).

(** A call of the preprocessor. *)
Definition with_world {A} (f : World -> result A * World) : M A :=
  fun s =>
    let '(r, w) := f (world s) in
    (r, mk_state w (CUSTOM_FIELD_MAPPINGS s) (trace s)).

Definition get_mappings : M (list (string * string)) :=
  fun s => (Ok (CUSTOM_FIELD_MAPPINGS s), s).

End Effects.

Declare Scope M_scope.
Delimit Scope M_scope with M.
Notation "x <- m ;; k" := (bind m (fun x => k))
  (at level 61, m at next level, right associativity) : M_scope.
Notation "' pat <- m ;; k" := (bind m (fun x => match x with pat => k end))
  (at level 61, pat pattern, m at next level, right associativity) : M_scope.
Notation "m ;; k" := (bind m (fun _ => k))
  (at level 61, right associativity) : M_scope.
Local Open Scope M_scope.

Section Loops.
Context `{Collaborators}.

(** [for x in l: acc = body x acc] *)
Fixpoint for_each {A B} (body : A -> B -> M B) (l : list A) (acc : B) : M B :=
  match l with
  | [] => ret acc
  | x :: l' => acc' <- body x acc ;; for_each body l' acc'
  end.

End Loops.

(** ** confluence.py *)

Module ConfluenceManager.
Section Methods.
Context `{Collaborators}.

Definition _process_html_content (html_content space_key : json)
  : M (json * json) :=
  with_world (process_html_content html_content space_key).

(** The class defines no method [_clean_html_content]; looking the
    attribute up on [self] raises. *)
Definition _clean_html_content (content : json) : M json :=
  raise_ (Exn AttributeError
    "'ConfluenceManager' object has no attribute '_clean_html_content'").

Definition page_url (space_key page_id : json) : json :=
  JStr (confluence_url ++ "/wiki/spaces/" ++ py_str space_key
        ++ "/pages/" ++ py_str page_id).

Definition get_page_content (page_id : json) (clean_html : bool) : M Document :=
  page <- invoke confluence_get_page_by_id
            [page_id; JStr "body.storage,version,space"] ;;
  space <- lift (py_get page "space" (JDict [])) ;;
  space_key <- lift (py_get space "key" (JStr "")) ;;
  body <- lift (py_getitem page "body") ;;
  storage <- lift (py_getitem body "storage") ;;
  content <- lift (py_getitem storage "value") ;;
  '(processed_html, processed_markdown) <-
     _process_html_content content space_key ;;
  version <- lift (py_get page "version" (JDict [])) ;;
  author <- lift (py_get version "by" (JDict [])) ;;
  title <- lift (py_getitem page "title") ;;
  number <- lift (py_get version "number" JNull) ;;
  author_name <- lift (py_get author "displayName" JNull) ;;
  space' <- lift (py_get page "space" (JDict [])) ;;
  space_name <- lift (py_get space' "name" (JStr "")) ;;
  when <- lift (py_get version "when" JNull) ;;
  let metadata :=
    [ ("page_id", page_id);
      ("title", title);
      ("version", number);
      ("url", page_url space_key page_id);
      ("space_key", space_key);
      ("author_name", author_name);
      ("space_name", space_name);
      ("last_modified", when) ] in
  ret (mk_Document (if clean_html then processed_markdown else processed_html)
         metadata).

(** The statements inside [try] of [get_page_by_title]. *)
Definition get_page_by_title_body (space_key title : json) (clean_html : bool)
  : M (option Document) :=
  page <- invoke confluence_get_page_by_title
            [space_key; title; JStr "body.storage,version"] ;;
  if negb (truthy page) then ret None else
  body <- lift (py_getitem page "body") ;;
  storage <- lift (py_getitem body "storage") ;;
  content <- lift (py_getitem storage "value") ;;
  content <- (if clean_html then _clean_html_content content else ret content) ;;
  id <- lift (py_getitem page "id") ;;
  title' <- lift (py_getitem page "title") ;;
  version <- lift (py_get page "version" (JDict [])) ;;
  number <- lift (py_get version "number" JNull) ;;
  id' <- lift (py_getitem page "id") ;;
  let metadata :=
    [ ("page_id", id);
      ("title", title');
      ("version", number);
      ("space_key", space_key);
      ("url", page_url space_key id') ] in
  ret (Some (mk_Document content metadata)).

Definition get_page_by_title (space_key title : json) (clean_html : bool)
  : M (option Document) :=
  try_except (get_page_by_title_body space_key title clean_html)
    (fun e => log ERROR ("Error fetching page: " ++ exn_msg e) ;; ret None).

Definition space_page (space_key : json) (clean_html : bool)
    (page : json) (documents : list Document) : M (list Document) :=
  body <- lift (py_getitem page "body") ;;
  storage <- lift (py_getitem body "storage") ;;
  content <- lift (py_getitem storage "value") ;;
  content <- (if clean_html then _clean_html_content content else ret content) ;;
  id <- lift (py_getitem page "id") ;;
  title <- lift (py_getitem page "title") ;;
  version <- lift (py_get page "version" (JDict [])) ;;
  number <- lift (py_get version "number" JNull) ;;
  id' <- lift (py_getitem page "id") ;;
  let metadata :=
    [ ("page_id", id);
      ("title", title);
      ("space_key", space_key);
      ("version", number);
      ("url", page_url space_key id') ] in
  ret (documents ++ [mk_Document content metadata])%list.

Definition get_space_pages (space_key : json) (start limit : Z)
    (clean_html : bool) : M (list Document) :=
  pages <- invoke confluence_get_all_pages_from_space
             [space_key; JInt start; JInt limit; JStr "body.storage"] ;;
  pages <- lift (py_iter pages) ;;
  for_each (space_page space_key clean_html) pages [].

Definition page_comment (page_id space_key space_name : json)
    (clean_html : bool) (comment : json) (documents : list Document)
  : M (list Document) :=
  body <- lift (py_getitem comment "body") ;;
  view <- lift (py_getitem body "view") ;;
  value <- lift (py_getitem view "value") ;;
  '(processed_html, processed_markdown) <-
     _process_html_content value space_key ;;
  version <- lift (py_get comment "version" (JDict [])) ;;
  author <- lift (py_get version "by" (JDict [])) ;;
  id <- lift (py_getitem comment "id") ;;
  version' <- lift (py_get comment "version" (JDict [])) ;;
  when <- lift (py_get version' "when" JNull) ;;
  author_name <- lift (py_get author "displayName" JNull) ;;
  let metadata :=
    [ ("page_id", page_id);
      ("comment_id", id);
      ("last_modified", when);
      ("type", JStr "comment");
      ("author_name", author_name);
      ("space_key", space_key);
      ("space_name", space_name) ] in
  ret (documents ++
       [mk_Document (if clean_html then processed_markdown else processed_html)
          metadata])%list.

Definition get_page_comments (page_id : json) (clean_html : bool)
  : M (list Document) :=
  page <- invoke confluence_get_page_by_id [page_id; JStr "space"] ;;
  space <- lift (py_get page "space" (JDict [])) ;;
  space_key <- lift (py_get space "key" (JStr "")) ;;
  space' <- lift (py_get page "space" (JDict [])) ;;
  space_name <- lift (py_get space' "name" (JStr "")) ;;
  r <- invoke confluence_get_page_comments
         [page_id; JStr "body.view.value,version"; JStr "all"] ;;
  comments <- lift (py_getitem r "results") ;;
  comments <- lift (py_iter comments) ;;
  for_each (page_comment page_id space_key space_name clean_html) comments [].

(** One iteration of the loop of [search]. *)
Definition search_hit (hit : json) (documents : list Document)
  : result (list Document) :=
  (content <-? py_get hit "content" (JDict []);
   ty <-? py_get content "type" JNull;
   if py_eq_str ty "page" then
     id <-? py_getitem content "id";
     title <-? py_getitem hit "title";
     container <-? py_get hit "resultGlobalContainer" (JDict []);
     space <-? py_get container "title" JNull;
     url <-? py_getitem hit "url";
     last_modified <-? py_get hit "lastModified" JNull;
     ty' <-? py_getitem content "type";
     let metadata :=
       [ ("page_id", id);
         ("title", title);
         ("space", space);
         ("url", JStr (confluence_url ++ py_str url));
         ("last_modified", last_modified);
         ("type", ty') ] in
     excerpt <-? py_get hit "excerpt" (JStr "");
     Ok (documents ++ [mk_Document excerpt metadata])%list
   else Ok documents)%res.

(** The statements inside [try] of [search]. *)
Definition search_body (cql : json) (limit : Z) : M (list Document) :=
  results <- invoke confluence_cql [cql; JInt limit] ;;
  hits <- lift (py_get results "results" (JList [])) ;;
  hits <- lift (py_iter hits) ;;
  for_each (fun r docs => lift (search_hit r docs)) hits [].

Definition search (cql : json) (limit : Z) : M (list Document) :=
  try_except (search_body cql limit)
    (fun e => log ERROR ("Search failed with error: " ++ exn_msg e) ;; ret []).

Definition create_page (request : ConfluencePageCreate.t) : M Document :=
  try_except
    (space <- invoke confluence_get_space
                [JStr (ConfluencePageCreate.space_key request)] ;;
     (if negb (truthy space) then
        raise_ (Exn ValueError
          ("Space " ++ ConfluencePageCreate.space_key request ++ " does not exist"))
      else ret tt) ;;
     page <- invoke confluence_create_page
               [ JStr (ConfluencePageCreate.space_key request);
                 JStr (ConfluencePageCreate.title request);
                 JStr (ConfluencePageCreate.content request);
                 match ConfluencePageCreate.parent_id request with
                 | Some p => JStr p
                 | None => JNull
                 end;
                 JStr "wiki" ] ;;
     id <- lift (py_getitem page "id") ;;
     get_page_content id true)
    (fun e => log ERROR ("Error creating page: " ++ exn_msg e) ;; raise_ e).

Definition version_conflict (current_version : json) (requested : Z) : exn :=
  Exn ValueError
    ("Version conflict: current version is " ++ py_str current_version
     ++ ", but update requested for version " ++ str_of_Z requested).

(** The statements inside [try] of [update_page]. *)
Definition update_page_body (request : ConfluencePageUpdate.t) : M Document :=
  current_page <- invoke confluence_get_page_by_id
                    [JStr (ConfluencePageUpdate.page_id request); JStr "version"] ;;
  (if negb (truthy current_page) then
     raise_ (Exn ValueError
       ("Page " ++ ConfluencePageUpdate.page_id request ++ " does not exist"))
   else ret tt) ;;
  version <- lift (py_getitem current_page "version") ;;
  current_version <- lift (py_getitem version "number") ;;
  (if negb (py_eq_int current_version (ConfluencePageUpdate.version request)) then
     raise_ (version_conflict current_version (ConfluencePageUpdate.version request))
   else ret tt) ;;
  page <- invoke confluence_update_page
            [ JStr (ConfluencePageUpdate.page_id request);
              JStr (ConfluencePageUpdate.title request);
              JStr (ConfluencePageUpdate.content request);
              JStr "wiki" ] ;;
  id <- lift (py_getitem page "id") ;;
  get_page_content id true.

Definition update_page (request : ConfluencePageUpdate.t) : M Document :=
  try_except (update_page_body request)
    (fun e => log ERROR ("Error updating page: " ++ exn_msg e) ;; raise_ e).

End Methods.
End ConfluenceManager.

(** ** jira.py *)

Definition nl : string := String (ascii_of_nat 10) EmptyString.
(** Truth value of what [dict.get] returned for the catalog. *)
Definition truthy_id (field_id : option string) : bool :=
  match field_id with
  | Some i => negb (String.eqb i "")
  | None => false
  end.

(** [if field_id: fields[field_id] = value] *)
Definition set_if_true (field_id : option string) (value : json) (fields : dict)
  : dict :=
  match field_id with
  | Some i => if truthy_id field_id then dict_set i value fields else fields
  | None => fields
  end.

(** [obj.attr] on the response object of the HTTP session, represented by
    the mapping of its attributes. *)
Definition py_getattr (j : json) (a : string) : result json :=
  match j with
  | JDict d =>
      match dict_get a d with
      | Some v => Ok v
      | None => Err (Exn AttributeError
                       ("'dict' object has no attribute " ++ repr_key a))
      end
  | _ => Err (Exn AttributeError
                ("'" ++ type_name j ++ "' object has no attribute " ++ repr_key a))
  end.

(** What the two variants of [jira.py] share. *)
Section JiraCommon.
Context `{Collaborators}.

Definition _clean_text (text : json) : M json :=
  if negb (truthy text) then ret (JStr "")
  else with_world (clean_jira_text text).

(** One comment of an issue: body, display date and author. *)
Record comment_line : Type := mk_comment {
  c_body : json; c_created : string; c_author : json
}.

Definition issue_comment (comment : json) (comments : list comment_line)
  : M (list comment_line) :=
  body <- lift (py_getitem comment "body") ;;
  processed_comment <- _clean_text body ;;
  raw <- lift (py_getitem comment "created") ;;
  created <- lift (format_date raw) ;;
  a <- lift (py_getitem comment "author") ;;
  author <- lift (py_get a "displayName" (JStr "Unknown")) ;;
  ret (comments ++ [mk_comment processed_comment created author])%list.

(** The loop over [CUSTOM_FIELD_MAPPINGS.items()] in [get_issue]. *)
Definition read_custom_field (fields : json) (entry : string * string)
    (custom_fields : dict) : result dict :=
  let '(field_name, field_id) := entry in
  (present <-? py_in field_id fields;
   if present : bool then
     v <-? py_getitem fields field_id;
     Ok (dict_set field_name v custom_fields)
   else Ok custom_fields)%res.

Definition render_comment (c : comment_line) : string :=
  c_created c ++ " - " ++ py_str (c_author c) ++ ": " ++ py_str (c_body c).

(** The lines of the "Custom Fields" section; [shown] is the condition of
    the source on a field's name and value. *)
Definition render_custom_fields (shown : string -> json -> bool)
    (custom_fields : dict) : string :=
  fold_left
    (fun acc kv =>
       if shown (fst kv) (snd kv)
       then acc ++ fst kv ++ ": " ++ py_str (snd kv) ++ nl
       else acc)
    custom_fields "".

(** The statements inside [try] of [get_issue]. *)
Definition get_issue_body (shown : string -> json -> bool)
    (issue_key expand : json) : M Document :=
  issue <- invoke jira_issue [issue_key; expand] ;;
  fields <- lift (py_getitem issue "fields") ;;
  d <- lift (py_get fields "description" (JStr "")) ;;
  description <- _clean_text d ;;
  has_comment <- lift (py_in "comment" fields) ;;
  comments <-
    (if has_comment : bool then
       cm <- lift (py_getitem fields "comment") ;;
       cs <- lift (py_getitem cm "comments") ;;
       cs <- lift (py_iter cs) ;;
       for_each issue_comment cs []
     else ret []) ;;
  raw <- lift (py_getitem fields "created") ;;
  formatted_created <- lift (format_date raw) ;;
  mappings <- get_mappings ;;
  custom_fields <-
    for_each (fun e acc => lift (read_custom_field fields e acc)) mappings [] ;;
  summary <- lift (py_get fields "summary" (JStr "")) ;;
  issuetype <- lift (py_getitem fields "issuetype") ;;
  type_name <- lift (py_getitem issuetype "name") ;;
  status <- lift (py_getitem fields "status") ;;
  status_name <- lift (py_getitem status "name") ;;
  let content :=
    "Issue: " ++ py_str issue_key ++ nl ++
    "Title: " ++ py_str summary ++ nl ++
    "Type: " ++ py_str type_name ++ nl ++
    "Status: " ++ py_str status_name ++ nl ++
    "Created: " ++ formatted_created ++ nl ++ nl ++
    "Description:" ++ nl ++ py_str description ++ nl ++ nl in
  let content :=
    match custom_fields with
    | [] => content
    | _ => content ++ "Custom Fields:" ++ nl
           ++ render_custom_fields shown custom_fields ++ nl
    end in
  let content :=
    content ++ "Comments:" ++ nl ++ str_join nl (map render_comment comments) in
  priority <- lift (py_get fields "priority" (JDict [])) ;;
  priority_name <- lift (py_get priority "name" (JStr "None")) ;;
  let metadata :=
    [ ("key", issue_key);
      ("title", summary);
      ("type", type_name);
      ("status", status_name);
      ("created_date", JStr formatted_created);
      ("priority", priority_name);
      ("link", JStr (rstrip_slash jira_url ++ "/browse/" ++ py_str issue_key));
      ("custom_fields", JDict custom_fields) ] in
  ret (mk_Document (JStr content) metadata).

Definition get_issue_with (shown : string -> json -> bool)
    (issue_key expand : json) : M Document :=
  try_except (get_issue_body shown issue_key expand)
    (fun e =>
       log ERROR ("Error fetching issue " ++ py_str issue_key ++ ": " ++ exn_msg e) ;;
       raise_ e).

Definition search_issues_with (get_issue : json -> json -> M Document)
    (jql fields : json) (start limit : Z) (expand : json) : M (list Document) :=
  try_except
    (results <- invoke jira_jql [jql; fields; JInt start; JInt limit; expand] ;;
     issues <- lift (py_getitem results "issues") ;;
     issues <- lift (py_iter issues) ;;
     for_each
       (fun issue documents =>
          key <- lift (py_getitem issue "key") ;;
          doc <- get_issue key expand ;;
          ret (documents ++ [doc])%list)
       issues [])
    (fun e =>
       log ERROR ("Error searching issues with JQL " ++ py_str jql ++ ": "
                  ++ exn_msg e) ;;
       raise_ e).

(** The fields every new issue starts from. *)
Definition base_fields (request : JiraIssueCreate.t) : dict :=
  [ ("project", JDict [("key", JStr (JiraIssueCreate.project_key request))]);
    ("summary", JStr (JiraIssueCreate.summary request));
    ("description", JStr (JiraIssueCreate.description request));
    ("issuetype", JDict [("name", JStr (JiraIssueCreate.issue_type request))]) ].

Definition invalid_epic_link (epic_link : string) : exn :=
  Exn ValueError ("Invalid epic link: " ++ epic_link).

(** The type-specific part of [create_issue], the same in both variants:
    an Epic gets its name field, a Story with a true [epic_link] has the
    link checked against the remote issue and then set. *)
Definition type_specific_fields
    (_get_custom_field_id : string -> M (option string))
    (request : JiraIssueCreate.t) (fields : dict) : M dict :=
  if String.eqb (JiraIssueCreate.issue_type request) "Epic" then
    epic_name_field <- _get_custom_field_id "Epic Name" ;;
    ret (set_if_true epic_name_field (JStr (JiraIssueCreate.summary request)) fields)
  else
    match JiraIssueCreate.epic_link request with
    | Some link =>
        if String.eqb (JiraIssueCreate.issue_type request) "Story"
           && negb (String.eqb link "") then
          epic <- invoke jira_issue [JStr link] ;;
          (if negb (truthy epic) then raise_ (invalid_epic_link link)
           else
             f <- lift (py_getitem epic "fields") ;;
             t <- lift (py_getitem f "issuetype") ;;
             n <- lift (py_getitem t "name") ;;
             if negb (py_eq_str n "Epic") then raise_ (invalid_epic_link link)
             else ret tt) ;;
          epic_link_field <- _get_custom_field_id "Epic Link" ;;
          ret (set_if_true epic_link_field (JStr link) fields)
        else ret fields
    | None => ret fields
    end.

Definition validate_project (request : JiraIssueCreate.t) : M unit :=
  project <- invoke jira_project [JStr (JiraIssueCreate.project_key request)] ;;
  if negb (truthy project) then
    raise_ (Exn ValueError
      ("Project " ++ JiraIssueCreate.project_key request ++ " does not exist"))
  else ret tt.

(** The loop of [update_issue], the same in both variants: a name the
    catalog knows goes under its identifier, any other name is taken for
    a standard field and goes under its lower-cased name. *)
Definition update_field (_get_custom_field_id : string -> M (option string))
    (entry : string * json) (fields : dict) : M dict :=
  let '(field_name, value) := entry in
  field_id <- _get_custom_field_id field_name ;;
  match field_id with
  | Some i => if truthy_id field_id then ret (dict_set i value fields)
              else ret (dict_set (py_lower field_name) value fields)
  | None => ret (dict_set (py_lower field_name) value fields)
  end.

Definition validate_issue (request : JiraIssueUpdate.t) : M unit :=
  current_issue <- invoke jira_issue [JStr (JiraIssueUpdate.issue_key request)] ;;
  if negb (truthy current_issue) then
    raise_ (Exn ValueError
      ("Issue " ++ JiraIssueUpdate.issue_key request ++ " does not exist"))
  else ret tt.

End JiraCommon.

(** *** src/mcp_atlassian/jira.py *)

Module JiraManager.
Section Methods.
Context `{Collaborators}.

Definition _get_custom_field_id (field_name : string) : M (option string) :=
  mappings <- get_mappings ;;
  let field_id := assoc_get field_name mappings in
  (if negb (truthy_id field_id)
   then log WARNING ("Unknown custom field: " ++ field_name)
   else ret tt) ;;
  ret field_id.

Definition process_custom_field (entry : string * json) (processed_fields : dict)
  : M dict :=
  let '(field_name, value) := entry in
  field_id <- _get_custom_field_id field_name ;;
  match field_id with
  | Some i =>
      if truthy_id field_id then ret (dict_set i value processed_fields)
      else log WARNING ("Skipping unknown custom field: " ++ field_name) ;;
           ret processed_fields
  | None => log WARNING ("Skipping unknown custom field: " ++ field_name) ;;
            ret processed_fields
  end.

Definition _process_custom_fields (custom_fields : dict) : M dict :=
  for_each process_custom_field custom_fields [].

Definition get_issue : json -> json -> M Document :=
  get_issue_with (fun _ value => truthy value).

Definition search_issues := search_issues_with get_issue.

Definition get_project_issues (project_key : json) (start limit : Z)
  : M (list Document) :=
  let jql := "project = " ++ py_str project_key ++ " ORDER BY created DESC" in
  search_issues (JStr jql) (JStr "*all") start limit JNull.

(** The statements inside [try] of [create_issue]. *)
Definition create_issue_body (request : JiraIssueCreate.t) : M Document :=
  validate_project request ;;
  fields <- type_specific_fields _get_custom_field_id request
              (base_fields request) ;;
  fields <-
    (match JiraIssueCreate.custom_fields request with
     | [] => ret fields
     | custom_fields =>
         processed_fields <- _process_custom_fields custom_fields ;;
         ret (dict_update fields processed_fields)
     end) ;;
  issue <- invoke jira_create_issue [JDict fields] ;;
  key <- lift (py_getitem issue "key") ;;
  get_issue key JNull.

Definition create_issue (request : JiraIssueCreate.t) : M Document :=
  try_except (create_issue_body request)
    (fun e => log ERROR ("Error creating issue: " ++ exn_msg e) ;; raise_ e).

(** The statements inside [try] of [update_issue]. *)
Definition update_issue_body (request : JiraIssueUpdate.t) : M Document :=
  validate_issue request ;;
  fields <- for_each (update_field _get_custom_field_id)
              (JiraIssueUpdate.fields request) [] ;;
  let api_endpoint := "rest/api/2/issue/" ++ JiraIssueUpdate.issue_key request in
  let payload := JDict [("fields", JDict fields)] in
  url <- invoke jira_get_url [JStr api_endpoint] ;;
  response <- invoke jira_session_put [url; payload] ;;
  status_code <- lift (py_getattr response "status_code") ;;
  (if negb (py_eq_int status_code 200 || py_eq_int status_code 204) then
     status_code <- lift (py_getattr response "status_code") ;;
     text <- lift (py_getattr response "text") ;;
     let error_msg := "Failed to update issue. Status: " ++ py_str status_code
                      ++ ", Response: " ++ py_str text in
     log ERROR error_msg ;;
     raise_ (Exn ValueError error_msg)
   else ret tt) ;;
  get_issue (JStr (JiraIssueUpdate.issue_key request)) JNull.

Definition update_issue (request : JiraIssueUpdate.t) : M Document :=
  try_except (update_issue_body request)
    (fun e => log ERROR ("Error updating issue: " ++ exn_msg e) ;; raise_ e).

End Methods.
End JiraManager.

(** *** src/mcp_atlassian_ib/jira.py *)

Module JiraManagerIb.
Section Methods.
Context `{Collaborators}.

Definition _get_custom_field_id (field_name : string) : M (option string) :=
  mappings <- get_mappings ;;
  if startswith "customfield_" field_name then
    let field_id := assoc_get field_name mappings in
    if truthy_id field_id then ret field_id
    else log WARNING ("Unknown custom field ID: " ++ field_name) ;; ret None
  else
    let field_id := assoc_get field_name mappings in
    (if negb (truthy_id field_id)
     then log WARNING ("Unknown custom field name: " ++ field_name)
     else ret tt) ;;
    ret field_id.

Definition get_issue : json -> json -> M Document :=
  get_issue_with
    (fun name value => truthy value && negb (startswith "customfield_" name)).

Definition search_issues := search_issues_with get_issue.

Definition create_custom_field (entry : string * json) (fields : dict) : M dict :=
  let '(field_name, value) := entry in
  field_id <- _get_custom_field_id field_name ;;
  ret (set_if_true field_id value fields).

(** The statements inside [try] of [create_issue]. *)
Definition create_issue_body (request : JiraIssueCreate.t) : M Document :=
  validate_project request ;;
  fields <- type_specific_fields _get_custom_field_id request
              (base_fields request) ;;
  fields <-
    (match JiraIssueCreate.custom_fields request with
     | [] => ret fields
     | custom_fields => for_each create_custom_field custom_fields fields
     end) ;;
  issue <- invoke jira_create_issue [JDict fields] ;;
  key <- lift (py_getitem issue "key") ;;
  get_issue key JNull.

Definition create_issue (request : JiraIssueCreate.t) : M Document :=
  try_except (create_issue_body request)
    (fun e => log ERROR ("Error creating issue: " ++ exn_msg e) ;; raise_ e).

(** The statements inside [try] of [update_issue]. *)
Definition update_issue_body (request : JiraIssueUpdate.t) : M Document :=
  validate_issue request ;;
  fields <- for_each (update_field _get_custom_field_id)
              (JiraIssueUpdate.fields request) [] ;;
  log INFO ("Updating issue " ++ JiraIssueUpdate.issue_key request
            ++ " with fields: " ++ py_str (JDict fields)) ;;
  invoke jira_update_issue_field
    [JStr (JiraIssueUpdate.issue_key request); JDict fields] ;;
  get_issue (JStr (JiraIssueUpdate.issue_key request)) JNull.

Definition update_issue (request : JiraIssueUpdate.t) : M Document :=
  try_except (update_issue_body request)
    (fun e => log ERROR ("Error updating issue: " ++ exn_msg e) ;; raise_ e).

End Methods.
End JiraManagerIb.

(** ** server.py *)

(** [json.dumps(v, indent=2)]: the text is represented by the value it
    serialises. *)
Inductive payload : Type := json_dumps (v : json).

Record TextContent : Type := mk_TextContent {
  type : string;
  text : payload
}.

Module Server.
Section Handlers.
Context `{Collaborators}.

(** The names [list_tools] registers. *)
Definition tool_names : list string :=
  [ "confluence_search"; "confluence_get_page"; "confluence_create_page";
    "confluence_update_page"; "confluence_get_comments"; "jira_get_issue";
    "jira_create_epic"; "jira_create_story"; "jira_update_issue";
    "jira_search"; "jira_get_project_issues" ].

(** [doc.metadata[k]] *)
Definition meta (doc : Document) (k : string) : result json :=
  py_getitem (JDict (metadata doc)) k.

Definition not_found (title : string) : exn :=
  Exn ValueError ("Page not found: " ++ title).

Definition invalid_resource (uri : string) : exn :=
  Exn ValueError ("Invalid resource URI: " ++ uri).

Definition space_listing (documents : list Document) : result string :=
  (content <-?
     fold_left
       (fun acc doc =>
          (l <-? acc;
           t <-? meta doc "title";
           let entry := "# " ++ py_str t ++ nl ++ nl
                        ++ py_str (page_content doc) ++ nl ++ "---" in
           Ok (l ++ [entry])%list))
       documents (Ok []);
   Ok (str_join (nl ++ nl) content))%res.

Definition project_listing (issues : list Document) : result string :=
  (content <-?
     fold_left
       (fun acc issue =>
          (l <-? acc;
           k <-? meta issue "key";
           t <-? meta issue "title";
           let entry := "# " ++ py_str k ++ ": " ++ py_str t ++ nl ++ nl
                        ++ py_str (page_content issue) ++ nl ++ "---" in
           Ok (l ++ [entry])%list))
       issues (Ok []);
   Ok (str_join (nl ++ nl) content))%res.

(** [read_resource], on [uri_str = str(uri)].  The handler has no
    [try]: whatever is raised below it leaves it unchanged. *)
Definition read_resource (uri_str : string) : M json :=
  if startswith "confluence://" uri_str then
    let parts := str_split "/" (str_replace "confluence://" "" uri_str) in
    match parts with
    | [space_key] =>
        documents <- ConfluenceManager.get_space_pages (JStr space_key) 0 10 true ;;
        r <- lift (space_listing documents) ;;
        ret (JStr r)
    | space_key :: p :: title :: _ =>
        if String.eqb p "pages" then
          doc <- ConfluenceManager.get_page_by_title (JStr space_key) (JStr title)
                   true ;;
          match doc with
          | None => raise_ (not_found title)
          | Some doc => ret (page_content doc)
          end
        else raise_ (invalid_resource uri_str)
    | _ => raise_ (invalid_resource uri_str)
    end
  else if startswith "jira://" uri_str then
    let parts := str_split "/" (str_replace "jira://" "" uri_str) in
    match parts with
    | [project_key] =>
        issues <- JiraManager.get_project_issues (JStr project_key) 0 50 ;;
        r <- lift (project_listing issues) ;;
        ret (JStr r)
    | _ :: p :: issue_key :: _ =>
        if String.eqb p "issues" then
          issue <- JiraManager.get_issue (JStr issue_key) JNull ;;
          ret (page_content issue)
        else raise_ (invalid_resource uri_str)
    | _ => raise_ (invalid_resource uri_str)
    end
  else raise_ (invalid_resource uri_str).

(** [min(int(arguments.get("limit", 10)), 50)] *)
Definition effective_limit (arguments : json) : result Z :=
  (l <-? py_get arguments "limit" (JInt 10);
   n <-? py_int l;
   Ok (Z.min n 50))%res.

(** [[f(doc) for doc in documents]] *)
Fixpoint comprehension (f : Document -> result json) (documents : list Document)
  : result (list json) :=
  match documents with
  | [] => Ok []
  | doc :: rest =>
      (x <-? f doc; xs <-? comprehension f rest; Ok (x :: xs))%res
  end.

Definition confluence_search_entry (doc : Document) : result json :=
  (page_id <-? meta doc "page_id";
   title <-? meta doc "title";
   space <-? meta doc "space";
   url <-? meta doc "url";
   last_modified <-? meta doc "last_modified";
   ty <-? meta doc "type";
   Ok (JDict [ ("page_id", page_id); ("title", title); ("space", space);
               ("url", url); ("last_modified", last_modified); ("type", ty);
               ("excerpt", page_content doc) ]))%res.

Definition comment_entry (comment : Document) : result json :=
  (author <-? meta comment "author_name";
   created <-? meta comment "last_modified";
   Ok (JDict [ ("author", author); ("created", created);
               ("content", page_content comment) ]))%res.

(** [c[:500] + "..." if len(c) > 500 else c] *)
Definition excerpt (c : json) : result json :=
  match c with
  | JStr s =>
      if (500 <? str_len s)%nat then Ok (JStr (str_take 500 s ++ "..."))
      else Ok c
  | JList l =>
      if (500 <? List.length l)%nat then
        Err (Exn TypeError
          ("can only concatenate list (not " ++ dq ++ "str" ++ dq ++ ") to list"))
      else Ok c
  | JDict d =>
      if (500 <? List.length d)%nat then
        Err (Exn TypeError "unhashable type: 'slice'")
      else Ok c
  | _ => Err (Exn TypeError ("object of type '" ++ type_name c ++ "' has no len()"))
  end.

Definition jira_search_entry (doc : Document) : result json :=
  (key <-? meta doc "key";
   title <-? meta doc "title";
   ty <-? meta doc "type";
   status <-? meta doc "status";
   created_date <-? meta doc "created_date";
   priority <-? meta doc "priority";
   link <-? meta doc "link";
   e <-? excerpt (page_content doc);
   Ok (JDict [ ("key", key); ("title", title); ("type", ty); ("status", status);
               ("created_date", created_date); ("priority", priority);
               ("link", link); ("excerpt", e) ]))%res.

Definition project_issue_entry (doc : Document) : result json :=
  (key <-? meta doc "key";
   title <-? meta doc "title";
   ty <-? meta doc "type";
   status <-? meta doc "status";
   created_date <-? meta doc "created_date";
   link <-? meta doc "link";
   Ok (JDict [ ("key", key); ("title", title); ("type", ty); ("status", status);
               ("created_date", created_date); ("link", link) ]))%res.

Definition respond (v : json) : M (list TextContent) :=
  ret [mk_TextContent "text" (json_dumps v)].

Definition content_and_metadata (doc : Document) : json :=
  JDict [("content", page_content doc); ("metadata", JDict (metadata doc))].

(** The module imports [ConfluenceManager] and [JiraManager] only: the
    request classes of [types.py] are not bound in it, and the call of
    one raises before any of its arguments is evaluated. *)
Definition unbound {A} (name : string) : M A :=
  raise_ (Exn NameError ("name '" ++ name ++ "' is not defined")).

(** The statements inside [try] of [call_tool]. *)
Definition call_tool_body (name : string) (arguments : json)
  : M (list TextContent) :=
  if String.eqb name "confluence_search" then
    limit <- lift (effective_limit arguments) ;;
    query <- lift (py_getitem arguments "query") ;;
    documents <- ConfluenceManager.search query limit ;;
    search_results <- lift (comprehension confluence_search_entry documents) ;;
    respond (JList search_results)
  else if String.eqb name "confluence_get_page" then
    page_id <- lift (py_getitem arguments "page_id") ;;
    doc <- ConfluenceManager.get_page_content page_id true ;;
    include_metadata <- lift (py_get arguments "include_metadata" (JBool true)) ;;
    respond (if truthy include_metadata then content_and_metadata doc
             else JDict [("content", page_content doc)])
  else if String.eqb name "confluence_create_page" then
    unbound "ConfluencePageCreate"
  else if String.eqb name "confluence_update_page" then
    unbound "ConfluencePageUpdate"
  else if String.eqb name "confluence_get_comments" then
    page_id <- lift (py_getitem arguments "page_id") ;;
    comments <- ConfluenceManager.get_page_comments page_id true ;;
    formatted_comments <- lift (comprehension comment_entry comments) ;;
    respond (JList formatted_comments)
  else if String.eqb name "jira_get_issue" then
    issue_key <- lift (py_getitem arguments "issue_key") ;;
    expand <- lift (py_get arguments "expand" JNull) ;;
    doc <- JiraManager.get_issue issue_key expand ;;
    respond (content_and_metadata doc)
  else if String.eqb name "jira_create_epic" then
    unbound "JiraIssueCreate"
  else if String.eqb name "jira_create_story" then
    unbound "JiraIssueCreate"
  else if String.eqb name "jira_update_issue" then
    unbound "JiraIssueUpdate"
  else if String.eqb name "jira_search" then
    limit <- lift (effective_limit arguments) ;;
    jql <- lift (py_getitem arguments "jql") ;;
    fields <- lift (py_get arguments "fields" (JStr "*all")) ;;
    documents <- JiraManager.search_issues jql fields 0 limit JNull ;;
    search_results <- lift (comprehension jira_search_entry documents) ;;
    respond (JList search_results)
  else if String.eqb name "jira_get_project_issues" then
    limit <- lift (effective_limit arguments) ;;
    project_key <- lift (py_getitem arguments "project_key") ;;
    documents <- JiraManager.get_project_issues project_key 0 limit ;;
    project_issues <- lift (comprehension project_issue_entry documents) ;;
    respond (JList project_issues)
  else raise_ (Exn ValueError ("Unknown tool: " ++ name)).

Definition execution_failed (e : exn) : exn :=
  Exn RuntimeError ("Tool execution failed: " ++ exn_msg e).

Definition call_tool (name : string) (arguments : json) : M (list TextContent) :=
  try_except (call_tool_body name arguments)
    (fun e =>
       log ERROR ("Tool execution error: " ++ exn_msg e) ;;
       raise_ (execution_failed e)).

End Handlers.
End Server.

(** ** Loops without effects *)

(** [for x in l: acc = body x acc] for a body that only computes. *)
Fixpoint fold_result {A B} (body : A -> B -> result B) (l : list A) (acc : B)
  : result B :=
  match l with
  | [] => Ok acc
  | x :: l' => rbind (body x acc) (fold_result body l')
  end.

(** The test of [search] on a hit: [content.get("type") == "page"]. *)
Definition is_page (hit : json) : bool :=
  match py_get hit "content" (JDict []) with
  | Ok content =>
      match py_get content "type" JNull with
      | Ok ty => py_eq_str ty "page"
      | Err _ => false
      end
  | Err _ => false
  end.

(** ** A concrete setting

    A remote service scripted by a function from calls to answers, with a
    preprocessor that returns its input; the closed examples run in it.
    Its [py_lower] is [str_lower], which is [str.lower()] on the ASCII
    names the examples use. *)

Module Demo.

Definition scripted (answer : call -> result json) : Collaborators := {|
  World := unit;
  remote := fun c w => (answer c, w);
  clean_jira_text := fun j w => (Ok j, w);
  process_html_content := fun html _ w => (Ok (html, html), w);
  py_repr := fun _ => "<value>";
  py_lower := str_lower;
  int_of_str := fun _ => Err (Exn ValueError "invalid literal for int() with base 10");
  confluence_url := "https://example.atlassian.net";
  jira_url := "https://example.atlassian.net/"
|}.

(** The catalog of [src/mcp_atlassian/jira.py] before discovery. *)
Definition seed : list (string * string) :=
  [ ("Epic Name", "customfield_10021");
    ("Epic Link", "customfield_10019");
    ("Acceptance Criteria", "customfield_11738");
    ("Story Points", "customfield_10026") ].

Definition start (answer : call -> result json) : @state (scripted answer) :=
  @mk_state (scripted answer) tt seed [].

Definition unreachable : exn := Exn RemoteError "503 Service Unavailable".

(** A remote service that fails every call. *)
Definition down : call -> result json := fun _ => Err unreachable.

(** Two search hits, a page and a comment on it. *)
Definition page_hit : json :=
  JDict [ ("content", JDict [("id", JStr "1001"); ("type", JStr "page")]);
          ("title", JStr "Release notes");
          ("url", JStr "/spaces/DEV/pages/1001");
          ("excerpt", JStr "What changed in this release") ].

Definition comment_hit : json :=
  JDict [ ("content", JDict [("id", JStr "2002"); ("type", JStr "comment")]);
          ("title", JStr "Re: Release notes");
          ("url", JStr "/spaces/DEV/pages/1001?focusedCommentId=2002");
          ("excerpt", JStr "Thanks") ].

Definition two_hits : call -> result json := fun c =>
  match call_method c with
  | confluence_cql => Ok (JDict [("results", JList [page_hit; comment_hit])])
  | _ => Err unreachable
  end.

(** An issue tracker holding one story, DEV-1, with a long description:
    600 characters of two bytes each. *)
Fixpoint filler (n : nat) : string :=
  match n with
  | O => EmptyString
  | S k => "é" ++ filler k
  end.

Definition story_DEV_1 : json :=
  JDict [ ("key", JStr "DEV-1");
          ("fields",
           JDict [ ("summary", JStr "Export the report");
                   ("description", JStr (filler 600));
                   ("issuetype", JDict [("name", JStr "Story")]);
                   ("status", JDict [("name", JStr "Open")]);
                   ("created", JStr "2024-01-05T10:00:00Z");
                   ("priority", JDict [("name", JStr "High")]);
                   ("comment",
                    JDict [ ("comments",
                             JList [ JDict [ ("body", JStr "Looks good");
                                             ("created", JStr "2024-02-29T23:10:00.000+01:00");
                                             ("author", JDict [("displayName", JStr "Ada")]) ] ]) ]) ]) ].

Definition tracker : call -> result json := fun c =>
  match call_method c with
  | jira_jql => Ok (JDict [("issues", JList [story_DEV_1])])
  | jira_issue =>
      match call_args c with
      | JStr "DEV-1" :: _ => Ok story_DEV_1
      | _ => Ok JNull
      end
  | jira_project => Ok (JDict [("key", JStr "DEV")])
  | jira_create_issue => Ok (JDict [("key", JStr "DEV-1")])
  | jira_get_url => Ok (JStr "https://example.atlassian.net/rest/api/2/issue/DEV-1")
  | jira_session_put => Ok (JDict [("status_code", JInt 204); ("text", JStr "")])
  | _ => Err unreachable
  end.

(** A story linked to DEV-1, which is no epic, and one with an empty link. *)
Definition linked_story : JiraIssueCreate.t :=
  JiraIssueCreate.mk "DEV" "Export as CSV" "" "Story" (Some "DEV-1") [].

Definition loose_story : JiraIssueCreate.t :=
  JiraIssueCreate.mk "DEV" "Export as CSV" "" "Story" (Some "") [].

(** An update naming a field the catalog does not know. *)
Definition recolour : JiraIssueUpdate.t :=
  JiraIssueUpdate.mk "DEV-1" [("Team Color", JStr "blue")].

(** A wiki holding one page, at version 3. *)
Definition page_1001 : json :=
  JDict [ ("id", JStr "1001");
          ("title", JStr "Release notes");
          ("version",
           JDict [ ("number", JInt 3);
                   ("when", JStr "2024-01-05T10:00:00Z");
                   ("by", JDict [("displayName", JStr "Ada")]) ]);
          ("space", JDict [("key", JStr "DEV"); ("name", JStr "Development")]);
          ("body", JDict [("storage", JDict [("value", JStr "<p>Hello</p>")])]) ].

Definition wiki : call -> result json := fun c =>
  match call_method c with
  | confluence_get_page_by_id => Ok page_1001
  | confluence_get_page_by_title => Ok page_1001
  | confluence_update_page => Ok (JDict [("id", JStr "1001")])
  | _ => Err unreachable
  end.

Definition stale_update : ConfluencePageUpdate.t :=
  ConfluencePageUpdate.mk "1001" "Release notes" "h1. Hello" 2.

(** A tracker that refuses the update of DEV-1. *)
Definition refusing : call -> result json := fun c =>
  match call_method c with
  | jira_session_put =>
      Ok (JDict [ ("status_code", JInt 400);
                  ("text", JStr "Field 'team color' cannot be set") ])
  | _ => tracker c
  end.

(** A wiki whose spaces hold no page. *)
Definition empty_space : call -> result json := fun c =>
  match call_method c with
  | confluence_get_all_pages_from_space => Ok (JList [])
  | _ => Err unreachable
  end.

(** The wiki's page with one comment on it. *)
Definition comment_2002 : json :=
  JDict [ ("id", JStr "2002");
          ("body", JDict [("view", JDict [("value", JStr "<p>Thanks</p>")])]);
          ("version",
           JDict [ ("when", JStr "2024-01-06T09:30:00Z");
                   ("by", JDict [("displayName", JStr "Grace")]) ]) ].

Definition commented : call -> result json := fun c =>
  match call_method c with
  | confluence_get_page_by_id => Ok page_1001
  | confluence_get_page_comments => Ok (JDict [("results", JList [comment_2002])])
  | _ => Err unreachable
  end.

(** A tracker without the project DEV, and one that answers the lookup of
    an issue it does not hold as the remote service does, with an
    error. *)
Definition no_project : call -> result json := fun c =>
  match call_method c with
  | jira_project => Ok JNull
  | _ => tracker c
  end.

Definition not_found : exn := Exn RemoteError "404 Issue Does Not Exist".

Definition strict : call -> result json := fun c =>
  match call_method c with
  | jira_issue => Err not_found
  | _ => tracker c
  end.

End Demo.

(** A document as [get_issue] builds it: text content, and the eight
    metadata entries in their order. *)
Definition issue_document (doc : Document) : Prop :=
  exists c key title ty status created priority link custom_fields,
    doc = mk_Document (JStr c)
            [ ("key", key); ("title", title); ("type", ty); ("status", status);
              ("created_date", created); ("priority", priority);
              ("link", link); ("custom_fields", custom_fields) ].

(** ** The field catalog at work

    What the two loops over supplied field names compute, the log left
    aside: on creation a name goes under its identifier when the catalog
    has a true one for it and is left out otherwise; on update a name
    without one goes under its lower-cased self. *)

Definition translate (m : list (string * string)) (custom_fields acc : dict)
  : dict :=
  fold_left (fun acc kv => set_if_true (assoc_get (fst kv) m) (snd kv) acc)
    custom_fields acc.

Definition update_key `{Collaborators} (m : list (string * string))
    (field_name : string) : string :=
  if truthy_id (assoc_get field_name m) then
    match assoc_get field_name m with
    | Some i => i
    | None => py_lower field_name
    end
  else py_lower field_name.

Definition renamed `{Collaborators} (m : list (string * string))
    (fields acc : dict) : dict :=
  fold_left (fun acc kv => dict_set (update_key m (fst kv)) (snd kv) acc)
    fields acc.

(** ** Traces

    A computation appends to the trace: what was issued before it stays,
    in its place. *)

Definition appends `{Collaborators} {A} (m : M A) : Prop :=
  forall s, exists rest, trace (snd (m s)) = (trace s ++ rest)%list.

(** The calls among the events. *)
Fixpoint calls_of (t : list event) : list call :=
  match t with
  | [] => []
  | ECall c :: t' => c :: calls_of t'
  | ELog _ _ :: t' => calls_of t'
  end.

(** What a loop over field names leaves of the state: the remote world,
    the catalog and the calls are untouched, and the log has grown. *)
Definition only_logged `{Collaborators} (s s' : state) : Prop :=
  world s' = world s
  /\ CUSTOM_FIELD_MAPPINGS s' = CUSTOM_FIELD_MAPPINGS s
  /\ calls_of (trace s') = calls_of (trace s)
  /\ (forall ev, In ev (trace s) -> In ev (trace s')).

(** The test [create_issue] applies to the issue an epic-link names: it is
    a true value and [epic["fields"]["issuetype"]["name"]] is "Epic". *)
Definition is_epic (epic : json) : bool :=
  truthy epic
  && match rbind (py_getitem epic "fields")
             (fun f => rbind (py_getitem f "issuetype")
                         (fun t => py_getitem t "name")) with
     | Ok n => py_eq_str n "Epic"
     | Err _ => false
     end.

(** [create_issue] in the shape both variants have: the project check, the
    type-specific fields, and a variant's own [rest]. *)
Definition create_issue_shape `{Collaborators}
    (_get_custom_field_id : string -> M (option string))
    (rest : dict -> M Document) (request : JiraIssueCreate.t) : M Document :=
  try_except
    (validate_project request ;;
     fields <- type_specific_fields _get_custom_field_id request
                 (base_fields request) ;;
     rest fields)
    (fun e => log ERROR ("Error creating issue: " ++ exn_msg e) ;; raise_ e).

(** The calls between [s] and [s'] start with the lookup of the project
    and, unless that is all, the lookup of the linked issue; anything
    after it was issued only because the linked issue passed the test. *)
Definition validated_first `{Collaborators} (request : JiraIssueCreate.t)
    (link : string) (s s' : state) : Prop :=
  calls_of (trace s')
  = (calls_of (trace s)
     ++ [Call jira_project [JStr (JiraIssueCreate.project_key request)]])%list
  \/ exists more,
       calls_of (trace s')
       = (calls_of (trace s)
          ++ Call jira_project [JStr (JiraIssueCreate.project_key request)]
          :: Call jira_issue [JStr link] :: more)%list
       /\ (more <> [] ->
           exists epic,
             fst (remote (Call jira_issue [JStr link])
                    (world (after_call jira_project
                              [JStr (JiraIssueCreate.project_key request)] s)))
             = Ok epic
             /\ is_epic epic = true).

(** ** Invariants of runs

    A relation between the state before and after a computation, kept by
    every step that logs, calls the preprocessor, or issues a call that
    [allowed] admits. *)

Definition steps `{Collaborators} (R : state -> state -> Prop) {A} (m : M A)
  : Prop :=
  forall s, R s (snd (m s)).

Record invariant `{Collaborators} (R : state -> state -> Prop)
    (allowed : call -> bool) : Prop := {
  inv_refl : forall s, R s s;
  inv_trans : forall s1 s2 s3, R s1 s2 -> R s2 s3 -> R s1 s3;
  inv_log : forall lvl msg s, R s (after_log lvl msg s);
  inv_world : forall w s, R s (mk_state w (CUSTOM_FIELD_MAPPINGS s) (trace s));
  inv_call : forall m args s,
      allowed (Call m args) = true -> R s (after_call m args s)
}.

(** Between [s] and [s'] the catalog was not touched, nothing issued
    before was removed, and no call that modifies a remote service was
    issued. *)
Definition read_only `{Collaborators} (s s' : state) : Prop :=
  CUSTOM_FIELD_MAPPINGS s' = CUSTOM_FIELD_MAPPINGS s
  /\ exists rest,
       trace s' = (trace s ++ rest)%list
       /\ Forall (fun c => is_write c = false) (calls_of rest).

(** Between [s] and [s'] the catalog was not touched and no call of a
    client was issued at all. *)
Definition no_call `{Collaborators} (s s' : state) : Prop :=
  CUSTOM_FIELD_MAPPINGS s' = CUSTOM_FIELD_MAPPINGS s
  /\ calls_of (trace s') = calls_of (trace s).

(** A lookup in the catalog as both variants of [_get_custom_field_id]
    perform it: it returns, having logged at most; what it returns is a
    true identifier exactly when the catalog has one for the name, and
    then it is that one. *)
Definition resolves `{Collaborators} (lookup : string -> M (option string))
  : Prop :=
  forall name s,
    exists field_id s',
      lookup name s = (Ok field_id, s')
      /\ only_logged s s'
      /\ truthy_id field_id = truthy_id (assoc_get name (CUSTOM_FIELD_MAPPINGS s))
      /\ (truthy_id field_id = true ->
          field_id = assoc_get name (CUSTOM_FIELD_MAPPINGS s) /\ s' = s)
      /\ (truthy_id field_id = false ->
          exists msg, s' = after_log WARNING msg s).




(** The calls of [create_page]: the lookup of the space; then, only when
    the lookup returned a true value, the creation; then, only when the
    creation returned a page with an id, the read of that page. *)
Definition create_page_calls `{Collaborators} (request : ConfluencePageCreate.t)
    (s : state) (calls : list call) : Prop :=
  let lookup :=
    Call confluence_get_space [JStr (ConfluencePageCreate.space_key request)] in
  let create :=
    Call confluence_create_page
      [ JStr (ConfluencePageCreate.space_key request);
        JStr (ConfluencePageCreate.title request);
        JStr (ConfluencePageCreate.content request);
        match ConfluencePageCreate.parent_id request with
        | Some p => JStr p
        | None => JNull
        end;
        JStr "wiki" ] in
  calls = [lookup]
  \/ exists space,
       fst (remote lookup (world s)) = Ok space
       /\ truthy space = true
       /\ (calls = [lookup; create]
           \/ exists page id,
                fst (remote create (snd (remote lookup (world s)))) = Ok page
                /\ py_getitem page "id" = Ok id
                /\ calls = [ lookup; create;
                             Call confluence_get_page_by_id
                               [id; JStr "body.storage,version,space"] ]).

(** ** The two variants of [jira.py], side by side

    Two states are alike when they differ in their log at most: the same
    remote world, the same catalog, the same calls issued.  Two
    computations agree when, started in states that are alike, they end
    in states that are alike, both raising the same exception or
    returning results that [Q] relates. *)

Definition alike `{Collaborators} (s1 s2 : state) : Prop :=
  world s1 = world s2
  /\ CUSTOM_FIELD_MAPPINGS s1 = CUSTOM_FIELD_MAPPINGS s2
  /\ calls_of (trace s1) = calls_of (trace s2).

Definition same_outcome {A B} (Q : A -> B -> Prop) (r1 : result A) (r2 : result B)
  : Prop :=
  match r1, r2 with
  | Ok a, Ok b => Q a b
  | Err e1, Err e2 => e1 = e2
  | _, _ => False
  end.

Definition agree `{Collaborators} {A B} (Q : A -> B -> Prop)
    (m1 : M A) (m2 : M B) : Prop :=
  forall s1 s2,
    alike s1 s2 ->
    same_outcome Q (fst (m1 s1)) (fst (m2 s2))
    /\ alike (snd (m1 s1)) (snd (m2 s2)).

(** Two identifiers that the code cannot tell apart: it tests their truth
    value and uses a true one. *)
Definition same_id (a b : option string) : Prop :=
  truthy_id a = truthy_id b /\ (truthy_id a = true -> a = b).

Definition same_metadata (d1 d2 : Document) : Prop :=
  metadata d1 = metadata d2.

(** Two adjacent slashes somewhere in [s]. *)
Fixpoint double_slash (s : string) : bool :=
  match s with
  | String a ((String b _) as s') =>
      (Ascii.eqb a "/" && Ascii.eqb b "/") || double_slash s'
  | _ => false
  end.

(** A document of [get_page_comments] built from [comment], for the page
    asked for. *)
Definition comment_document (page_id comment : json) (doc : Document) : Prop :=
  dict_get "page_id" (metadata doc) = Some page_id
  /\ dict_get "type" (metadata doc) = Some (JStr "comment")
  /\ (exists id,
        py_getitem comment "id" = Ok id
        /\ dict_get "comment_id" (metadata doc) = Some id)
  /\ exists author when,
       dict_get "author_name" (metadata doc) = Some author
       /\ dict_get "last_modified" (metadata doc) = Some when.

(** A computation issues at most [n] calls that modify a remote service,
    and removes nothing that was issued before it. *)
Definition writes_at_most `{Collaborators} (n : nat) {A} (m : M A) : Prop :=
  forall s,
    exists rest,
      trace (snd (m s)) = (trace s ++ rest)%list
      /\ (List.length (filter is_write (calls_of rest)) <= n)%nat.

(** ** The fields of a new issue, in closed form

    What [create_issue] sends, as a function of the request and the
    catalog: the four base fields; for an Epic its name, for a Story with
    a true epic-link the link, each under the catalog's identifier when it
    has a true one; then every custom field the catalog resolves. *)

Definition type_fields (m : list (string * string)) (request : JiraIssueCreate.t)
  : dict :=
  if String.eqb (JiraIssueCreate.issue_type request) "Epic" then
    set_if_true (assoc_get "Epic Name" m) (JStr (JiraIssueCreate.summary request))
      (base_fields request)
  else
    match JiraIssueCreate.epic_link request with
    | Some link =>
        if String.eqb (JiraIssueCreate.issue_type request) "Story"
           && negb (String.eqb link "")
        then set_if_true (assoc_get "Epic Link" m) (JStr link) (base_fields request)
        else base_fields request
    | None => base_fields request
    end.

Definition create_fields (m : list (string * string)) (request : JiraIssueCreate.t)
  : dict :=
  translate m (JiraIssueCreate.custom_fields request) (type_fields m request).

(** Between [s] and [s'] the catalog is unchanged and every creation
    call issued is [target]. *)
Definition creates_only `{Collaborators} (target : call) (s s' : state) : Prop :=
  CUSTOM_FIELD_MAPPINGS s' = CUSTOM_FIELD_MAPPINGS s
  /\ exists calls,
       calls_of (trace s') = (calls_of (trace s) ++ calls)%list
       /\ Forall (fun c => call_method c = jira_create_issue -> c = target) calls.

Definition is_create (c : call) : bool :=
  match call_method c with
  | jira_create_issue => true
  | _ => false
  end.

(** The one creation call of [create_issue]. *)
Definition create_call (m : list (string * string)) (request : JiraIssueCreate.t)
  : call :=
  Call jira_create_issue [JDict (create_fields m request)].

(** ** The shape of a display date *)

(** Every character of [s] passes [P]. *)
Fixpoint str_forall (P : ascii -> bool) (s : string) : bool :=
  match s with
  | EmptyString => true
  | String c s' => P c && str_forall P s'
  end.

Definition is_digit_char (c : ascii) : bool := Datetime.is_digit (Datetime.code c).

(** The characters a calendar date or a week date is written with. *)
Definition date_char (c : ascii) : bool :=
  is_digit_char c || Ascii.eqb c "-" || Ascii.eqb c "W".

(** [YYYY-MM-DD]: a year of four digits, a month and a day of two, a dash
    after the year and after the month. *)
Definition yyyy_mm_dd (d : string) : bool :=
  match d with
  | String y1 (String y2 (String y3 (String y4 (String s1
      (String m1 (String m2 (String s2
        (String d1 (String d2 EmptyString))))))))) =>
      forallb is_digit_char [y1; y2; y3; y4; m1; m2; d1; d2]
      && Ascii.eqb s1 "-" && Ascii.eqb s2 "-"
  | _ => false
  end.

(** * Properties *)

Unset Implicit Arguments.

(** ** Request validation ([types.py]) *)

(** C3.  Constructing an issue-create request succeeds exactly when the
    issue type is 'Epic' or 'Story' and it is not an Epic given an
    epic-link (an [epic_link] other than [None]).  The constructor either
    raises, and then returns no object, or returns the object with every
    field set from its argument; with the custom-fields argument absent the
    object's custom fields are the empty mapping. *)
Theorem JiraIssueCreate_construction :
  forall project_key summary description issue_type epic_link custom_fields,
    ((exists request,
        JiraIssueCreate.new project_key summary description issue_type
          epic_link custom_fields = Ok request)
     <-> ((issue_type = "Epic" \/ issue_type = "Story")
          /\ ~ (issue_type = "Epic" /\ epic_link <> None)))
    /\ ((exists e,
          JiraIssueCreate.new project_key summary description issue_type
            epic_link custom_fields = Err e)
        \/ JiraIssueCreate.new project_key summary description issue_type
             epic_link custom_fields
           = Ok (JiraIssueCreate.mk project_key summary description issue_type
                   epic_link
                   (match custom_fields with Some d => d | None => [] end)))
    /\ (forall request,
          JiraIssueCreate.new project_key summary description issue_type
            epic_link None = Ok request ->
          JiraIssueCreate.custom_fields request = []).
Proof.
  intros pk su de ty el cf. unfold JiraIssueCreate.new.
  destruct (String.eqb_spec ty "Epic") as [He | He];
    destruct (String.eqb_spec ty "Story") as [Hs | Hs];
    destruct el as [l |]; cbn [orb negb andb];
    (split; [split | split]).
  all: try solve [intros [r Hr]; discriminate Hr].
  all: try solve [intros r Hr; first [discriminate Hr | injection Hr as <-; reflexivity]].
  all: try solve [left; eexists; reflexivity].
  all: try solve [right; destruct cf as [[| x d] |]; reflexivity].
  all: try solve [intros _; eexists; reflexivity].
  all: try solve [intros _; split; [tauto | intros [Ht Hl]; congruence]].
  all: try solve [intros [[Ht | Ht] Hn]; try contradiction;
                  exfalso; apply Hn; split; [assumption | discriminate]].
  all: try solve [intros [[Ht | Ht] Hn]; congruence].
Qed.

(** ** Stepping through computations *)

Section Stepping.
Context `{Collaborators}.

Lemma for_each_lift {A B} (body : A -> B -> result B) (l : list A) (acc : B)
    (s : state) :
  for_each (fun x a => lift (body x a)) l acc s = (fold_result body l acc, s).
Proof.
  revert acc; induction l as [| x l IH]; intros acc; cbn.
  - reflexivity.
  - unfold bind, lift. destruct (body x acc) as [a | e]; cbn.
    + apply IH.
    + reflexivity.
Qed.

Lemma invoke_eq (m : method) (args : list json) (s : state) :
  invoke m args s = (fst (remote (Call m args) (world s)), after_call m args s).
Proof.
  unfold invoke, after_call. destruct (remote (Call m args) (world s)); reflexivity.
Qed.

End Stepping.

(** ** The result limit ([server.py]) *)

Section Limit.
Context `{Collaborators}.

(** Whatever the arguments, the limit handed on is at most 50. *)
Lemma effective_limit_at_most_50 (arguments : json) (n : Z) :
  Server.effective_limit arguments = Ok n -> n <= 50.
Proof.
  unfold Server.effective_limit, rbind.
  destruct (py_get arguments "limit" (JInt 10)) as [l | e]; [| discriminate].
  destruct (py_int l) as [k | e]; [| discriminate].
  intros [= <-]. apply Z.le_min_r.
Qed.

(** An integer limit of at least 1 is served within the declared bounds. *)
Lemma effective_limit_in_bounds (d : dict) (z : Z) :
  dict_get "limit" d = Some (JInt z) -> 1 <= z ->
  Server.effective_limit (JDict d) = Ok (Z.min z 50) /\ 1 <= Z.min z 50 <= 50.
Proof.
  intros Hd Hz. unfold Server.effective_limit, py_get. rewrite Hd. cbn.
  split; [reflexivity | lia].
Qed.

End Limit.

(** ** Content search ([confluence.py]) *)

Section Search.
Context `{Collaborators}.

Lemma search_body_eq (cql : json) (limit : Z) (s : state) :
  ConfluenceManager.search_body cql limit s
  = (rbind (fst (remote (Call confluence_cql [cql; JInt limit]) (world s)))
       (fun results =>
          rbind (py_get results "results" (JList []))
            (fun hits =>
               rbind (py_iter hits)
                 (fun hits => fold_result ConfluenceManager.search_hit hits []))),
     after_call confluence_cql [cql; JInt limit] s).
Proof.
  unfold ConfluenceManager.search_body, bind. rewrite invoke_eq.
  destruct (fst (remote _ _)) as [results | e]; cbn; [| reflexivity].
  unfold lift. destruct (py_get results "results" (JList [])) as [h | e]; cbn;
    [| reflexivity].
  destruct (py_iter h) as [hits | e]; cbn; [| reflexivity].
  apply for_each_lift.
Qed.

(** A hit either leaves the list as it is, when it is no page, or adds one
    document of type "page" at its end. *)
Lemma search_hit_cases (hit : json) (acc acc' : list Document) :
  ConfluenceManager.search_hit hit acc = Ok acc' ->
  (is_page hit = false /\ acc' = acc)
  \/ (is_page hit = true /\
      exists doc, acc' = (acc ++ [doc])%list
                  /\ ConfluenceManager.search_hit hit [] = Ok [doc]
                  /\ dict_get "type" (metadata doc) = Some (JStr "page")).
Proof.
  unfold ConfluenceManager.search_hit, is_page, rbind.
  destruct (py_get hit "content" (JDict [])) as [content | e]; [| discriminate].
  destruct (py_get content "type" JNull) as [ty | e] eqn:Hty; [| discriminate].
  destruct (py_eq_str ty "page") eqn:Hpage.
  - destruct (py_getitem content "id") as [id | e]; [| discriminate].
    destruct (py_getitem hit "title") as [title | e]; [| discriminate].
    destruct (py_get hit "resultGlobalContainer" (JDict [])) as [c | e];
      [| discriminate].
    destruct (py_get c "title" JNull) as [space | e]; [| discriminate].
    destruct (py_getitem hit "url") as [url | e]; [| discriminate].
    destruct (py_get hit "lastModified" JNull) as [lm | e]; [| discriminate].
    destruct (py_getitem content "type") as [ty' | e] eqn:Hty'; [| discriminate].
    destruct (py_get hit "excerpt" (JStr "")) as [ex | e]; [| discriminate].
    intros [= <-]. right. split; [reflexivity |].
    eexists. split; [reflexivity |]. split; [reflexivity |]. cbn.
    destruct ty as [| | | | t | |]; try discriminate Hpage.
    apply String.eqb_eq in Hpage. subst t.
    destruct content as [| | | | | | d]; try discriminate Hty.
    cbn in Hty, Hty'. destruct (dict_get "type" d) as [v |]; [| discriminate].
    congruence.
  - intros [= <-]. left. split; reflexivity.
Qed.

Lemma search_loop_pages (hits : list json) (acc docs : list Document) :
  fold_result ConfluenceManager.search_hit hits acc = Ok docs ->
  exists found,
    docs = (acc ++ found)%list
    /\ Forall2 (fun hit doc => ConfluenceManager.search_hit hit [] = Ok [doc])
         (filter is_page hits) found
    /\ Forall (fun doc => dict_get "type" (metadata doc) = Some (JStr "page"))
         found.
Proof.
  revert acc; induction hits as [| hit hits IH]; intros acc; cbn.
  - intros [= <-]. exists []. rewrite app_nil_r. repeat constructor.
  - unfold rbind at 1.
    destruct (ConfluenceManager.search_hit hit acc) as [acc' |] eqn:Hhit;
      [| discriminate].
    intros Hrest. apply IH in Hrest as (found & -> & Hall & Hty).
    apply search_hit_cases in Hhit as [[Hp ->] | [Hp (doc & -> & Hdoc & Hd)]];
      rewrite Hp.
    + exists found. auto.
    + exists (doc :: found). rewrite <- app_assoc. cbn. auto.
Qed.

(** [search] never raises: it returns what the loop built, or the empty
    list when anything in its [try] raised. *)
Lemma search_eq (cql : json) (limit : Z) (s : state) :
  ConfluenceManager.search cql limit s
  = match fst (ConfluenceManager.search_body cql limit s) with
    | Ok docs => (Ok docs, after_call confluence_cql [cql; JInt limit] s)
    | Err e => (Ok [],
                after_log ERROR ("Search failed with error: " ++ exn_msg e)
                  (after_call confluence_cql [cql; JInt limit] s))
    end.
Proof.
  unfold ConfluenceManager.search, try_except. rewrite search_body_eq. cbn [fst].
  destruct (rbind _ _); reflexivity.
Qed.

End Search.

(** C9.  [search] always returns a list.  Every document in it has type
    "page"; unless the list is empty, its documents are, in order, the ones
    built from the hits whose content type is "page", the other hits
    leaving no trace in it, so it is no longer than the list of hits.  And
    it can be shorter: of a page and a comment, only the page is returned. *)
Theorem search_returns_pages_only :
  (forall (C : Collaborators) (cql : json) (limit : Z) (s : state),
     exists docs,
       fst (ConfluenceManager.search cql limit s) = Ok docs
       /\ Forall (fun doc => dict_get "type" (metadata doc) = Some (JStr "page"))
            docs
       /\ (docs = []
           \/ exists results hits_value hits,
               fst (remote (Call confluence_cql [cql; JInt limit]) (world s))
               = Ok results
               /\ py_get results "results" (JList []) = Ok hits_value
               /\ py_iter hits_value = Ok hits
               /\ Forall2
                    (fun hit doc => ConfluenceManager.search_hit hit [] = Ok [doc])
                    (filter is_page hits) docs
               /\ (List.length docs <= List.length hits)%nat))
  /\ (exists docs,
        fst (@ConfluenceManager.search (Demo.scripted Demo.two_hits)
               (JStr "text ~ release") 10 (Demo.start Demo.two_hits)) = Ok docs
        /\ List.length docs = 1%nat
        /\ List.length [Demo.page_hit; Demo.comment_hit] = 2%nat).
Proof.
  split.
  - intros C cql limit s. rewrite search_eq, search_body_eq. cbn [fst].
    destruct (fst (remote _ _)) as [results | e]; cbn [rbind];
      [| exists []; cbn; auto].
    destruct (py_get results "results" (JList [])) as [hv | e] eqn:Hhv;
      cbn [rbind]; [| exists []; cbn; auto].
    destruct (py_iter hv) as [hits | e] eqn:Hhits; cbn [rbind];
      [| exists []; cbn; auto].
    destruct (fold_result ConfluenceManager.search_hit hits []) as [docs | e]
      eqn:Hloop; [| exists []; cbn; auto].
    apply search_loop_pages in Hloop as (found & -> & Hall & Hty).
    exists found. cbn. repeat split; try assumption.
    right. exists results, hv, hits. repeat split; try assumption.
    apply Forall2_length in Hall. rewrite <- Hall. apply filter_length_le.
  - eexists. split; [vm_compute; reflexivity |]. split; reflexivity.
Qed.

(** ** The result limit, continued *)

(** C1.  A limit of 0 is not raised to 1: the search tool computes an
    effective limit of 0, and that is the limit its remote query carries. *)
Theorem limit_below_one_is_not_clamped :
  forall (C : Collaborators) (s : state),
    Server.effective_limit
      (JDict [("query", JStr "type=page"); ("limit", JInt 0)]) = Ok 0
    /\ exists rest,
         trace (snd (Server.call_tool "confluence_search"
                       (JDict [("query", JStr "type=page"); ("limit", JInt 0)]) s))
         = (trace s ++ ECall (Call confluence_cql [JStr "type=page"; JInt 0]) :: rest)%list.
Proof.
  intros C s. split; [reflexivity |].
  unfold Server.call_tool, try_except, Server.call_tool_body. cbn [String.eqb Ascii.eqb Bool.eqb].
  replace (Server.effective_limit _) with (@Ok Z 0) by reflexivity.
  replace (py_getitem _ "query") with (Ok (JStr "type=page")) by reflexivity.
  unfold bind, lift. rewrite search_eq.
  destruct (fst (ConfluenceManager.search_body _ _ s)) as [docs | e].
  - destruct (Server.comprehension Server.confluence_search_entry docs);
      eexists; cbn; rewrite <- ?app_assoc; reflexivity.
  - eexists; cbn; rewrite <- ?app_assoc; reflexivity.
Qed.

(** ** Issue search ([jira.py], [server.py]) *)

(** Case analysis on the innermost scrutinee of a hypothesis that says a
    computation returned: the branches that raise are closed at once. *)
Ltac step_in H :=
  match type of H with
  | context [match ?x with _ => _ end] =>
      lazymatch x with
      | context [match _ with _ => _ end] => fail
      | _ => destruct x eqn:?; try discriminate H
      end
  end.

Ltac run_in H :=
  unfold try_except, bind, lift, ret, raise_, log, emit in H;
  repeat step_in H.

Section IssueSearch.
Context `{Collaborators}.

Lemma get_issue_document (shown : string -> json -> bool) (issue_key expand : json)
    (s s' : state) (doc : Document) :
  get_issue_with shown issue_key expand s = (Ok doc, s') -> issue_document doc.
Proof.
  intros Hrun. unfold get_issue_with, get_issue_body in Hrun. run_in Hrun.
  all: injection Hrun as <- _; unfold issue_document; repeat eexists.
Qed.

Lemma search_loop_documents (get_issue : json -> json -> M Document) (expand : json) :
  (forall k s s' doc, get_issue k expand s = (Ok doc, s') -> issue_document doc) ->
  forall issues acc s s' docs,
    for_each
      (fun issue documents =>
         key <- lift (py_getitem issue "key") ;;
         doc <- get_issue key expand ;;
         ret (documents ++ [doc])%list)
      issues acc s = (Ok docs, s') ->
    Forall issue_document acc -> Forall issue_document docs.
Proof.
  intros Hget issues. induction issues as [| issue issues IH]; cbn; intros acc s s' docs.
  - unfold ret. intros [= <- _]. auto.
  - unfold bind at 1. unfold bind at 1. unfold lift at 1.
    destruct (py_getitem issue "key") as [k | e]; [| discriminate].
    unfold bind at 1.
    destruct (get_issue k expand s) as [[doc | e] s1] eqn:Hdoc; [| discriminate].
    unfold ret at 1. intros Hrest Hacc. eapply IH; [exact Hrest |].
    apply Forall_app. split; [assumption |]. constructor; [| constructor].
    eapply Hget; eassumption.
Qed.

Lemma search_issues_documents (jql fields : json) (start limit : Z) (expand : json)
    (s s' : state) (docs : list Document) :
  JiraManager.search_issues jql fields start limit expand s = (Ok docs, s') ->
  Forall issue_document docs.
Proof.
  unfold JiraManager.search_issues, search_issues_with, try_except.
  unfold bind at 1. rewrite invoke_eq.
  destruct (fst (remote _ _)) as [results | e]; [| cbn; discriminate].
  unfold bind at 1, lift at 1.
  destruct (py_getitem results "issues") as [issues | e]; [| cbn; discriminate].
  unfold bind at 1, lift at 1.
  destruct (py_iter issues) as [l | e]; [| cbn; discriminate].
  destruct (for_each _ l [] _) as [[ds | e] s1] eqn:Hloop; [| cbn; discriminate].
  intros [= <- _].
  eapply search_loop_documents; [| exact Hloop | constructor].
  intros k s0 s0' doc. apply get_issue_document.
Qed.

End IssueSearch.

(** [c[:n]] splits [c] after its [n]th character. *)
Lemma str_take_split (n : nat) (c : string) :
  (n <= str_len c)%nat ->
  exists rest,
    c = str_take n c ++ rest
    /\ str_len (str_take n c) = n
    /\ ((n < str_len c)%nat -> starts_char rest = true /\ rest <> "").
Proof.
  revert n; induction c as [| a c IH]; intros n Hn.
  - exists "". cbn in *. split; [reflexivity |]. split; lia.
  - cbn [str_len] in Hn. destruct (is_continuation a) eqn:Ha.
    + destruct (IH n) as (rest & Hc & Hl & Hr); [lia |].
      exists rest. cbn [str_take str_len]. rewrite Ha. cbn [append str_len].
      rewrite Ha, Hl, <- Hc. auto.
    + destruct n as [| k].
      * exists (String a c). cbn [str_take]. rewrite Ha. cbn.
        rewrite Ha. repeat split; congruence.
      * destruct (IH k) as (rest & Hc & Hl & Hr); [lia |].
        exists rest. cbn [str_take str_len]. rewrite Ha. cbn [append str_len].
        rewrite Ha, Hl, <- Hc.
        split; [reflexivity |]. split; [reflexivity |]. intros Hlt. apply Hr. lia.
Qed.

(** ** Traces only grow *)

Lemma calls_of_app (t u : list event) :
  calls_of (t ++ u) = (calls_of t ++ calls_of u)%list.
Proof.
  induction t as [| [c | lvl msg] t IH]; cbn; [reflexivity | | assumption].
  now rewrite IH.
Qed.

Section Appends.
Context `{Collaborators}.

Lemma appends_ret {A} (a : A) : appends (ret a).
Proof. intros s. exists []. cbn. now rewrite app_nil_r. Qed.

Lemma appends_raise {A} (e : exn) : appends (@raise_ _ A e).
Proof. intros s. exists []. cbn. now rewrite app_nil_r. Qed.

Lemma appends_lift {A} (r : result A) : appends (lift r).
Proof. intros s. exists []. cbn. now rewrite app_nil_r. Qed.

Lemma appends_get_mappings : appends get_mappings.
Proof. intros s. exists []. cbn. now rewrite app_nil_r. Qed.

Lemma appends_log (lvl : level) (msg : string) : appends (log lvl msg).
Proof. intros s. eexists. reflexivity. Qed.

Lemma appends_invoke (m : method) (args : list json) : appends (invoke m args).
Proof. intros s. rewrite invoke_eq. eexists. reflexivity. Qed.

Lemma appends_with_world {A} (f : World -> result A * World) :
  appends (with_world f).
Proof.
  intros s. exists []. unfold with_world. destruct (f (world s)). cbn.
  now rewrite app_nil_r.
Qed.

Lemma appends_bind {A B} (m : M A) (f : A -> M B) :
  appends m -> (forall a, appends (f a)) -> appends (bind m f).
Proof.
  intros Hm Hf s. unfold bind. destruct (Hm s) as [r1 E1].
  destruct (m s) as [[a | e] s1]; cbn in E1 |- *.
  - destruct (Hf a s1) as [r2 E2]. exists (r1 ++ r2)%list.
    now rewrite E2, E1, app_assoc.
  - now exists r1.
Qed.

Lemma appends_try_except {A} (m : M A) (h : exn -> M A) :
  appends m -> (forall e, appends (h e)) -> appends (try_except m h).
Proof.
  intros Hm Hh s. unfold try_except. destruct (Hm s) as [r1 E1].
  destruct (m s) as [[a | e] s1]; cbn in E1 |- *.
  - now exists r1.
  - destruct (Hh e s1) as [r2 E2]. exists (r1 ++ r2)%list.
    now rewrite E2, E1, app_assoc.
Qed.

Lemma appends_for_each {A B} (body : A -> B -> M B) (l : list A) (acc : B) :
  (forall x a, appends (body x a)) -> appends (for_each body l acc).
Proof.
  intros Hbody. revert acc; induction l as [| x l IH]; intros acc; cbn.
  - apply appends_ret.
  - apply appends_bind; [apply Hbody | intros a; apply IH].
Qed.

End Appends.

Create HintDb trace.
#[local] Hint Resolve appends_ret appends_raise appends_lift appends_get_mappings
  appends_log appends_invoke appends_with_world : trace.

(** Takes a computation apart along its binds, loops and branches. *)
Ltac appends_steps :=
  repeat first
    [ progress intros
    | solve [auto with trace]
    | apply appends_bind
    | apply appends_try_except
    | apply appends_for_each
    | match goal with
      | |- appends (match ?x with _ => _ end) => destruct x
      | |- appends (let '(_, _) := ?x in _) => destruct x
      end ].

Section AppendsManagers.
Context `{Collaborators}.

Lemma appends_get_page_content (page_id : json) (clean_html : bool) :
  appends (ConfluenceManager.get_page_content page_id clean_html).
Proof.
  unfold ConfluenceManager.get_page_content,
    ConfluenceManager._process_html_content.
  appends_steps.
Qed.

Lemma appends_get_issue (shown : string -> json -> bool) (issue_key expand : json) :
  appends (get_issue_with shown issue_key expand).
Proof.
  unfold get_issue_with, get_issue_body, issue_comment, _clean_text.
  appends_steps.
Qed.

End AppendsManagers.

#[local] Hint Resolve appends_get_page_content appends_get_issue : trace.

(** ** The version check of page updates ([confluence.py]) *)

(** C2.  Let the remote page be at version [current].  When the request's
    version differs, [update_page] raises the version-conflict error, whose
    message carries both numbers, having issued one call only, the read of
    the page: no write is issued and the remote is left as the read left
    it.  When the versions are equal, the next call is the write of the
    request's title and content. *)
Theorem update_page_version_guard :
  forall (C : Collaborators) (request : ConfluencePageUpdate.t) (s : state)
         (current_page version : json) (current : Z),
    fst (remote (Call confluence_get_page_by_id
                   [JStr (ConfluencePageUpdate.page_id request); JStr "version"])
           (world s)) = Ok current_page ->
    py_getitem current_page "version" = Ok version ->
    py_getitem version "number" = Ok (JInt current) ->
    (current <> ConfluencePageUpdate.version request ->
     exists s',
       ConfluenceManager.update_page request s
       = (Err (Exn ValueError
                 ("Version conflict: current version is " ++ str_of_Z current
                  ++ ", but update requested for version "
                  ++ str_of_Z (ConfluencePageUpdate.version request))), s')
       /\ calls_of (trace s')
          = (calls_of (trace s)
             ++ [Call confluence_get_page_by_id
                   [JStr (ConfluencePageUpdate.page_id request); JStr "version"]])%list
       /\ world s'
          = snd (remote (Call confluence_get_page_by_id
                           [JStr (ConfluencePageUpdate.page_id request);
                            JStr "version"]) (world s)))
    /\ (current = ConfluencePageUpdate.version request ->
        exists rest,
          trace (snd (ConfluenceManager.update_page request s))
          = (trace s
             ++ ECall (Call confluence_get_page_by_id
                         [JStr (ConfluencePageUpdate.page_id request);
                          JStr "version"])
             :: ECall (Call confluence_update_page
                         [JStr (ConfluencePageUpdate.page_id request);
                          JStr (ConfluencePageUpdate.title request);
                          JStr (ConfluencePageUpdate.content request);
                          JStr "wiki"])
             :: rest)%list).
Proof.
  intros C request s current_page version current Hread Hversion Hnumber.
  assert (Htrue : truthy current_page = true).
  { destruct current_page as [| | | | | | d]; try discriminate Hversion.
    destruct d; [discriminate Hversion | reflexivity]. }
  split; intros Hcmp;
    unfold ConfluenceManager.update_page, try_except,
      ConfluenceManager.update_page_body;
    (unfold bind at 1; rewrite invoke_eq, Hread);
    (unfold bind at 1; rewrite Htrue; cbn [negb ret]);
    (unfold bind at 1, lift at 1; rewrite Hversion);
    (unfold bind at 1, lift at 1; rewrite Hnumber);
    unfold bind at 1; cbn [py_eq_int].
  - apply Z.eqb_neq in Hcmp. rewrite Hcmp. cbn [negb raise_].
    eexists. split; [reflexivity |]. split.
    + cbn. rewrite <- app_assoc, calls_of_app. reflexivity.
    + reflexivity.
  - apply Z.eqb_eq in Hcmp. rewrite Hcmp. cbn [negb ret].
    unfold bind at 1. rewrite invoke_eq.
    set (s1 := after_call confluence_get_page_by_id _ s).
    set (s2 := after_call confluence_update_page _ s1).
    assert (Hs2 : trace s2
                  = (trace s
                     ++ [ECall (Call confluence_get_page_by_id
                                  [JStr (ConfluencePageUpdate.page_id request);
                                   JStr "version"]);
                         ECall (Call confluence_update_page
                                  [JStr (ConfluencePageUpdate.page_id request);
                                   JStr (ConfluencePageUpdate.title request);
                                   JStr (ConfluencePageUpdate.content request);
                                   JStr "wiki"])])%list).
    { subst s2 s1. cbn. now rewrite <- app_assoc. }
    clearbody s2.
    destruct (fst (remote _ (world s1))) as [page | e].
    + assert (Htail : appends (id <- lift (py_getitem page "id") ;;
                               ConfluenceManager.get_page_content id true)).
      { apply appends_bind; [auto with trace |].
        intros id. apply appends_get_page_content. }
      destruct (Htail s2) as [rest Hrest].
      destruct ((id <- lift (py_getitem page "id") ;;
                 ConfluenceManager.get_page_content id true) s2)
        as [[doc | e] s3]; cbn in Hrest |- *.
      * exists rest. rewrite Hrest, Hs2, <- app_assoc. reflexivity.
      * eexists. rewrite Hrest, Hs2, <- !app_assoc. reflexivity.
    + eexists. cbn. rewrite Hs2, <- !app_assoc. reflexivity.
Qed.

Lemma update_page_version_guard_witness :
  exists s',
    @ConfluenceManager.update_page (Demo.scripted Demo.wiki) Demo.stale_update
      (Demo.start Demo.wiki)
    = (Err (Exn ValueError
         "Version conflict: current version is 3, but update requested for version 2"),
       s')
    /\ calls_of (trace s')
       = [Call confluence_get_page_by_id [JStr "1001"; JStr "version"]].
Proof.
  destruct (@update_page_version_guard (Demo.scripted Demo.wiki)
              Demo.stale_update (Demo.start Demo.wiki) Demo.page_1001
              (JDict [ ("number", JInt 3);
                       ("when", JStr "2024-01-05T10:00:00Z");
                       ("by", JDict [("displayName", JStr "Ada")]) ])
              3 eq_refl eq_refl eq_refl) as [Hconflict _].
  destruct Hconflict as (s' & Hrun & Hcalls & _); [cbn; lia |].
  exists s'. split; [exact Hrun | exact Hcalls].
Defined.

(** ** Display dates ([jira.py]) *)

Section Replace.

Lemma prefix_Z (c : ascii) (s : string) :
  String.prefix "Z" (String c s) = Ascii.eqb c "Z".
Proof.
  change (String.prefix "Z" (String c s))
    with (if ascii_dec "Z" c then String.prefix "" s else false).
  destruct (ascii_dec "Z" c) as [<- | Hne].
  - destruct s; reflexivity.
  - symmetry. apply Ascii.eqb_neq. congruence.
Qed.

Lemma replace_Z_cons (c : ascii) (s : string) :
  str_replace "Z" "+00:00" (String c s)
  = if Ascii.eqb c "Z" then "+00:00" ++ str_replace "Z" "+00:00" s
    else String c (str_replace "Z" "+00:00" s).
Proof.
  unfold str_replace. cbn [replace_from]. rewrite prefix_Z. reflexivity.
Qed.

(** Bytes at the head of the replaced string that are no "+" were there
    before the replacement. *)
Lemma take_replace_Z (P : ascii -> bool) (n : nat) (s : string) :
  P "+"%char = false ->
  str_forall P (String.substring 0 n (str_replace "Z" "+00:00" s)) = true ->
  String.substring 0 n (str_replace "Z" "+00:00" s) = String.substring 0 n s.
Proof.
  intros HP. revert s; induction n as [| n IH]; intros s.
  - intros _. destruct s; destruct (str_replace _ _ _); reflexivity.
  - destruct s as [| c s]; [reflexivity |].
    rewrite replace_Z_cons. destruct (Ascii.eqb c "Z").
    + cbn [append String.substring str_forall]. rewrite HP. discriminate.
    + cbn [String.substring str_forall].
      intros Hok. apply andb_true_iff in Hok as [_ Hok].
      now rewrite IH.
Qed.

(** A trailing "Z" is read as "+00:00". *)
Lemma replace_trailing_Z (p : string) :
  str_contains "Z" p = false ->
  str_replace "Z" "+00:00" (p ++ "Z") = p ++ "+00:00"
  /\ str_replace "Z" "+00:00" (p ++ "+00:00") = p ++ "+00:00".
Proof.
  induction p as [| c p IH].
  - intros _. split; reflexivity.
  - cbn [str_contains]. rewrite prefix_Z. intros Hno.
    apply orb_false_iff in Hno as [Hc Hp].
    destruct (IH Hp) as [IH1 IH2].
    cbn [append]. rewrite !replace_Z_cons, Hc, IH1, IH2. split; reflexivity.
Qed.

End Replace.

Module DatetimeFacts.
Import Datetime.

Lemma byte_at_0 (c : ascii) (s : string) : byte_at (String c s) 0 = code c.
Proof. reflexivity. Qed.

Lemma byte_at_S (c : ascii) (s : string) (i : nat) :
  byte_at (String c s) (S i) = byte_at s i.
Proof. reflexivity. Qed.

Lemma code_inj (c c' : ascii) : code c = code c' -> c = c'.
Proof.
  unfold code. intros Heq. apply Nat2Z.inj in Heq.
  rewrite <- (ascii_nat_embedding c), <- (ascii_nat_embedding c'). now f_equal.
Qed.

(** A digit is the character of its value. *)
Lemma digit_inv (c : ascii) :
  is_digit (code c) = true ->
  0 <= code c - 48 <= 9 /\ Datetime.digit_char (code c - 48) = c.
Proof.
  unfold is_digit. intros Hd. apply andb_true_iff in Hd as [Hlo Hhi].
  apply Z.leb_le in Hlo, Hhi. split; [lia |].
  unfold Datetime.digit_char.
  replace (48 + (code c - 48)) with (code c) by lia.
  unfold code. rewrite Nat2Z.id. apply ascii_nat_embedding.
Qed.

Lemma digit_char_digit (n : Z) :
  0 <= n <= 9 -> is_digit_char (Datetime.digit_char n) = true.
Proof.
  intros Hn. rewrite <- (Z2Nat.id n) by lia.
  assert (Hk : (Z.to_nat n < 10)%nat) by lia.
  revert Hk. generalize (Z.to_nat n) as k. intros k Hk.
  do 10 (destruct k as [| k]; [reflexivity |]). lia.
Qed.

Lemma substring_split (n : nat) (s : string) :
  exists rest, s = String.substring 0 n s ++ rest.
Proof.
  revert s; induction n as [| n IH]; intros s.
  - exists s. destruct s; reflexivity.
  - destruct s as [| c s]; [now exists "" |].
    destruct (IH s) as [rest Hrest]. exists rest.
    cbn [String.substring append]. now rewrite <- Hrest.
Qed.

Lemma byte_at_substring (n i : nat) (s : string) :
  (i < n)%nat -> byte_at (String.substring 0 n s) i = byte_at s i.
Proof.
  revert i s; induction n as [| n IH]; intros i s Hi; [lia |].
  destruct s as [| c s]; [reflexivity |].
  cbn [String.substring]. destruct i as [| i]; [reflexivity |].
  rewrite !byte_at_S. apply IH. lia.
Qed.

(** Where every byte among the first [n] satisfies [P], the first [n]
    bytes are [n] bytes that pass [P]. *)
Lemma substring_forall (P : ascii -> bool) (n : nat) (s : string) :
  (forall i, (i < n)%nat -> exists c, byte_at s i = code c /\ P c = true
                                    /\ code c <> 0) ->
  str_forall P (String.substring 0 n s) = true
  /\ String.length (String.substring 0 n s) = n.
Proof.
  revert s; induction n as [| n IH]; intros s Hall.
  - destruct s; split; reflexivity.
  - destruct s as [| c s].
    + destruct (Hall 0%nat) as (c & Hc & _ & Hnz); [lia |].
      unfold byte_at in Hc. cbn in Hc. congruence.
    + cbn [String.substring str_forall String.length].
      destruct (Hall 0%nat) as (c' & Hc & HP & _); [lia |].
      rewrite byte_at_0 in Hc. apply code_inj in Hc as ->.
      destruct (IH s) as [Hf Hl].
      { intros i Hi. destruct (Hall (S i)) as (x & Hx & HPx & Hnz); [lia |].
        rewrite byte_at_S in Hx. now exists x. }
      rewrite HP, Hf, Hl. split; reflexivity.
Qed.

(** *** The surrogate at the separator *)

Lemma continuation_date_char (c : ascii) :
  is_continuation c = true -> date_char c = false.
Proof.
  unfold is_continuation. intros Hc. apply andb_true_iff in Hc as [Hlo _].
  apply Nat.leb_le in Hlo.
  unfold date_char, is_digit_char, is_digit.
  assert (Hcode : 128 <= code c) by (unfold code; lia).
  destruct (Ascii.eqb_spec c "-") as [-> | _]; [cbn in Hlo; lia |].
  destruct (Ascii.eqb_spec c "W") as [-> | _]; [cbn in Hlo; lia |].
  destruct (Z.leb_spec (code c) 57); [lia |].
  now rewrite andb_false_r.
Qed.

(** The bytes before the character that [replace_surrogate] looks at are
    left as they are, and the [T] it writes is none of the characters of
    a date. *)
Lemma replace_surrogate_date (k n : nat) (s r : string) :
  replace_surrogate k s = Some r ->
  str_forall date_char (String.substring 0 n r) = true ->
  String.length (String.substring 0 n r) = n ->
  String.substring 0 n r = String.substring 0 n s.
Proof.
  revert k n r; induction s as [| c s IH]; intros k n r; [discriminate |].
  cbn [replace_surrogate].
  destruct (is_continuation c) eqn:Hcont.
  - destruct (replace_surrogate k s) as [r' |] eqn:Hr; [| discriminate].
    intros [= <-]. destruct n as [| n]; [reflexivity |].
    cbn [String.substring str_forall].
    now rewrite (continuation_date_char c Hcont).
  - destruct k as [| k].
    + destruct (surrogate_head (String c s)); [| discriminate].
      intros [= <-]. destruct n as [| n]; [reflexivity |].
      cbn [String.substring str_forall]. discriminate.
    + destruct (replace_surrogate k s) as [r' |] eqn:Hr; [| discriminate].
      intros [= <-]. destruct n as [| n]; [reflexivity |].
      cbn [String.substring str_forall String.length].
      intros Hf Hl. apply andb_true_iff in Hf as [_ Hf].
      f_equal. apply (IH k); [exact Hr | exact Hf | lia].
Qed.

Lemma sanitize_date (n : nat) (s : string) :
  str_forall date_char (String.substring 0 n (sanitize s)) = true ->
  String.length (String.substring 0 n (sanitize s)) = n ->
  String.substring 0 n (sanitize s) = String.substring 0 n s.
Proof.
  unfold sanitize.
  destruct (replace_surrogate 7 s) as [r |] eqn:H7;
    [now apply replace_surrogate_date with (k := 7%nat) |].
  destruct (replace_surrogate 8 s) as [r |] eqn:H8;
    [now apply replace_surrogate_date with (k := 8%nat) |].
  destruct (replace_surrogate 10 s) as [r |] eqn:H10;
    [now apply replace_surrogate_date with (k := 10%nat) |].
  reflexivity.
Qed.

(** *** The date *)

Lemma digits_from_S (s : string) (p n : nat) (acc v : Z) :
  digits_from s p (S n) acc = Some v ->
  exists c, byte_at s p = code c /\ is_digit (code c) = true
            /\ digits_from s (S p) n (10 * acc + (code c - 48)) = Some v.
Proof.
  cbn [digits_from]. destruct (is_digit (byte_at s p)) eqn:Hd; [| discriminate].
  intros Hrest. unfold byte_at in *.
  destruct (String.get p s) as [c |]; [| discriminate].
  now exists c.
Qed.

Lemma digit_head (c : ascii) :
  is_digit (code c) = true ->
  is_digit_char c = true /\ date_char c = true /\ code c <> 0.
Proof.
  intros Hd. unfold date_char, is_digit_char. rewrite Hd.
  repeat split. unfold is_digit in Hd. apply andb_true_iff in Hd as [Hlo _].
  apply Z.leb_le in Hlo. lia.
Qed.

Ltac digit_of H :=
  let c := fresh "c" in
  let B := fresh "B" in
  let D := fresh "D" in
  apply digits_from_S in H as (c & B & D & H).

(** A date that parses begins with six characters of a calendar date or
    of a week date. *)
Lemma parse_date_head (s : string) (sep : nat) (r : Z * Z * Z) :
  parse_date s sep = Some r ->
  forall i, (i < 6)%nat ->
    exists c, byte_at s i = code c /\ date_char c = true /\ code c <> 0.
Proof.
  unfold parse_date, obind.
  destruct (digits_from s 0 4 0) as [year |] eqn:Hy; [| discriminate].
  do 4 digit_of Hy.
  assert (Hdash : forall i, byte_at s i = code "-" ->
            exists c, byte_at s i = code c /\ date_char c = true /\ code c <> 0)
    by (intros i Hi; exists "-"%char; repeat split; [exact Hi | discriminate]).
  assert (HW : forall i, byte_at s i = code "W" ->
            exists c, byte_at s i = code c /\ date_char c = true /\ code c <> 0)
    by (intros i Hi; exists "W"%char; repeat split; [exact Hi | discriminate]).
  assert (Hdig : forall i c, byte_at s i = code c -> is_digit (code c) = true ->
            exists c, byte_at s i = code c /\ date_char c = true /\ code c <> 0).
  { intros i x Hi Hx. exists x. split; [exact Hi |]. now apply digit_head. }
  destruct (byte_at s 4 =? code "-") eqn:H4; cbv zeta; cbn [andb].
  - apply Z.eqb_eq in H4.
    destruct (byte_at s 5 =? code "W") eqn:H5.
    + apply Z.eqb_eq in H5. intros _ i Hi.
      destruct i as [| [| [| [| [| [| i]]]]]]; eauto; lia.
    + destruct (digits_from s 5 2 0) as [month |] eqn:Hm; [| discriminate].
      digit_of Hm. intros _ i Hi.
      destruct i as [| [| [| [| [| [| i]]]]]]; eauto; lia.
  - destruct (byte_at s 4 =? code "W") eqn:H5.
    + apply Z.eqb_eq in H5.
      destruct (digits_from s 5 2 0) as [week |] eqn:Hw; [| discriminate].
      digit_of Hw. intros _ i Hi.
      destruct i as [| [| [| [| [| [| i]]]]]]; eauto; lia.
    + destruct (digits_from s 4 2 0) as [month |] eqn:Hm; [| discriminate].
      do 2 digit_of Hm. intros _ i Hi.
      destruct i as [| [| [| [| [| [| i]]]]]]; eauto; lia.
Qed.

Lemma bytes_eq (a b : string) :
  String.length a = String.length b ->
  (forall i, (i < String.length a)%nat -> byte_at a i = byte_at b i) ->
  a = b.
Proof.
  revert b; induction a as [| x a IH]; intros [| y b]; cbn [String.length];
    try discriminate; [reflexivity |].
  intros Hl Hb. f_equal.
  - apply code_inj. apply (Hb 0%nat). lia.
  - apply IH; [lia |]. intros i Hi. apply (Hb (S i)). lia.
Qed.

Lemma year_str_four (y : Z) :
  1000 <= y ->
  year_str y
  = String (Datetime.digit_char (y / 1000))
      (String (Datetime.digit_char ((y / 100) mod 10))
         (String (Datetime.digit_char ((y / 10) mod 10))
            (String (Datetime.digit_char (y mod 10)) EmptyString))).
Proof.
  intros Hy. unfold year_str.
  destruct (Z.ltb_spec y 10); [lia |].
  destruct (Z.ltb_spec y 100); [lia |].
  destruct (Z.ltb_spec y 1000); [lia |]. reflexivity.
Qed.

Lemma some_eq (A : Type) (a b : A) : Some a = Some b -> a = b.
Proof. now intros [= ->]. Qed.

(** A calendar date written with dashes: its ten characters are those
    [strftime] writes, when the year does not begin with a zero. *)
Lemma parse_date_calendar (s : string) (sep : nat) (y m d : Z) :
  parse_date s sep = Some (y, m, d) ->
  byte_at s 4 = code "-" -> byte_at s 5 <> code "W" ->
  (forall i, (i < 10)%nat ->
     exists c, byte_at s i = code c /\ date_char c = true /\ code c <> 0)
  /\ (byte_at s 0 <> code "0" ->
      1000 <= y /\ strftime_ymd y m d = String.substring 0 10 s).
Proof.
  intros Hparse H4 H5.
  assert (Hdash : forall i, byte_at s i = code "-" ->
            exists c, byte_at s i = code c /\ date_char c = true /\ code c <> 0)
    by (intros i Hi; exists "-"%char; repeat split; [exact Hi | discriminate]).
  assert (Hdig : forall i c, byte_at s i = code c -> is_digit (code c) = true ->
            exists c, byte_at s i = code c /\ date_char c = true /\ code c <> 0).
  { intros i x Hi Hx. exists x. split; [exact Hi |]. now apply digit_head. }
  unfold parse_date, obind in Hparse.
  destruct (digits_from s 0 4 0) as [year |] eqn:Hy; [| discriminate].
  do 4 digit_of Hy. cbn [digits_from] in Hy. apply some_eq in Hy.
  apply Z.eqb_eq in H4 as H4'. rewrite H4' in Hparse. cbv zeta in Hparse.
  apply Z.eqb_neq in H5 as H5'. rewrite H5' in Hparse. cbn [andb] in Hparse.
  destruct (digits_from s 5 2 0) as [month |] eqn:Hm; [| discriminate].
  do 2 digit_of Hm. cbn [digits_from] in Hm. apply some_eq in Hm.
  change (5 + 2)%nat with 7%nat in Hparse.
  destruct (byte_at s 7 =? code "-") eqn:H7; [| discriminate].
  apply Z.eqb_eq in H7. cbn [negb] in Hparse.
  destruct (digits_from s 8 2 0) as [day |] eqn:Hd; [| discriminate].
  do 2 digit_of Hd. cbn [digits_from] in Hd. apply some_eq in Hd.
  injection Hparse as -> -> ->.
  assert (Hbytes : forall i, (i < 10)%nat ->
            exists c, byte_at s i = code c /\ date_char c = true /\ code c <> 0).
  { intros i Hi.
    destruct i as [| [| [| [| [| [| [| [| [| [| i]]]]]]]]]]; eauto; lia. }
  split; [exact Hbytes |].
  intros H0.
  destruct (substring_forall date_char 10 s Hbytes) as [_ Hlen].
  pose proof (digit_inv c D) as [R0 E0].
  pose proof (digit_inv c0 D0) as [R1 E1].
  pose proof (digit_inv c1 D1) as [R2 E2].
  pose proof (digit_inv c2 D2) as [R3 E3].
  pose proof (digit_inv c3 D3) as [R5 E5].
  pose proof (digit_inv c4 D4) as [R6 E6].
  pose proof (digit_inv c5 D5) as [R8 E8].
  pose proof (digit_inv c6 D6) as [R9 E9].
  assert (Hnz : code c - 48 <> 0).
  { intros Hz. apply H0. rewrite B. change (code "0") with 48. lia. }
  assert (Hyear : 1000 <= y) by (subst y; lia).
  split; [exact Hyear |].
  unfold strftime_ymd. rewrite year_str_four by exact Hyear. unfold pad2.
  replace (y / 1000) with (code c - 48)
    by (subst y; Z.div_mod_to_equations; lia).
  replace ((y / 100) mod 10) with (code c0 - 48)
    by (subst y; Z.div_mod_to_equations; lia).
  replace ((y / 10) mod 10) with (code c1 - 48)
    by (subst y; Z.div_mod_to_equations; lia).
  replace (y mod 10) with (code c2 - 48)
    by (subst y; Z.div_mod_to_equations; lia).
  replace (m / 10) with (code c3 - 48)
    by (subst m; Z.div_mod_to_equations; lia).
  replace (m mod 10) with (code c4 - 48)
    by (subst m; Z.div_mod_to_equations; lia).
  replace (d / 10) with (code c5 - 48)
    by (subst d; Z.div_mod_to_equations; lia).
  replace (d mod 10) with (code c6 - 48)
    by (subst d; Z.div_mod_to_equations; lia).
  rewrite E0, E1, E2, E3, E5, E6, E8, E9.
  apply bytes_eq; [now rewrite Hlen |].
  cbn [append String.length]. intros i Hi.
  rewrite byte_at_substring by exact Hi.
  destruct i as [| [| [| [| [| [| [| [| [| [| i]]]]]]]]]];
    cbn [byte_at String.get]; try (symmetry; assumption); lia.
Qed.


Lemma fromisoformat_date (s : string) (y m d : Z) :
  fromisoformat s = Date y m d ->
  exists sep t,
    parse_date (sanitize s) sep = Some (y, m, d)
    /\ check_fields y m d t = None.
Proof.
  unfold fromisoformat.
  destruct (Nat.ltb (str_len s) 7); [discriminate |].
  destruct (has_surrogate (sanitize s)); [discriminate |].
  destruct (find_separator (sanitize s)) as [sep |]; [| discriminate].
  destruct (parse_date (sanitize s) sep) as [[[y' m'] d'] |] eqn:Hdate;
    [| discriminate].
  destruct (if Nat.ltb sep (String.length (sanitize s)) then _ else _)
    as [[t tz] |]; [| discriminate].
  destruct (check_offset tz); [discriminate |].
  destruct (check_fields y' m' d' t) eqn:Hcheck; [discriminate |].
  intros [= <- <- <-]. now exists sep, t.
Qed.

Lemma check_fields_ranges (y m d : Z) (t : clock) :
  check_fields y m d t = None ->
  1 <= y <= 9999 /\ 1 <= m <= 12 /\ 1 <= d <= days_in_month y m.
Proof.
  unfold check_fields. destruct t as [[[hour minute] second] us].
  destruct (Z.ltb_spec y 1); [discriminate |].
  destruct (Z.ltb_spec 9999 y); [discriminate |].
  destruct (Z.ltb_spec m 1); [discriminate |].
  destruct (Z.ltb_spec 12 m); [discriminate |].
  destruct (Z.ltb_spec d 1); [discriminate |].
  destruct (Z.ltb_spec (days_in_month y m) d); [discriminate |].
  intros _. lia.
Qed.

Lemma days_in_month_le (y m : Z) : days_in_month y m <= 31.
Proof.
  unfold days_in_month. destruct ((m =? 2) && is_leap y); [lia |].
  unfold _days_in_month.
  destruct m as [| [[[[| |] | [| |] |] | [[| |] | [| |] |] |]
                   | [[[| |] | [| |] |] | [[| |] | [| |] |] |] |] |]; lia.
Qed.

Lemma strftime_form (y m d : Z) :
  1000 <= y <= 9999 -> 0 <= m <= 99 -> 0 <= d <= 99 ->
  yyyy_mm_dd (strftime_ymd y m d) = true.
Proof.
  intros Hy Hm Hd. unfold strftime_ymd.
  rewrite year_str_four by lia. unfold pad2.
  cbn [append yyyy_mm_dd forallb].
  rewrite !digit_char_digit by (Z.div_mod_to_equations; lia).
  reflexivity.
Qed.

End DatetimeFacts.

Section FormatDate.
Context `{Collaborators}.
Import Datetime DatetimeFacts.

Lemma format_date_inv (s d : string) :
  format_date (JStr s) = Ok d ->
  exists y m dd,
    fromisoformat (str_replace "Z" "+00:00" s) = Date y m dd
    /\ d = strftime_ymd y m dd.
Proof.
  unfold format_date, py_replace, rbind.
  destruct (fromisoformat _) as [y m dd | | msg]; [| discriminate ..].
  intros [= <-]. now exists y, m, dd.
Qed.

(** What [format_date] returns is a date of the calendar as [strftime]
    writes it, nothing of the time of day or of the offset with it; the
    form is YYYY-MM-DD from the year 1000 on. *)
Lemma format_date_form (s d : string) :
  format_date (JStr s) = Ok d ->
  exists y m dd,
    1 <= y <= 9999 /\ 1 <= m <= 12 /\ 1 <= dd <= days_in_month y m
    /\ d = strftime_ymd y m dd
    /\ (1000 <= y -> yyyy_mm_dd d = true).
Proof.
  intros Hd. apply format_date_inv in Hd as (y & m & dd & Hiso & ->).
  apply fromisoformat_date in Hiso as (sep & t & _ & Hcheck).
  apply check_fields_ranges in Hcheck as (Hy & Hm & Hdd).
  exists y, m, dd. repeat split; try lia.
  intros Hfour. pose proof (days_in_month_le y m).
  apply strftime_form; lia.
Qed.

(** A timestamp that begins with a calendar date written with dashes, its
    year not beginning with a zero, is rendered as its first ten
    characters. *)
Lemma format_date_calendar (s d : string) :
  format_date (JStr s) = Ok d ->
  byte_at s 4 = code "-" -> byte_at s 5 <> code "W" ->
  byte_at s 0 <> code "0" ->
  yyyy_mm_dd d = true /\ exists rest, s = d ++ rest.
Proof.
  intros Hd H4 H5 H0.
  apply format_date_inv in Hd as (y & m & dd & Hiso & ->).
  apply fromisoformat_date in Hiso as (sep & t & Hdate & Hcheck).
  apply check_fields_ranges in Hcheck as (Hy & Hm & Hdd).
  pose proof (days_in_month_le y m) as Hdim.
  set (s2 := str_replace "Z" "+00:00" s) in *.
  assert (Hsame : forall n,
            (forall i, (i < n)%nat ->
               exists c, byte_at (sanitize s2) i = code c
                         /\ date_char c = true /\ code c <> 0) ->
            String.substring 0 n (sanitize s2) = String.substring 0 n s).
  { intros n Hbytes.
    destruct (substring_forall date_char n (sanitize s2) Hbytes) as [Hf Hl].
    pose proof (sanitize_date n s2 Hf Hl) as Hs.
    rewrite Hs in Hf |- *.
    now apply take_replace_Z with (P := date_char). }
  pose proof (Hsame 6%nat (parse_date_head _ _ _ Hdate)) as Hsix.
  assert (Hbyte : forall i, (i < 6)%nat -> byte_at (sanitize s2) i = byte_at s i).
  { intros i Hi.
    rewrite <- (byte_at_substring 6 i (sanitize s2)) by exact Hi.
    rewrite Hsix. now apply byte_at_substring. }
  destruct (parse_date_calendar _ _ _ _ _ Hdate) as (Hten & Hstr).
  { rewrite Hbyte by lia. exact H4. }
  { rewrite Hbyte by lia. exact H5. }
  destruct Hstr as [Hfour Hstr]; [rewrite Hbyte by lia; exact H0 |].
  split; [apply strftime_form; lia |].
  rewrite Hstr, (Hsame 10%nat Hten).
  apply substring_split.
Qed.


Example format_date_offset :
  format_date (JStr "2024-02-29T23:59:59.123-08:00") = Ok "2024-02-29".
Proof. reflexivity. Qed.

(** The offset as the remote service writes it, without a colon. *)
Example format_date_plain_offset :
  format_date (JStr "2024-01-05T10:00:00.000+0000") = Ok "2024-01-05".
Proof. reflexivity. Qed.

Example format_date_basic :
  format_date (JStr "20240105T100000Z") = Ok "2024-01-05".
Proof. reflexivity. Qed.

Example format_date_week :
  format_date (JStr "2024-W01-5T10:00") = Ok "2024-01-05".
Proof. reflexivity. Qed.

Example format_date_small_year :
  format_date (JStr "0999-12-31T23:59:59Z") = Ok "999-12-31".
Proof. reflexivity. Qed.

Example format_date_bad_day :
  format_date (JStr "2023-02-29T10:00:00Z")
  = Err (Exn ValueError "day is out of range for month").
Proof. reflexivity. Qed.

Example format_date_no_time :
  format_date (JStr "2024-01-05T")
  = Err (Exn ValueError "Invalid isoformat string: '2024-01-05T'").
Proof. reflexivity. Qed.

Example format_date_not_a_string :
  format_date (JInt 1704448800)
  = Err (Exn AttributeError "'int' object has no attribute 'replace'").
Proof. reflexivity. Qed.

End FormatDate.

Section DisplayDates.
Context `{Collaborators}.

(** The created date in an issue's metadata is the display date of the
    remote issue's [created] field. *)
Lemma get_issue_created_date (shown : string -> json -> bool)
    (issue_key expand : json) (s s' : state) (doc : Document) :
  get_issue_with shown issue_key expand s = (Ok doc, s') ->
  exists issue fields raw d,
    fst (remote (Call jira_issue [issue_key; expand]) (world s)) = Ok issue
    /\ py_getitem issue "fields" = Ok fields
    /\ py_getitem fields "created" = Ok raw
    /\ format_date raw = Ok d
    /\ dict_get "created_date" (metadata doc) = Some (JStr d).
Proof.
  intros Hrun. unfold get_issue_with, get_issue_body in Hrun.
  unfold try_except in Hrun. unfold bind at 1 in Hrun. rewrite invoke_eq in Hrun.
  run_in Hrun.
  all: injection Hrun as <- _; repeat eexists; eauto.
Qed.

(** The date of a comment line is the display date of the comment's
    [created] field. *)
Lemma issue_comment_date (comment : json) (acc acc' : list comment_line)
    (s s' : state) :
  issue_comment comment acc s = (Ok acc', s') ->
  exists body raw d author,
    py_getitem comment "created" = Ok raw
    /\ format_date raw = Ok d
    /\ acc' = (acc ++ [mk_comment body d author])%list.
Proof.
  intros Hrun. unfold issue_comment in Hrun. run_in Hrun.
  injection Hrun as <- _. repeat eexists; eauto.
Qed.

(** A page's last-modified entry is the remote [version.when] as it came. *)
Lemma get_page_content_last_modified (page_id : json) (clean_html : bool)
    (s s' : state) (doc : Document) :
  ConfluenceManager.get_page_content page_id clean_html s = (Ok doc, s') ->
  exists page version when,
    fst (remote (Call confluence_get_page_by_id
                   [page_id; JStr "body.storage,version,space"]) (world s))
    = Ok page
    /\ py_get page "version" (JDict []) = Ok version
    /\ py_get version "when" JNull = Ok when
    /\ dict_get "last_modified" (metadata doc) = Some when.
Proof.
  intros Hrun. unfold ConfluenceManager.get_page_content in Hrun.
  unfold bind at 1 in Hrun. rewrite invoke_eq in Hrun.
  unfold ConfluenceManager._process_html_content, with_world in Hrun.
  run_in Hrun.
  all: injection Hrun as <- _; repeat eexists; eauto.
Qed.

(** So is the last-modified entry of a page comment. *)
Lemma page_comment_last_modified (page_id space_key space_name : json)
    (clean_html : bool) (comment : json) (acc acc' : list Document)
    (s s' : state) :
  ConfluenceManager.page_comment page_id space_key space_name clean_html
    comment acc s = (Ok acc', s') ->
  exists doc version when,
    acc' = (acc ++ [doc])%list
    /\ py_get comment "version" (JDict []) = Ok version
    /\ py_get version "when" JNull = Ok when
    /\ dict_get "last_modified" (metadata doc) = Some when.
Proof.
  intros Hrun.
  unfold ConfluenceManager.page_comment, ConfluenceManager._process_html_content,
    with_world in Hrun.
  run_in Hrun.
  all: injection Hrun as <- _; repeat eexists; eauto.
Qed.

End DisplayDates.

(** C6, as the code has it.  The display dates of an issue, its created
    date and the date of each of its comments, are computed by
    [format_date]: every "Z" of the timestamp is replaced by "+00:00", so
    that a trailing "Z" reads as "+00:00"; the result is parsed, and what
    is returned is the calendar date alone, as [strftime] writes it, time
    of day and offset dropped: a valid date of the calendar, in the form
    YYYY-MM-DD when its year has four digits, and the first ten
    characters of a timestamp that begins with such a date written with
    dashes; "2024-01-05T10:00:00Z" gives "2024-01-05".  The last-modified
    entry of a page or of a page comment is not computed this way: it is
    the remote value unchanged. *)
Theorem issue_display_dates :
  forall C : Collaborators,
    (forall s d,
       format_date (JStr s) = Ok d ->
       exists y m dd,
         1 <= y <= 9999 /\ 1 <= m <= 12
         /\ 1 <= dd <= Datetime.days_in_month y m
         /\ d = Datetime.strftime_ymd y m dd
         /\ (1000 <= y -> yyyy_mm_dd d = true))
    /\ (forall s d,
          format_date (JStr s) = Ok d ->
          Datetime.byte_at s 4 = Datetime.code "-" ->
          Datetime.byte_at s 5 <> Datetime.code "W" ->
          Datetime.byte_at s 0 <> Datetime.code "0" ->
          yyyy_mm_dd d = true /\ exists rest, s = d ++ rest)
    /\ format_date (JStr "2024-01-05T10:00:00Z") = Ok "2024-01-05"
    /\ (forall p, str_contains "Z" p = false ->
                  format_date (JStr (p ++ "Z"))
                  = format_date (JStr (p ++ "+00:00")))
    /\ (forall shown issue_key expand (s s' : state) doc,
          get_issue_with shown issue_key expand s = (Ok doc, s') ->
          exists issue fields raw d,
            fst (remote (Call jira_issue [issue_key; expand]) (world s))
            = Ok issue
            /\ py_getitem issue "fields" = Ok fields
            /\ py_getitem fields "created" = Ok raw
            /\ format_date raw = Ok d
            /\ dict_get "created_date" (metadata doc) = Some (JStr d))
    /\ (forall comment acc acc' (s s' : state),
          issue_comment comment acc s = (Ok acc', s') ->
          exists body raw d author,
            py_getitem comment "created" = Ok raw
            /\ format_date raw = Ok d
            /\ acc' = (acc ++ [mk_comment body d author])%list)
    /\ (forall page_id clean_html (s s' : state) doc,
          ConfluenceManager.get_page_content page_id clean_html s = (Ok doc, s') ->
          exists page version when,
            fst (remote (Call confluence_get_page_by_id
                           [page_id; JStr "body.storage,version,space"])
                   (world s))
            = Ok page
            /\ py_get page "version" (JDict []) = Ok version
            /\ py_get version "when" JNull = Ok when
            /\ dict_get "last_modified" (metadata doc) = Some when)
    /\ (forall page_id space_key space_name clean_html comment acc acc'
               (s s' : state),
          ConfluenceManager.page_comment page_id space_key space_name
            clean_html comment acc s = (Ok acc', s') ->
          exists doc version when,
            acc' = (acc ++ [doc])%list
            /\ py_get comment "version" (JDict []) = Ok version
            /\ py_get version "when" JNull = Ok when
            /\ dict_get "last_modified" (metadata doc) = Some when).
Proof.
  intros C.
  split; [apply format_date_form |].
  split; [apply format_date_calendar |].
  split; [reflexivity |].
  split.
  { intros p Hp. unfold format_date, py_replace.
    destruct (replace_trailing_Z p Hp) as [-> ->]. reflexivity. }
  split; [apply get_issue_created_date |].
  split; [apply issue_comment_date |].
  split; [apply get_page_content_last_modified |].
  apply page_comment_last_modified.
Qed.

(** C6 fails on pages and on years of fewer than four digits.  The page
    of the wiki, last modified at "2024-01-05T10:00:00Z", is returned with
    that timestamp as its last-modified entry, time of day and zone
    included, where the rule gives "2024-01-05"; so is its comment, with
    "2024-01-06T09:30:00Z".  And a created date of
    "0999-12-31T23:59:59Z" is rendered as "999-12-31", which is not of the
    form YYYY-MM-DD. *)
Lemma page_last_modified_is_not_a_date :
  (exists doc s',
     @ConfluenceManager.get_page_content (Demo.scripted Demo.wiki)
       (JStr "1001") true (Demo.start Demo.wiki) = (Ok doc, s')
     /\ dict_get "last_modified" (metadata doc)
        = Some (JStr "2024-01-05T10:00:00Z")
     /\ @format_date (Demo.scripted Demo.wiki) (JStr "2024-01-05T10:00:00Z")
        = Ok "2024-01-05"
     /\ JStr "2024-01-05T10:00:00Z" <> JStr "2024-01-05")
  /\ (exists doc s',
        @ConfluenceManager.get_page_comments (Demo.scripted Demo.commented)
          (JStr "1001") true (Demo.start Demo.commented) = (Ok [doc], s')
        /\ dict_get "last_modified" (metadata doc)
           = Some (JStr "2024-01-06T09:30:00Z")
        /\ @format_date (Demo.scripted Demo.commented)
             (JStr "2024-01-06T09:30:00Z")
           = Ok "2024-01-06"
        /\ JStr "2024-01-06T09:30:00Z" <> JStr "2024-01-06")
  /\ (exists d,
        @format_date (Demo.scripted Demo.tracker) (JStr "0999-12-31T23:59:59Z")
        = Ok d
        /\ d = "999-12-31"
        /\ yyyy_mm_dd d = false).
Proof.
  split; [| split].
  - eexists. eexists. split; [vm_compute; reflexivity |].
    split; [reflexivity |]. split; [reflexivity | discriminate].
  - eexists. eexists. split; [vm_compute; reflexivity |].
    split; [reflexivity |]. split; [reflexivity | discriminate].
  - eexists. split; [vm_compute; reflexivity |]. split; reflexivity.
Qed.

(** ** Pages by title ([confluence.py], [server.py]) *)

Section PageByTitle.
Context `{Collaborators}.

(** [get_page_by_title] never raises; it returns [None] when anything in
    its [try] raised. *)
Lemma get_page_by_title_eq (space_key title : json) (clean_html : bool) (s : state) :
  ConfluenceManager.get_page_by_title space_key title clean_html s
  = match ConfluenceManager.get_page_by_title_body space_key title clean_html s with
    | (Ok doc, s') => (Ok doc, s')
    | (Err e, s') => (Ok None, after_log ERROR ("Error fetching page: " ++ exn_msg e) s')
    end.
Proof.
  unfold ConfluenceManager.get_page_by_title, try_except.
  destruct (ConfluenceManager.get_page_by_title_body _ _ _ s) as [[doc | e] s'];
    reflexivity.
Qed.

(** A failure of the remote fetch is a failure of the [try] block. *)
Lemma get_page_by_title_fetch_fails (space_key title : json) (clean_html : bool)
    (s : state) (e : exn) :
  fst (remote (Call confluence_get_page_by_title
                 [space_key; title; JStr "body.storage,version"]) (world s))
  = Err e ->
  fst (ConfluenceManager.get_page_by_title_body space_key title clean_html s)
  = Err e.
Proof.
  intros Hfetch. unfold ConfluenceManager.get_page_by_title_body, bind.
  rewrite invoke_eq, Hfetch. reflexivity.
Qed.

(** X1.  With [clean_html] set, as the resource handler calls it, the
    lookup never returns a document: a page that is found runs into the
    missing [_clean_html_content], and that exception too is turned into
    [None]. *)
Lemma get_page_by_title_clean_is_none (space_key title : json) (s : state) :
  fst (ConfluenceManager.get_page_by_title space_key title true s) = Ok None.
Proof.
  rewrite get_page_by_title_eq.
  destruct (ConfluenceManager.get_page_by_title_body _ _ true s)
    as [[[doc |] | e] s'] eqn:Hrun; try reflexivity.
  exfalso. unfold ConfluenceManager.get_page_by_title_body,
    ConfluenceManager._clean_html_content in Hrun.
  run_in Hrun.
Qed.

End PageByTitle.

(** C10.  For a URI of the shape confluence://{space}/pages/{title}: when
    the remote fetch raises, whatever the exception, or anything else in
    the lookup's [try] block raises, [get_page_by_title] returns [None]
    and [read_resource] raises "Page not found: {title}". *)
Theorem page_lookup_failure_reads_as_not_found :
  forall (C : Collaborators) (uri space_key title : string) (more : list string)
         (s : state),
    startswith "confluence://" uri = true ->
    str_split "/" (str_replace "confluence://" "" uri)
    = space_key :: "pages" :: title :: more ->
    (exists e,
       fst (remote (Call confluence_get_page_by_title
                      [JStr space_key; JStr title; JStr "body.storage,version"])
              (world s)) = Err e)
    \/ (exists e,
          fst (ConfluenceManager.get_page_by_title_body
                 (JStr space_key) (JStr title) true s) = Err e) ->
    fst (ConfluenceManager.get_page_by_title (JStr space_key) (JStr title) true s)
    = Ok None
    /\ fst (Server.read_resource uri s)
       = Err (Exn ValueError ("Page not found: " ++ title)).
Proof.
  intros C uri space_key title more s Hscheme Hparts Hfail.
  assert (Hbody : exists e,
            fst (ConfluenceManager.get_page_by_title_body
                   (JStr space_key) (JStr title) true s) = Err e).
  { destruct Hfail as [[e He] | Hb]; [| exact Hb].
    exists e. now apply get_page_by_title_fetch_fails. }
  destruct Hbody as [e He].
  assert (Hnone : fst (ConfluenceManager.get_page_by_title
                         (JStr space_key) (JStr title) true s) = Ok None).
  { rewrite get_page_by_title_eq.
    destruct (ConfluenceManager.get_page_by_title_body _ _ _ s) as [[d | e'] s1];
      [discriminate He | reflexivity]. }
  split; [exact Hnone |].
  unfold Server.read_resource. rewrite Hscheme, Hparts. cbn [String.eqb Ascii.eqb Bool.eqb].
  unfold bind.
  destruct (ConfluenceManager.get_page_by_title _ _ _ s) as [[[d |] | e'] s1];
    cbn in Hnone; try discriminate Hnone.
  reflexivity.
Qed.

Lemma page_lookup_failure_reads_as_not_found_witness :
  fst (@ConfluenceManager.get_page_by_title (Demo.scripted Demo.down)
         (JStr "DEV") (JStr "Release notes") true (Demo.start Demo.down))
  = Ok None
  /\ fst (@Server.read_resource (Demo.scripted Demo.down)
            "confluence://DEV/pages/Release notes" (Demo.start Demo.down))
     = Err (Exn ValueError "Page not found: Release notes").
Proof.
  apply (@page_lookup_failure_reads_as_not_found (Demo.scripted Demo.down)
           "confluence://DEV/pages/Release notes" "DEV" "Release notes" []
           (Demo.start Demo.down)).
  - reflexivity.
  - reflexivity.
  - left. exists Demo.unreachable. reflexivity.
Defined.

(** ** Custom-field names ([jira.py]) *)

Lemma dict_set_keys (k : string) (v : json) (d : dict) (x : string) :
  In x (dict_keys (dict_set k v d)) <-> x = k \/ In x (dict_keys d).
Proof.
  induction d as [| [k' v'] d IH]; cbn.
  - intuition.
  - destruct (String.eqb_spec k k') as [-> | Hne]; cbn; [intuition |].
    rewrite IH. intuition.
Qed.

Section CustomFields.
Context `{Collaborators}.

Lemma renamed_keeps (m : list (string * string)) (fields acc : dict) (k : string) :
  In k (dict_keys acc) -> In k (dict_keys (renamed m fields acc)).
Proof.
  unfold renamed. revert acc.
  induction fields as [| [name v] fields IH]; cbn; intros acc Hk; [assumption |].
  apply IH. apply dict_set_keys. now right.
Qed.

Lemma renamed_has (m : list (string * string)) (fields acc : dict) (name : string) :
  In name (dict_keys fields) ->
  In (update_key m name) (dict_keys (renamed m fields acc)).
Proof.
  revert acc. induction fields as [| [n v] fields IH]; cbn; intros acc Hin;
    [contradiction |].
  destruct Hin as [-> | Hin].
  - apply (renamed_keeps m fields). apply dict_set_keys. now left.
  - apply (IH _ Hin).
Qed.

Lemma get_custom_field_id_eq (field_name : string) (s : state) :
  JiraManager._get_custom_field_id field_name s
  = (Ok (assoc_get field_name (CUSTOM_FIELD_MAPPINGS s)),
     if truthy_id (assoc_get field_name (CUSTOM_FIELD_MAPPINGS s)) then s
     else after_log WARNING ("Unknown custom field: " ++ field_name) s).
Proof.
  unfold JiraManager._get_custom_field_id, bind, get_mappings.
  destruct (truthy_id _); reflexivity.
Qed.

Lemma process_custom_field_eq (field_name : string) (value : json) (acc : dict)
    (s : state) :
  JiraManager.process_custom_field (field_name, value) acc s
  = (Ok (set_if_true (assoc_get field_name (CUSTOM_FIELD_MAPPINGS s)) value acc),
     if truthy_id (assoc_get field_name (CUSTOM_FIELD_MAPPINGS s)) then s
     else after_log WARNING ("Skipping unknown custom field: " ++ field_name)
            (after_log WARNING ("Unknown custom field: " ++ field_name) s)).
Proof.
  unfold JiraManager.process_custom_field, bind at 1.
  rewrite get_custom_field_id_eq. unfold set_if_true.
  destruct (assoc_get field_name (CUSTOM_FIELD_MAPPINGS s)) as [i |];
    [destruct (truthy_id (Some i)) |]; reflexivity.
Qed.

Lemma update_field_eq (field_name : string) (value : json) (acc : dict) (s : state) :
  update_field JiraManager._get_custom_field_id (field_name, value) acc s
  = (Ok (dict_set (update_key (CUSTOM_FIELD_MAPPINGS s) field_name) value acc),
     if truthy_id (assoc_get field_name (CUSTOM_FIELD_MAPPINGS s)) then s
     else after_log WARNING ("Unknown custom field: " ++ field_name) s).
Proof.
  unfold update_field, bind at 1. rewrite get_custom_field_id_eq. unfold update_key.
  destruct (assoc_get field_name (CUSTOM_FIELD_MAPPINGS s)) as [i |];
    [destruct (truthy_id (Some i)) |]; reflexivity.
Qed.

Lemma only_logged_refl (s : state) : only_logged s s.
Proof. repeat split; auto. Qed.

Lemma only_logged_log (s s' : state) (lvl : level) (msg : string) :
  only_logged s s' -> only_logged s (after_log lvl msg s').
Proof.
  intros (Hw & Hm & Hc & Ht). repeat split; cbn; auto.
  - rewrite calls_of_app. cbn. now rewrite app_nil_r.
  - intros ev Hev. apply in_or_app. left. auto.
Qed.

Lemma process_custom_fields_loop (custom_fields acc : dict) (s : state) :
  exists s',
    for_each JiraManager.process_custom_field custom_fields acc s
    = (Ok (translate (CUSTOM_FIELD_MAPPINGS s) custom_fields acc), s')
    /\ only_logged s s'
    /\ (forall name,
          In name (dict_keys custom_fields) ->
          truthy_id (assoc_get name (CUSTOM_FIELD_MAPPINGS s)) = false ->
          In (ELog WARNING ("Skipping unknown custom field: " ++ name)) (trace s')).
Proof.
  revert acc s. induction custom_fields as [| [name v] cf IH]; intros acc s.
  - exists s. cbn. split; [reflexivity |]. split; [apply only_logged_refl |].
    intros n [].
  - cbn [for_each]. unfold bind at 1. rewrite process_custom_field_eq.
    set (s1 := if truthy_id _ then s else _).
    assert (H1 : only_logged s s1).
    { subst s1. destruct (truthy_id _);
        [apply only_logged_refl
        | do 2 apply only_logged_log; apply only_logged_refl]. }
    destruct (IH (set_if_true (assoc_get name (CUSTOM_FIELD_MAPPINGS s)) v acc) s1)
      as (s' & Hrun & H2 & Hwarn).
    destruct H1 as (Hw1 & Hm1 & Hc1 & Ht1). destruct H2 as (Hw2 & Hm2 & Hc2 & Ht2).
    exists s'. rewrite Hm1 in Hrun, Hwarn. split; [exact Hrun |].
    split; [repeat split; try congruence; auto |].
    cbn [dict_keys map fst]. intros n [<- | Hn] Hun.
    + apply Ht2. subst s1. rewrite Hun. cbn. apply in_or_app. right. now left.
    + now apply Hwarn.
Qed.

End CustomFields.

Lemma dict_get_set_eq (k : string) (v : json) (d : dict) :
  dict_get k (dict_set k v d) = Some v.
Proof.
  induction d as [| [k' v'] d IH]; cbn.
  - now rewrite String.eqb_refl.
  - destruct (String.eqb_spec k k') as [-> | Hne]; cbn.
    + now rewrite String.eqb_refl.
    + destruct (String.eqb_spec k k'); [contradiction | exact IH].
Qed.

Lemma dict_get_set_neq (k k' : string) (v : json) (d : dict) :
  k <> k' -> dict_get k (dict_set k' v d) = dict_get k d.
Proof.
  intros Hne. induction d as [| [k0 v0] d IH]; cbn.
  - destruct (String.eqb_spec k k'); [contradiction | reflexivity].
  - destruct (String.eqb_spec k' k0) as [-> | Hne0]; cbn.
    + destruct (String.eqb_spec k k0); [contradiction | reflexivity].
    + destruct (String.eqb_spec k k0); [reflexivity | exact IH].
Qed.

Lemma translate_app (m : list (string * string)) (a b acc : dict) :
  translate m (a ++ b)%list acc = translate m b (translate m a acc).
Proof. unfold translate. apply fold_left_app. Qed.

Lemma set_if_true_keys (o : option string) (v : json) (acc : dict) (k : string) :
  In k (dict_keys (set_if_true o v acc))
  <-> In k (dict_keys acc) \/ (o = Some k /\ truthy_id (Some k) = true).
Proof.
  unfold set_if_true. destruct o as [i |].
  - destruct (truthy_id (Some i)) eqn:Hi.
    + rewrite dict_set_keys. split.
      * intros [-> | Hk]; [right; auto | now left].
      * intros [Hk | [[= ->] _]]; [now right | now left].
    + split; [now left |]. intros [Hk | [[= ->] Ht]]; [exact Hk | congruence].
  - split; [now left |]. intros [Hk | [[=] _]]. exact Hk.
Qed.

(** The keys of what creation sends for the custom fields: the
    identifiers, true ones, of the names supplied. *)
Lemma translate_keys_iff (m : list (string * string)) (custom_fields acc : dict)
    (k : string) :
  In k (dict_keys (translate m custom_fields acc))
  <-> In k (dict_keys acc)
      \/ exists name,
           In name (dict_keys custom_fields)
           /\ assoc_get name m = Some k /\ truthy_id (Some k) = true.
Proof.
  unfold translate. revert acc.
  induction custom_fields as [| [name v] cf IH]; cbn [fold_left fst snd]; intros acc.
  - split; [now left | intros [Hk | (n & [] & _)]; exact Hk].
  - rewrite IH, set_if_true_keys. cbn [dict_keys map fst]. split.
    + intros [[Hk | [Hm Ht]] | (n & Hn & Hm & Ht)].
      * now left.
      * right. exists name. split; [now left | auto].
      * right. exists n. split; [now right | auto].
    + intros [Hk | (n & [<- | Hn] & Hm & Ht)].
      * left. now left.
      * left. right. auto.
      * right. exists n. auto.
Qed.

Lemma translate_get_other (m : list (string * string)) (custom_fields acc : dict)
    (i : string) :
  (forall n, In n (dict_keys custom_fields) -> assoc_get n m <> Some i) ->
  dict_get i (translate m custom_fields acc) = dict_get i acc.
Proof.
  unfold translate. revert acc.
  induction custom_fields as [| [name v] cf IH]; cbn [fold_left fst snd];
    intros acc Hother; [reflexivity |].
  rewrite IH by (intros n Hn; apply Hother; now right).
  unfold set_if_true.
  destruct (assoc_get name m) as [j |] eqn:Hj; [| reflexivity].
  destruct (truthy_id (Some j)); [| reflexivity].
  apply dict_get_set_neq. intros ->. apply (Hother name); [now left | exact Hj].
Qed.

(** The value under an identifier is the one supplied last for it. *)
Lemma translate_last (m : list (string * string)) (before after acc : dict)
    (name : string) (v : json) (i : string) :
  assoc_get name m = Some i -> truthy_id (Some i) = true ->
  (forall n, In n (dict_keys after) -> assoc_get n m <> Some i) ->
  dict_get i (translate m (before ++ (name, v) :: after)%list acc) = Some v.
Proof.
  intros Hi Ht Hafter.
  rewrite translate_app. unfold translate at 1. cbn [fold_left fst snd].
  fold (translate m after (set_if_true (assoc_get name m) v (translate m before acc))).
  rewrite translate_get_other by exact Hafter.
  unfold set_if_true. rewrite Hi, Ht. apply dict_get_set_eq.
Qed.

Section CustomFieldsSent.
Context `{Collaborators}.

Lemma renamed_app (m : list (string * string)) (a b acc : dict) :
  renamed m (a ++ b)%list acc = renamed m b (renamed m a acc).
Proof. unfold renamed. apply fold_left_app. Qed.

(** The keys of what an update sends: one for every name supplied. *)
Lemma renamed_keys_iff (m : list (string * string)) (fields acc : dict)
    (k : string) :
  In k (dict_keys (renamed m fields acc))
  <-> In k (dict_keys acc)
      \/ exists name, In name (dict_keys fields) /\ k = update_key m name.
Proof.
  unfold renamed. revert acc.
  induction fields as [| [name v] fields IH]; cbn [fold_left fst snd]; intros acc.
  - split; [now left | intros [Hk | (n & [] & _)]; exact Hk].
  - rewrite IH, dict_set_keys. cbn [dict_keys map fst]. split.
    + intros [[-> | Hk] | (n & Hn & ->)].
      * right. exists name. split; [now left | reflexivity].
      * now left.
      * right. exists n. split; [now right | reflexivity].
    + intros [Hk | (n & [<- | Hn] & ->)].
      * left. now right.
      * left. now left.
      * right. exists n. auto.
Qed.

Lemma renamed_get_other (m : list (string * string)) (fields acc : dict)
    (k : string) :
  (forall n, In n (dict_keys fields) -> update_key m n <> k) ->
  dict_get k (renamed m fields acc) = dict_get k acc.
Proof.
  unfold renamed. revert acc.
  induction fields as [| [name v] fields IH]; cbn [fold_left fst snd];
    intros acc Hother; [reflexivity |].
  rewrite IH by (intros n Hn; apply Hother; now right).
  apply dict_get_set_neq. intros ->. apply (Hother name); [now left | reflexivity].
Qed.

Lemma renamed_last (m : list (string * string)) (before after acc : dict)
    (name : string) (v : json) :
  (forall n, In n (dict_keys after) -> update_key m n <> update_key m name) ->
  dict_get (update_key m name) (renamed m (before ++ (name, v) :: after)%list acc)
  = Some v.
Proof.
  intros Hafter.
  rewrite renamed_app. unfold renamed at 1. cbn [fold_left fst snd].
  fold (renamed m after (dict_set (update_key m name) v (renamed m before acc))).
  rewrite renamed_get_other by exact Hafter.
  apply dict_get_set_eq.
Qed.

Lemma update_key_resolved (m : list (string * string)) (name i : string) :
  assoc_get name m = Some i -> truthy_id (Some i) = true -> update_key m name = i.
Proof. intros Hi Ht. unfold update_key. now rewrite Hi, Ht. Qed.

Lemma update_key_unresolved (m : list (string * string)) (name : string) :
  truthy_id (assoc_get name m) = false -> update_key m name = py_lower name.
Proof. intros Hun. unfold update_key. now rewrite Hun. Qed.

(** The loop of [update_issue]: it ends, having logged a warning for every
    name without a true identifier. *)
Lemma update_fields_loop_warns (fields acc : dict) (s : state) :
  exists s',
    for_each (update_field JiraManager._get_custom_field_id) fields acc s
    = (Ok (renamed (CUSTOM_FIELD_MAPPINGS s) fields acc), s')
    /\ only_logged s s'
    /\ (forall name,
          In name (dict_keys fields) ->
          truthy_id (assoc_get name (CUSTOM_FIELD_MAPPINGS s)) = false ->
          In (ELog WARNING ("Unknown custom field: " ++ name)) (trace s')).
Proof.
  revert acc s. induction fields as [| [name v] fields IH]; intros acc s.
  - exists s. split; [reflexivity |]. split; [apply only_logged_refl |].
    intros n [].
  - cbn [for_each]. unfold bind at 1. rewrite update_field_eq.
    set (s1 := if truthy_id _ then s else _).
    assert (H1 : only_logged s s1).
    { subst s1. destruct (truthy_id _);
        [apply only_logged_refl | apply only_logged_log; apply only_logged_refl]. }
    destruct (IH (dict_set (update_key (CUSTOM_FIELD_MAPPINGS s) name) v acc) s1)
      as (s' & Hrun & H2 & Hwarn).
    destruct H1 as (Hw1 & Hm1 & Hc1 & Ht1). destruct H2 as (Hw2 & Hm2 & Hc2 & Ht2).
    exists s'. rewrite Hm1 in Hrun, Hwarn. split; [exact Hrun |].
    split; [repeat split; try congruence; auto |].
    cbn [dict_keys map fst]. intros n [<- | Hn] Hun.
    + apply Ht2. subst s1. rewrite Hun. cbn. apply in_or_app. right. now left.
    + now apply Hwarn.
Qed.

End CustomFieldsSent.

(** ** Epic links ([jira.py], both variants) *)

Section EpicLink.
Context `{Collaborators}.

Lemma appends_calls {A} (m : M A) (s : state) :
  appends m ->
  exists rest, calls_of (trace (snd (m s))) = (calls_of (trace s) ++ rest)%list.
Proof.
  intros Hm. destruct (Hm s) as [r Hr]. exists (calls_of r).
  now rewrite Hr, calls_of_app.
Qed.

Lemma appends_get_custom_field_id (field_name : string) :
  appends (JiraManager._get_custom_field_id field_name).
Proof. unfold JiraManager._get_custom_field_id. appends_steps. Qed.

Lemma appends_get_custom_field_id_ib (field_name : string) :
  appends (JiraManagerIb._get_custom_field_id field_name).
Proof. unfold JiraManagerIb._get_custom_field_id. appends_steps. Qed.

Hint Resolve appends_get_custom_field_id appends_get_custom_field_id_ib : trace.

Variable _get_custom_field_id : string -> M (option string).
Variable rest : dict -> M Document.
Hypothesis appends_id : forall n, appends (_get_custom_field_id n).
Hypothesis appends_rest : forall fields, appends (rest fields).

Variable request : JiraIssueCreate.t.
Variable link : string.
Hypothesis is_story : JiraIssueCreate.issue_type request = "Story".
Hypothesis has_link : JiraIssueCreate.epic_link request = Some link.
Hypothesis link_not_empty : link <> "".

Let project_call : call :=
  Call jira_project [JStr (JiraIssueCreate.project_key request)].
Let issue_call : call := Call jira_issue [JStr link].

(** The type-specific step of a story with a link: the linked issue is
    looked up; unless it passes the test the step raises, the lookup being
    the only call made; when it passes, the link field is set. *)
Lemma type_specific_fields_story (fields : dict) (s : state) :
  type_specific_fields _get_custom_field_id request fields s
  = match fst (remote issue_call (world s)) with
    | Err e => (Err e, after_call jira_issue [JStr link] s)
    | Ok epic =>
        if is_epic epic then
          (epic_link_field <- _get_custom_field_id "Epic Link" ;;
           ret (set_if_true epic_link_field (JStr link) fields))
            (after_call jira_issue [JStr link] s)
        else
          (Err (if truthy epic then
                  match rbind (py_getitem epic "fields")
                          (fun f => rbind (py_getitem f "issuetype")
                                      (fun t => py_getitem t "name")) with
                  | Ok _ => invalid_epic_link link
                  | Err e => e
                  end
                else invalid_epic_link link),
           after_call jira_issue [JStr link] s)
    end.
Proof.
  unfold type_specific_fields. rewrite is_story, has_link.
  apply String.eqb_neq in link_not_empty as Hl. rewrite Hl.
  cbn [String.eqb Ascii.eqb Bool.eqb negb andb].
  unfold bind at 1. rewrite invoke_eq. fold issue_call.
  destruct (fst (remote issue_call (world s))) as [epic | e]; [| reflexivity].
  unfold is_epic, rbind. unfold bind at 1.
  destruct (truthy epic); cbn [negb andb]; [| reflexivity].
  unfold bind at 1, lift at 1.
  destruct (py_getitem epic "fields") as [f | e]; [| reflexivity].
  unfold bind at 1, lift at 1.
  destruct (py_getitem f "issuetype") as [t | e]; [| reflexivity].
  unfold bind at 1, lift at 1.
  destruct (py_getitem t "name") as [n | e]; [| reflexivity].
  destruct (py_eq_str n "Epic"); reflexivity.
Qed.

Let failed (e : exn) (s : state) : result Document * state :=
  (Err e, after_log ERROR ("Error creating issue: " ++ exn_msg e) s).

Let epic_error (epic : json) : exn :=
  if truthy epic then
    match rbind (py_getitem epic "fields")
            (fun f => rbind (py_getitem f "issuetype")
                        (fun t => py_getitem t "name")) with
    | Ok _ => invalid_epic_link link
    | Err e => e
    end
  else invalid_epic_link link.

(** [create_issue] on a story with a link, step by step. *)
Lemma create_issue_shape_run (s : state) :
  create_issue_shape _get_custom_field_id rest request s
  = match fst (remote project_call (world s)) with
    | Err e => failed e (after_call jira_project (call_args project_call) s)
    | Ok project =>
        if truthy project then
          match fst (remote issue_call
                       (world (after_call jira_project (call_args project_call) s)))
          with
          | Err e =>
              failed e (after_call jira_issue [JStr link]
                          (after_call jira_project (call_args project_call) s))
          | Ok epic =>
              if is_epic epic then
                try_except
                  (fields <-
                     (epic_link_field <- _get_custom_field_id "Epic Link" ;;
                      ret (set_if_true epic_link_field (JStr link)
                             (base_fields request))) ;;
                   rest fields)
                  (fun e => log ERROR ("Error creating issue: " ++ exn_msg e) ;;
                            raise_ e)
                  (after_call jira_issue [JStr link]
                     (after_call jira_project (call_args project_call) s))
              else
                failed (epic_error epic)
                  (after_call jira_issue [JStr link]
                     (after_call jira_project (call_args project_call) s))
          end
        else
          failed (Exn ValueError
                    ("Project " ++ JiraIssueCreate.project_key request
                     ++ " does not exist"))
            (after_call jira_project (call_args project_call) s)
    end.
Proof.
  unfold create_issue_shape, try_except, validate_project.
  unfold bind at 1. unfold bind at 1. rewrite invoke_eq. fold project_call.
  destruct (fst (remote project_call (world s))) as [project | e];
    [| reflexivity].
  destruct (truthy project); cbn [negb]; [| reflexivity].
  cbn [ret]. unfold bind at 1. rewrite type_specific_fields_story.
  cbn [call_args project_call].
  destruct (fst (remote issue_call _)) as [epic | e]; [| reflexivity].
  destruct (is_epic epic); reflexivity.
Qed.

(** Before any other call of [create_issue] the project is looked up
    and then the linked issue; further calls follow only when the linked
    issue passed the test. *)
Lemma create_issue_shape_gate (s : state) :
  calls_of (trace (snd (create_issue_shape _get_custom_field_id rest request s)))
  = (calls_of (trace s) ++ [project_call])%list
  \/ exists more,
       calls_of (trace (snd (create_issue_shape _get_custom_field_id rest request s)))
       = (calls_of (trace s) ++ project_call :: issue_call :: more)%list
       /\ (more <> [] ->
           exists epic,
             fst (remote issue_call
                    (world (after_call jira_project
                              [JStr (JiraIssueCreate.project_key request)] s)))
             = Ok epic
             /\ is_epic epic = true).
Proof.
  rewrite create_issue_shape_run. cbn [call_args project_call].
  set (s1 := after_call jira_project _ s).
  assert (Hs1 : calls_of (trace s1) = (calls_of (trace s) ++ [project_call])%list).
  { subst s1. cbn. now rewrite calls_of_app. }
  set (s2 := after_call jira_issue [JStr link] s1).
  assert (Hs2 : calls_of (trace s2)
                = (calls_of (trace s) ++ [project_call; issue_call])%list).
  { subst s2. cbn [after_call trace]. rewrite calls_of_app, Hs1, <- app_assoc.
    reflexivity. }
  assert (Hfailed : forall e s0,
            calls_of (trace (snd (failed e s0))) = calls_of (trace s0)).
  { intros e s0. cbn. now rewrite calls_of_app, app_nil_r. }
  destruct (fst (remote project_call (world s))) as [project | e].
  2:{ left. now rewrite Hfailed. }
  destruct (truthy project).
  2:{ left. now rewrite Hfailed. }
  right.
  destruct (fst (remote issue_call (world s1))) as [epic | e].
  2:{ exists []. split; [now rewrite Hfailed | congruence]. }
  destruct (is_epic epic) eqn:Hepic.
  2:{ exists []. split; [now rewrite Hfailed | congruence]. }
  match goal with
  | |- context [snd (?m s2)] =>
      assert (Hm : appends m) by (appends_steps; auto);
      destruct (appends_calls m s2 Hm) as [more Hmore]
  end.
  exists more. split; [| intros _; exists epic; auto].
  rewrite Hmore, Hs2, <- app_assoc. reflexivity.
Qed.

(** A linked issue that is absent, or whose type is not "Epic", makes
    [create_issue] raise the invalid-epic-link error. *)
Lemma create_issue_shape_invalid_link (s : state) (project epic : json) :
  fst (remote project_call (world s)) = Ok project ->
  truthy project = true ->
  fst (remote issue_call
         (world (after_call jira_project
                   [JStr (JiraIssueCreate.project_key request)] s))) = Ok epic ->
  truthy epic = false
  \/ (exists f t n,
        py_getitem epic "fields" = Ok f /\ py_getitem f "issuetype" = Ok t
        /\ py_getitem t "name" = Ok n /\ py_eq_str n "Epic" = false) ->
  create_issue_shape _get_custom_field_id rest request s
  = (Err (Exn ValueError ("Invalid epic link: " ++ link)),
     after_log ERROR ("Error creating issue: Invalid epic link: " ++ link)
       (after_call jira_issue [JStr link]
          (after_call jira_project
             [JStr (JiraIssueCreate.project_key request)] s))).
Proof.
  intros Hproject Htrue Hepic Hbad.
  rewrite create_issue_shape_run. cbn [call_args project_call].
  rewrite Hproject, Htrue, Hepic.
  assert (Hno : is_epic epic = false /\ epic_error epic = invalid_epic_link link).
  { unfold is_epic, epic_error.
    destruct Hbad as [-> | (f & t & n & -> & Hf & Ht & Hn)].
    - split; reflexivity.
    - cbn [rbind]. rewrite Hf. cbn [rbind]. rewrite Ht, Hn.
      rewrite andb_false_r. destruct (truthy epic); split; reflexivity. }
  destruct Hno as [-> ->]. reflexivity.
Qed.

End EpicLink.

Section CreateIssue.
Context `{Collaborators}.

Hint Resolve appends_get_custom_field_id appends_get_custom_field_id_ib : trace.

(** What follows the type-specific fields in [src/mcp_atlassian/jira.py]
    and in [src/mcp_atlassian_ib/jira.py]. *)
Lemma create_issue_is_shape (request : JiraIssueCreate.t) :
  JiraManager.create_issue request
  = create_issue_shape JiraManager._get_custom_field_id
      (fun fields =>
         fields <-
           (match JiraIssueCreate.custom_fields request with
            | [] => ret fields
            | custom_fields =>
                processed_fields <- JiraManager._process_custom_fields custom_fields ;;
                ret (dict_update fields processed_fields)
            end) ;;
         issue <- invoke jira_create_issue [JDict fields] ;;
         key <- lift (py_getitem issue "key") ;;
         JiraManager.get_issue key JNull)
      request.
Proof. reflexivity. Qed.

Lemma create_issue_ib_is_shape (request : JiraIssueCreate.t) :
  JiraManagerIb.create_issue request
  = create_issue_shape JiraManagerIb._get_custom_field_id
      (fun fields =>
         fields <-
           (match JiraIssueCreate.custom_fields request with
            | [] => ret fields
            | custom_fields =>
                for_each JiraManagerIb.create_custom_field custom_fields fields
            end) ;;
         issue <- invoke jira_create_issue [JDict fields] ;;
         key <- lift (py_getitem issue "key") ;;
         JiraManagerIb.get_issue key JNull)
      request.
Proof. reflexivity. Qed.

Lemma appends_create_rest (request : JiraIssueCreate.t) (fields : dict) :
  appends
    (fields <-
       (match JiraIssueCreate.custom_fields request with
        | [] => ret fields
        | custom_fields =>
            processed_fields <- JiraManager._process_custom_fields custom_fields ;;
            ret (dict_update fields processed_fields)
        end) ;;
     issue <- invoke jira_create_issue [JDict fields] ;;
     key <- lift (py_getitem issue "key") ;;
     JiraManager.get_issue key JNull).
Proof.
  unfold JiraManager._process_custom_fields, JiraManager.process_custom_field,
    JiraManager.get_issue.
  appends_steps.
Qed.

Lemma appends_create_rest_ib (request : JiraIssueCreate.t) (fields : dict) :
  appends
    (fields <-
       (match JiraIssueCreate.custom_fields request with
        | [] => ret fields
        | custom_fields =>
            for_each JiraManagerIb.create_custom_field custom_fields fields
        end) ;;
     issue <- invoke jira_create_issue [JDict fields] ;;
     key <- lift (py_getitem issue "key") ;;
     JiraManagerIb.get_issue key JNull).
Proof.
  unfold JiraManagerIb.create_custom_field, JiraManagerIb.get_issue.
  appends_steps.
Qed.

End CreateIssue.

(** C8, as the code has it.  For a story with a non-empty epic-link, in
    both variants of [create_issue]: the first calls are the lookup of the
    project and then of the linked issue, and any later call, the creation
    among them, is issued only when the linked issue passed the test.
    When the project exists and the lookup returns an empty value or an
    issue whose type is not "Epic", the operation raises "Invalid epic
    link: {key}", the two lookups being the only calls made. *)
Theorem story_epic_link_is_validated :
  forall (C : Collaborators) (request : JiraIssueCreate.t) (link : string)
         (s : state),
    JiraIssueCreate.issue_type request = "Story" ->
    JiraIssueCreate.epic_link request = Some link ->
    link <> "" ->
    validated_first request link s (snd (JiraManager.create_issue request s))
    /\ validated_first request link s (snd (JiraManagerIb.create_issue request s))
    /\ (forall project epic,
          fst (remote (Call jira_project [JStr (JiraIssueCreate.project_key request)])
                 (world s)) = Ok project ->
          truthy project = true ->
          fst (remote (Call jira_issue [JStr link])
                 (world (after_call jira_project
                           [JStr (JiraIssueCreate.project_key request)] s)))
          = Ok epic ->
          truthy epic = false
          \/ (exists f t n,
                py_getitem epic "fields" = Ok f /\ py_getitem f "issuetype" = Ok t
                /\ py_getitem t "name" = Ok n /\ py_eq_str n "Epic" = false) ->
          exists s',
            JiraManager.create_issue request s
            = (Err (Exn ValueError ("Invalid epic link: " ++ link)), s')
            /\ JiraManagerIb.create_issue request s
               = (Err (Exn ValueError ("Invalid epic link: " ++ link)), s')
            /\ calls_of (trace s')
               = (calls_of (trace s)
                  ++ [ Call jira_project [JStr (JiraIssueCreate.project_key request)];
                       Call jira_issue [JStr link] ])%list).
Proof.
  intros C request link s Hstory Hlink Hne.
  rewrite create_issue_is_shape, create_issue_ib_is_shape.
  split; [| split].
  - apply create_issue_shape_gate; auto using appends_get_custom_field_id.
    apply appends_create_rest.
  - apply create_issue_shape_gate; auto using appends_get_custom_field_id_ib.
    apply appends_create_rest_ib.
  - intros project epic Hp Ht He Hbad. eexists. split; [| split].
    + apply create_issue_shape_invalid_link with project epic; assumption.
    + apply create_issue_shape_invalid_link with project epic; assumption.
    + cbn. rewrite !calls_of_app, <- !app_assoc. cbn. reflexivity.
Qed.

Lemma story_epic_link_is_validated_witness :
  exists s',
    @JiraManager.create_issue (Demo.scripted Demo.tracker) Demo.linked_story
      (Demo.start Demo.tracker)
    = (Err (Exn ValueError "Invalid epic link: DEV-1"), s')
    /\ calls_of (trace s')
       = [Call jira_project [JStr "DEV"]; Call jira_issue [JStr "DEV-1"]].
Proof.
  destruct (@story_epic_link_is_validated (Demo.scripted Demo.tracker)
              Demo.linked_story "DEV-1" (Demo.start Demo.tracker)
              eq_refl eq_refl) as (_ & _ & Hinvalid); [discriminate |].
  destruct (Hinvalid (JDict [("key", JStr "DEV")]) Demo.story_DEV_1
              eq_refl eq_refl eq_refl) as (s' & Hrun & _ & Hcalls).
  - right. do 3 eexists. repeat split; reflexivity.
  - exists s'. split; [exact Hrun | exact Hcalls].
Defined.

(** C8 fails on an empty link, without the project, and when the lookup
    of the link raises.  A story whose epic-link is the empty string,
    which names no issue of the tracker, is created all the same, without
    any lookup of the link.  A story linked to DEV-1, which is no epic, is
    refused for its project when the tracker has no project DEV, the link
    not being looked up; and when the tracker answers the lookup of the
    link with an error, that error is what [create_issue] raises.  Neither
    is the invalid-epic-link error. *)
Lemma empty_epic_link_is_not_validated :
  (JiraIssueCreate.new "DEV" "Export as CSV" "" "Story" (Some "") None
   = Ok Demo.loose_story
   /\ fst (@remote (Demo.scripted Demo.tracker) (Call jira_issue [JStr ""]) tt)
      = Ok JNull
   /\ exists doc s',
        @JiraManager.create_issue (Demo.scripted Demo.tracker) Demo.loose_story
          (Demo.start Demo.tracker) = (Ok doc, s')
        /\ calls_of (trace s')
           = [ Call jira_project [JStr "DEV"];
               Call jira_create_issue
                 [JDict [ ("project", JDict [("key", JStr "DEV")]);
                          ("summary", JStr "Export as CSV");
                          ("description", JStr "");
                          ("issuetype", JDict [("name", JStr "Story")]) ]];
               Call jira_issue [JStr "DEV-1"; JNull] ])
  /\ (JiraIssueCreate.new "DEV" "Export as CSV" "" "Story" (Some "DEV-1") None
      = Ok Demo.linked_story
      /\ is_epic Demo.story_DEV_1 = false
      /\ exists s',
           @JiraManager.create_issue (Demo.scripted Demo.no_project)
             Demo.linked_story (Demo.start Demo.no_project)
           = (Err (Exn ValueError "Project DEV does not exist"), s')
           /\ Exn ValueError "Project DEV does not exist"
              <> invalid_epic_link "DEV-1"
           /\ calls_of (trace s') = [Call jira_project [JStr "DEV"]])
  /\ (exists s',
        @JiraManager.create_issue (Demo.scripted Demo.strict)
          Demo.linked_story (Demo.start Demo.strict)
        = (Err Demo.not_found, s')
        /\ Demo.not_found <> invalid_epic_link "DEV-1"
        /\ calls_of (trace s')
           = [Call jira_project [JStr "DEV"]; Call jira_issue [JStr "DEV-1"]]).
Proof.
  split; [| split].
  - split; [reflexivity |]. split; [reflexivity |].
    eexists. eexists. split; vm_compute; reflexivity.
  - split; [reflexivity |]. split; [reflexivity |].
    eexists. split; [vm_compute; reflexivity |].
    split; [discriminate | reflexivity].
  - eexists. split; [vm_compute; reflexivity |].
    split; [discriminate | reflexivity].
Qed.

(** ** Failures at the router boundary ([server.py]) *)

Section Boundary.
Context `{Collaborators}.




End Boundary.



(** ** Names the router does not know ([server.py]) *)

(** X2.  The five tools that build a request object raise the execution
    failure for an unbound name, whatever the arguments, before any remote
    call: [server.py] never imports the request classes it calls. *)
Theorem request_tools_fail_on_unbound_names :
  forall (C : Collaborators) (arguments : json) (s : state),
    let failure (tool class : string) :=
      Server.call_tool tool arguments s
      = (Err (Exn RuntimeError
                ("Tool execution failed: name '" ++ class ++ "' is not defined")),
         after_log ERROR
           ("Tool execution error: name '" ++ class ++ "' is not defined") s) in
    failure "confluence_create_page" "ConfluencePageCreate"
    /\ failure "confluence_update_page" "ConfluencePageUpdate"
    /\ failure "jira_create_epic" "JiraIssueCreate"
    /\ failure "jira_create_story" "JiraIssueCreate"
    /\ failure "jira_update_issue" "JiraIssueUpdate".
Proof.
  intros C arguments s. cbv zeta. repeat split; reflexivity.
Qed.

(** X3.  A tool name that is not registered raises the execution failure
    "Unknown tool: {name}", and a URI of neither scheme raises "Invalid
    resource URI: {uri}"; neither touches the remote services. *)
Theorem unknown_names_are_refused :
  forall (C : Collaborators) (name uri : string) (arguments : json) (s : state),
    existsb (String.eqb name) Server.tool_names = false ->
    startswith "confluence://" uri = false ->
    startswith "jira://" uri = false ->
    Server.call_tool name arguments s
    = (Err (Exn RuntimeError ("Tool execution failed: Unknown tool: " ++ name)),
       after_log ERROR ("Tool execution error: Unknown tool: " ++ name) s)
    /\ Server.read_resource uri s
       = (Err (Exn ValueError ("Invalid resource URI: " ++ uri)), s).
Proof.
  intros C name uri arguments s Hname Hc Hj. split.
  - unfold Server.tool_names in Hname. cbn [existsb] in Hname.
    repeat (apply orb_false_iff in Hname as [? Hname]).
    unfold Server.call_tool, try_except, Server.call_tool_body.
    repeat match goal with
           | E : String.eqb name _ = false |- _ => rewrite E; clear E
           end.
    reflexivity.
  - unfold Server.read_resource. now rewrite Hc, Hj.
Qed.

Lemma unknown_names_are_refused_witness :
  fst (@Server.call_tool (Demo.scripted Demo.down) "jira_delete_issue"
         (JDict []) (Demo.start Demo.down))
  = Err (Exn RuntimeError "Tool execution failed: Unknown tool: jira_delete_issue")
  /\ fst (@Server.read_resource (Demo.scripted Demo.down) "ftp://x"
            (Demo.start Demo.down))
     = Err (Exn ValueError "Invalid resource URI: ftp://x").
Proof.
  destruct (@unknown_names_are_refused (Demo.scripted Demo.down)
              "jira_delete_issue" "ftp://x" (JDict []) (Demo.start Demo.down)
              eq_refl eq_refl eq_refl) as [Htool Hres].
  rewrite Htool, Hres. split; reflexivity.
Defined.

(** ** Invariants of runs *)

Section Steps.
Context `{Collaborators}.
Variable R : state -> state -> Prop.
Variable allowed : call -> bool.
Hypothesis HR : invariant R allowed.

Lemma steps_ret {A} (a : A) : steps R (ret a).
Proof. intros s. apply (inv_refl HR). Qed.

Lemma steps_raise {A} (e : exn) : steps R (@raise_ _ A e).
Proof. intros s. apply (inv_refl HR). Qed.

Lemma steps_lift {A} (r : result A) : steps R (lift r).
Proof. intros s. apply (inv_refl HR). Qed.

Lemma steps_get_mappings : steps R get_mappings.
Proof. intros s. apply (inv_refl HR). Qed.

Lemma steps_log (lvl : level) (msg : string) : steps R (log lvl msg).
Proof. intros s. apply (inv_log HR). Qed.

Lemma steps_with_world {A} (f : World -> result A * World) :
  steps R (with_world f).
Proof.
  intros s. unfold with_world. destruct (f (world s)) as [r w]. cbn.
  apply (inv_world HR).
Qed.

Lemma steps_invoke (m : method) (args : list json) :
  allowed (Call m args) = true -> steps R (invoke m args).
Proof. intros Hok s. rewrite invoke_eq. cbn. now apply (inv_call HR). Qed.

Lemma steps_bind {A B} (m : M A) (f : A -> M B) :
  steps R m -> (forall a, steps R (f a)) -> steps R (bind m f).
Proof.
  intros Hm Hf s. unfold bind. specialize (Hm s).
  destruct (m s) as [[a | e] s1]; cbn in *; [| assumption].
  eapply (inv_trans HR); [exact Hm | apply Hf].
Qed.

Lemma steps_try_except {A} (m : M A) (h : exn -> M A) :
  steps R m -> (forall e, steps R (h e)) -> steps R (try_except m h).
Proof.
  intros Hm Hh s. unfold try_except. specialize (Hm s).
  destruct (m s) as [[a | e] s1]; cbn in *; [assumption |].
  eapply (inv_trans HR); [exact Hm | apply Hh].
Qed.

Lemma steps_for_each {A B} (body : A -> B -> M B) (l : list A) (acc : B) :
  (forall x a, steps R (body x a)) -> steps R (for_each body l acc).
Proof.
  intros Hbody. revert acc; induction l as [| x l IH]; intros acc; cbn.
  - apply steps_ret.
  - apply steps_bind; [apply Hbody | intros a; apply IH].
Qed.

End Steps.

Create HintDb steps.
#[local] Hint Resolve steps_ret steps_raise steps_lift steps_get_mappings
  steps_log steps_with_world : steps.

(** Takes a computation apart along its binds, loops and branches; the
    calls it meets are checked against [allowed] by computation. *)
Ltac steps_auto HR :=
  repeat first
    [ progress intros
    | solve [eauto with steps]
    | solve [eapply (steps_invoke _ _ HR); reflexivity]
    | eapply (steps_bind _ _ HR)
    | eapply (steps_try_except _ _ HR)
    | eapply (steps_for_each _ _ HR)
    | match goal with
      | |- steps _ (match ?x with _ => _ end) => destruct x
      | |- steps _ (let '(_, _) := ?x in _) => destruct x
      end ].

Section ReadOnly.
Context `{Collaborators}.

Lemma read_only_invariant : invariant read_only (fun c => negb (is_write c)).
Proof.
  split.
  - intros s. split; [reflexivity |]. exists []. rewrite app_nil_r. split; constructor.
  - intros s1 s2 s3 (Hm1 & r1 & Ht1 & Hw1) (Hm2 & r2 & Ht2 & Hw2).
    split; [congruence |]. exists (r1 ++ r2)%list.
    rewrite Ht2, Ht1, app_assoc, calls_of_app. split; [reflexivity |].
    apply Forall_app. now split.
  - intros lvl msg s. split; [reflexivity |]. eexists. split; [reflexivity |].
    constructor.
  - intros w s. split; [reflexivity |]. exists []. cbn. rewrite app_nil_r.
    split; constructor.
  - intros m args s Hok. split; [reflexivity |]. eexists. split; [reflexivity |].
    cbn. constructor; [| constructor]. now apply negb_true_iff in Hok.
Qed.

Lemma no_call_invariant : invariant no_call (fun _ => false).
Proof.
  split.
  - intros s. split; reflexivity.
  - intros s1 s2 s3 [Hm1 Hc1] [Hm2 Hc2]. split; congruence.
  - intros lvl msg s. split; [reflexivity |]. cbn. rewrite calls_of_app. cbn.
    now rewrite app_nil_r.
  - intros w s. split; reflexivity.
  - intros m args s Hok. discriminate Hok.
Qed.

End ReadOnly.

(** ** What the router's operations never do ([server.py]) *)

Section Readers.
Context `{Collaborators}.

Let RO := read_only_invariant.

Lemma read_only_get_page_content (page_id : json) (clean_html : bool) :
  steps read_only (ConfluenceManager.get_page_content page_id clean_html).
Proof.
  unfold ConfluenceManager.get_page_content,
    ConfluenceManager._process_html_content.
  steps_auto RO.
Qed.

Lemma read_only_get_page_by_title (space_key title : json) (clean_html : bool) :
  steps read_only (ConfluenceManager.get_page_by_title space_key title clean_html).
Proof.
  unfold ConfluenceManager.get_page_by_title,
    ConfluenceManager.get_page_by_title_body,
    ConfluenceManager._clean_html_content.
  steps_auto RO.
Qed.

Lemma read_only_get_space_pages (space_key : json) (start limit : Z)
    (clean_html : bool) :
  steps read_only (ConfluenceManager.get_space_pages space_key start limit clean_html).
Proof.
  unfold ConfluenceManager.get_space_pages, ConfluenceManager.space_page,
    ConfluenceManager._clean_html_content.
  steps_auto RO.
Qed.

Lemma read_only_get_page_comments (page_id : json) (clean_html : bool) :
  steps read_only (ConfluenceManager.get_page_comments page_id clean_html).
Proof.
  unfold ConfluenceManager.get_page_comments, ConfluenceManager.page_comment,
    ConfluenceManager._process_html_content.
  steps_auto RO.
Qed.

Lemma read_only_search (cql : json) (limit : Z) :
  steps read_only (ConfluenceManager.search cql limit).
Proof.
  unfold ConfluenceManager.search, ConfluenceManager.search_body.
  steps_auto RO.
Qed.

Lemma read_only_get_issue (shown : string -> json -> bool) (issue_key expand : json) :
  steps read_only (get_issue_with shown issue_key expand).
Proof.
  unfold get_issue_with, get_issue_body, issue_comment, _clean_text.
  steps_auto RO.
Qed.

Hint Resolve read_only_get_page_content read_only_get_page_by_title
  read_only_get_space_pages read_only_get_page_comments read_only_search
  read_only_get_issue : steps.

Lemma read_only_search_issues (jql fields : json) (start limit : Z) (expand : json) :
  steps read_only (JiraManager.search_issues jql fields start limit expand).
Proof.
  unfold JiraManager.search_issues, search_issues_with, JiraManager.get_issue.
  steps_auto RO.
Qed.

Hint Resolve read_only_search_issues : steps.

Lemma read_only_get_project_issues (project_key : json) (start limit : Z) :
  steps read_only (JiraManager.get_project_issues project_key start limit).
Proof. unfold JiraManager.get_project_issues. steps_auto RO. Qed.

Hint Resolve read_only_get_project_issues : steps.

Lemma read_only_read_resource (uri_str : string) :
  steps read_only (Server.read_resource uri_str).
Proof.
  unfold Server.read_resource, JiraManager.get_issue. steps_auto RO.
Qed.

Lemma read_only_call_tool (name : string) (arguments : json) :
  steps read_only (Server.call_tool name arguments).
Proof.
  unfold Server.call_tool, Server.call_tool_body, Server.unbound, Server.respond,
    JiraManager.get_issue.
  steps_auto RO.
Qed.

End Readers.

(** X4.  Whatever the tool name, the arguments and the remote services,
    [call_tool] leaves the field catalog as it was, removes nothing that
    was issued before it, and issues no call that modifies a remote
    service: the read tools only read, and the tools that would write
    raise before they call.  The same holds of [read_resource]. *)
Theorem router_never_writes :
  forall (C : Collaborators) (name uri : string) (arguments : json) (s : state),
    (CUSTOM_FIELD_MAPPINGS (snd (Server.call_tool name arguments s))
     = CUSTOM_FIELD_MAPPINGS s
     /\ exists rest,
          trace (snd (Server.call_tool name arguments s)) = (trace s ++ rest)%list
          /\ Forall (fun c => is_write c = false) (calls_of rest))
    /\ (CUSTOM_FIELD_MAPPINGS (snd (Server.read_resource uri s))
        = CUSTOM_FIELD_MAPPINGS s
        /\ exists rest,
             trace (snd (Server.read_resource uri s)) = (trace s ++ rest)%list
             /\ Forall (fun c => is_write c = false) (calls_of rest)).
Proof.
  intros C name uri arguments s. split.
  - apply (read_only_call_tool name arguments s).
  - apply (read_only_read_resource uri s).
Qed.

(** ** One lookup per issue ([jira.py]) *)

Section IssueCalls.
Context `{Collaborators}.

Let NC := no_call_invariant.

(** A call followed by steps that issue none, under a handler that issues
    none: the call is the only one. *)
Lemma call_then_no_call {B} (m : method) (args : list json) (K : json -> M B)
    (h : exn -> M B) (s : state) :
  (forall a, steps no_call (K a)) ->
  (forall e, steps no_call (h e)) ->
  calls_of (trace (snd (try_except (bind (invoke m args) K) h s)))
  = (calls_of (trace s) ++ [Call m args])%list.
Proof.
  intros HK Hh.
  assert (Hrest : steps no_call
                    (fun s1 => try_except
                                 (fun s0 => match fst (remote (Call m args) (world s))
                                            with
                                            | Ok a => K a s0
                                            | Err e => (Err e, s0)
                                            end) h s1)).
  { apply (steps_try_except _ _ NC); [| exact Hh].
    destruct (fst (remote (Call m args) (world s))); [apply HK |].
    apply (steps_raise _ _ NC). }
  destruct (Hrest (after_call m args s)) as [_ Hcalls].
  unfold try_except, bind in *. rewrite invoke_eq.
  destruct (fst (remote (Call m args) (world s))) as [a | e];
    rewrite Hcalls; cbn; now rewrite calls_of_app.
Qed.

Lemma get_issue_one_call (shown : string -> json -> bool) (issue_key expand : json)
    (s : state) :
  calls_of (trace (snd (get_issue_with shown issue_key expand s)))
  = (calls_of (trace s) ++ [Call jira_issue [issue_key; expand]])%list.
Proof.
  unfold get_issue_with, get_issue_body.
  apply call_then_no_call.
  - unfold issue_comment, _clean_text. steps_auto NC.
  - steps_auto NC.
Qed.

Lemma get_issue_key (shown : string -> json -> bool) (issue_key expand : json)
    (s s' : state) (doc : Document) :
  get_issue_with shown issue_key expand s = (Ok doc, s') ->
  dict_get "key" (metadata doc) = Some issue_key.
Proof.
  intros Hrun. unfold get_issue_with, get_issue_body in Hrun. run_in Hrun.
  all: injection Hrun as <- _; reflexivity.
Qed.

Lemma search_loop_calls (shown : string -> json -> bool) (expand : json)
    (issues : list json) (acc docs : list Document) (s s' : state) :
  for_each
    (fun issue documents =>
       key <- lift (py_getitem issue "key") ;;
       doc <- get_issue_with shown key expand ;;
       ret (documents ++ [doc])%list)
    issues acc s = (Ok docs, s') ->
  exists keys found,
    docs = (acc ++ found)%list
    /\ Forall2 (fun issue key => py_getitem issue "key" = Ok key) issues keys
    /\ Forall2 (fun key doc => dict_get "key" (metadata doc) = Some key) keys found
    /\ calls_of (trace s')
       = (calls_of (trace s)
          ++ map (fun key => Call jira_issue [key; expand]) keys)%list.
Proof.
  revert acc s. induction issues as [| issue issues IH]; intros acc s; cbn.
  - unfold ret. intros [= <- <-]. exists [], []. rewrite !app_nil_r.
    repeat split; constructor.
  - unfold bind at 1. unfold bind at 1. unfold lift at 1.
    destruct (py_getitem issue "key") as [key | e] eqn:Hkey; [| discriminate].
    unfold bind at 1.
    pose proof (get_issue_one_call shown key expand s) as Hone.
    destruct (get_issue_with shown key expand s) as [[doc | e] s1] eqn:Hdoc;
      [| discriminate].
    apply get_issue_key in Hdoc. cbn [snd] in Hone.
    unfold ret at 1. intros Hrest.
    apply IH in Hrest as (keys & found & -> & Hkeys & Hdocs & Hcalls).
    exists (key :: keys), (doc :: found).
    rewrite <- app_assoc. split; [reflexivity |].
    split; [now constructor |]. split; [now constructor |].
    rewrite Hcalls, Hone, <- app_assoc. reflexivity.
Qed.

End IssueCalls.

(** X5.  An issue search that returns has fetched every hit: its
    documents are one per hit of the query, in the hits' order and each
    under its hit's key, and the calls it issued are the query followed by
    one issue lookup per hit.  (Both variants; [shown] is their only
    difference.) *)
Theorem search_issues_fetches_every_hit :
  forall (C : Collaborators) (shown : string -> json -> bool)
         (jql fields : json) (start limit : Z) (expand : json)
         (s s' : state) (docs : list Document),
    search_issues_with (get_issue_with shown) jql fields start limit expand s
    = (Ok docs, s') ->
    exists results hits issues keys,
      fst (remote (Call jira_jql [jql; fields; JInt start; JInt limit; expand])
             (world s)) = Ok results
      /\ py_getitem results "issues" = Ok hits
      /\ py_iter hits = Ok issues
      /\ Forall2 (fun issue key => py_getitem issue "key" = Ok key) issues keys
      /\ Forall2 (fun key doc => dict_get "key" (metadata doc) = Some key) keys docs
      /\ calls_of (trace s')
         = (calls_of (trace s)
            ++ Call jira_jql [jql; fields; JInt start; JInt limit; expand]
            :: map (fun key => Call jira_issue [key; expand]) keys)%list.
Proof.
  intros C shown jql fields start limit expand s s' docs.
  unfold search_issues_with, try_except.
  unfold bind at 1. rewrite invoke_eq.
  destruct (fst (remote _ (world s))) as [results | e] eqn:Hres;
    [| cbn; discriminate].
  unfold bind at 1, lift at 1.
  destruct (py_getitem results "issues") as [hits | e] eqn:Hhits;
    [| cbn; discriminate].
  unfold bind at 1, lift at 1.
  destruct (py_iter hits) as [issues | e] eqn:Hiter; [| cbn; discriminate].
  destruct (for_each _ issues [] _) as [[ds | e] s1] eqn:Hloop;
    [| cbn; discriminate].
  intros [= <- <-].
  apply search_loop_calls in Hloop as (keys & found & -> & Hkeys & Hdocs & Hcalls).
  exists results, hits, issues, keys. repeat split; try assumption.
  rewrite Hcalls. cbn. rewrite calls_of_app, <- app_assoc. reflexivity.
Qed.

Lemma search_issues_fetches_every_hit_witness :
  exists docs s',
    @JiraManager.search_issues (Demo.scripted Demo.tracker)
      (JStr "project = DEV") (JStr "*all") 0 10 JNull (Demo.start Demo.tracker)
    = (Ok docs, s')
    /\ List.length docs = 1%nat
    /\ calls_of (trace s')
       = [ Call jira_jql [JStr "project = DEV"; JStr "*all"; JInt 0; JInt 10; JNull];
           Call jira_issue [JStr "DEV-1"; JNull] ].
Proof.
  destruct (@JiraManager.search_issues (Demo.scripted Demo.tracker)
              (JStr "project = DEV") (JStr "*all") 0 10 JNull
              (Demo.start Demo.tracker)) as [[docs | e] s'] eqn:Hrun;
    [| vm_compute in Hrun; discriminate Hrun].
  exists docs, s'. split; [reflexivity |].
  destruct (@search_issues_fetches_every_hit (Demo.scripted Demo.tracker)
              (fun _ value => truthy value)
              (JStr "project = DEV") (JStr "*all") 0 10 JNull
              (Demo.start Demo.tracker) s' docs Hrun)
    as (results & hits & issues & keys & Hres & Hhits & Hiter & Hkeys & Hdocs & Hcalls).
  vm_compute in Hres. injection Hres as <-.
  vm_compute in Hhits. injection Hhits as <-.
  vm_compute in Hiter. injection Hiter as <-.
  inversion Hkeys as [| ? key ? ks Hk Hks]; subst. inversion Hks; subst.
  vm_compute in Hk. injection Hk as <-.
  inversion Hdocs as [| ? doc ? ds Hd Hds]; subst. inversion Hds; subst.
  split; [reflexivity | exact Hcalls].
Defined.

(** ** Resolving names, in both variants ([jira.py]) *)

Section Resolve.
Context `{Collaborators}.

Lemma get_custom_field_id_ib_eq (field_name : string) (s : state) :
  JiraManagerIb._get_custom_field_id field_name s
  = if truthy_id (assoc_get field_name (CUSTOM_FIELD_MAPPINGS s)) then
      (Ok (assoc_get field_name (CUSTOM_FIELD_MAPPINGS s)), s)
    else if startswith "customfield_" field_name then
      (Ok None, after_log WARNING ("Unknown custom field ID: " ++ field_name) s)
    else
      (Ok (assoc_get field_name (CUSTOM_FIELD_MAPPINGS s)),
       after_log WARNING ("Unknown custom field name: " ++ field_name) s).
Proof.
  unfold JiraManagerIb._get_custom_field_id, bind, get_mappings.
  destruct (startswith "customfield_" field_name);
    destruct (truthy_id (assoc_get field_name (CUSTOM_FIELD_MAPPINGS s)));
    reflexivity.
Qed.

Lemma resolves_main : resolves JiraManager._get_custom_field_id.
Proof.
  intros name s. rewrite get_custom_field_id_eq.
  destruct (truthy_id (assoc_get name (CUSTOM_FIELD_MAPPINGS s))) eqn:Ht.
  - exists (assoc_get name (CUSTOM_FIELD_MAPPINGS s)), s.
    split; [reflexivity |]. split; [apply only_logged_refl |].
    repeat split; auto; congruence.
  - eexists. eexists. split; [reflexivity |].
    split; [apply only_logged_log, only_logged_refl |].
    repeat split; auto; try congruence. eauto.
Qed.

Lemma resolves_ib : resolves JiraManagerIb._get_custom_field_id.
Proof.
  intros name s. rewrite get_custom_field_id_ib_eq.
  destruct (truthy_id (assoc_get name (CUSTOM_FIELD_MAPPINGS s))) eqn:Ht.
  - exists (assoc_get name (CUSTOM_FIELD_MAPPINGS s)), s.
    split; [reflexivity |]. split; [apply only_logged_refl |].
    repeat split; auto; congruence.
  - destruct (startswith "customfield_" name);
      (eexists; eexists; split; [reflexivity |];
       split; [apply only_logged_log, only_logged_refl |];
       cbn [truthy_id]; repeat split; auto; try congruence; eauto).
Qed.

End Resolve.

(** X6.  Resolving a name never raises and never calls a remote service,
    in either variant of [jira.py]; for every name and catalog the two
    variants agree: both return the catalog's identifier when it has a
    non-empty one for the name, leaving no trace, and otherwise both
    return a false value ([None] or the empty string) and log one
    warning.  An identifier of the "customfield_" form is accepted only
    when the catalog holds it. *)
Theorem resolve_agrees_across_variants :
  forall (C : Collaborators) (name : string) (s : state),
    exists id_main id_ib s_main s_ib,
      JiraManager._get_custom_field_id name s = (Ok id_main, s_main)
      /\ JiraManagerIb._get_custom_field_id name s = (Ok id_ib, s_ib)
      /\ truthy_id id_main = truthy_id (assoc_get name (CUSTOM_FIELD_MAPPINGS s))
      /\ truthy_id id_ib = truthy_id (assoc_get name (CUSTOM_FIELD_MAPPINGS s))
      /\ (truthy_id (assoc_get name (CUSTOM_FIELD_MAPPINGS s)) = true ->
          id_main = assoc_get name (CUSTOM_FIELD_MAPPINGS s)
          /\ id_ib = id_main /\ s_main = s /\ s_ib = s)
      /\ (truthy_id (assoc_get name (CUSTOM_FIELD_MAPPINGS s)) = false ->
          s_main = after_log WARNING ("Unknown custom field: " ++ name) s
          /\ exists msg, s_ib = after_log WARNING msg s).
Proof.
  intros C name s.
  rewrite get_custom_field_id_eq, get_custom_field_id_ib_eq.
  destruct (truthy_id (assoc_get name (CUSTOM_FIELD_MAPPINGS s))) eqn:Ht.
  - do 4 eexists. split; [reflexivity |]. split; [reflexivity |].
    repeat split; auto; discriminate.
  - destruct (startswith "customfield_" name);
      (do 4 eexists; split; [reflexivity |]; split; [reflexivity |];
       cbn [truthy_id]; repeat split; auto; try discriminate; eauto).
Qed.

(** ** Issue updates ([jira.py], both variants) *)

Section AtMost.
Context `{Collaborators}.

Let NC := no_call_invariant.




Variable lookup : string -> M (option string).
Hypothesis lookup_resolves : resolves lookup.

Lemma update_fields_loop_any (fields acc : dict) (s : state) :
  exists s',
    for_each (update_field lookup) fields acc s
    = (Ok (renamed (CUSTOM_FIELD_MAPPINGS s) fields acc), s')
    /\ only_logged s s'.
Proof.
  revert acc s. induction fields as [| [name v] fields IH]; intros acc s.
  - exists s. split; [reflexivity | apply only_logged_refl].
  - cbn [for_each]. unfold bind at 1. unfold update_field at 1, bind at 1.
    destruct (lookup_resolves name s) as (o & s1 & -> & H1 & Ht & Hyes & _).
    assert (Hset :
      (match o with
       | Some i => if truthy_id o then ret (dict_set i v acc)
                   else ret (dict_set (py_lower name) v acc)
       | None => ret (dict_set (py_lower name) v acc)
       end) s1
      = (Ok (dict_set (update_key (CUSTOM_FIELD_MAPPINGS s) name) v acc), s1)).
    { unfold update_key. rewrite <- Ht.
      destruct (truthy_id o) eqn:Ho.
      - destruct (Hyes eq_refl) as [<- _]. destruct o; [reflexivity | discriminate].
      - destruct o; reflexivity. }
    rewrite Hset.
    destruct (IH (dict_set (update_key (CUSTOM_FIELD_MAPPINGS s) name) v acc) s1)
      as (s' & Hrun & H2).
    destruct H1 as (Hw1 & Hm1 & Hc1 & Ht1). destruct H2 as (Hw2 & Hm2 & Hc2 & Ht2).
    exists s'. rewrite Hm1 in Hrun. split; [exact Hrun |].
    repeat split; try congruence; auto.
Qed.

End AtMost.

Section UpdateIssue.
Context `{Collaborators}.

Let NC := no_call_invariant.

Lemma calls_after_log (lvl : level) (msg : string) (s : state) :
  calls_of (trace (after_log lvl msg s)) = calls_of (trace s).
Proof. cbn. now rewrite calls_of_app, app_nil_r. Qed.

Lemma calls_after_call (m : method) (args : list json) (s : state) :
  calls_of (trace (after_call m args s))
  = (calls_of (trace s) ++ [Call m args])%list.
Proof. cbn. now rewrite calls_of_app. Qed.

Lemma handler_calls {A} (lvl : level) (msg : string) (e : exn) (s : state) :
  calls_of (trace (snd ((log lvl msg ;; @raise_ _ A e) s))) = calls_of (trace s).
Proof. apply calls_after_log. Qed.




(** The answer of the write decides: a status other than 200 and 204
    raises and nothing is fetched again. *)
Lemma update_issue_bad_status (request : JiraIssueUpdate.t) (s : state)
    (current url response text : json) (status : Z) :
  let key := JiraIssueUpdate.issue_key request in
  let lookup := Call jira_issue [JStr key] in
  let get_url := Call jira_get_url [JStr ("rest/api/2/issue/" ++ key)] in
  let put :=
    Call jira_session_put
      [url;
       JDict [("fields",
               JDict (renamed (CUSTOM_FIELD_MAPPINGS s)
                        (JiraIssueUpdate.fields request) []))]] in
  fst (remote lookup (world s)) = Ok current ->
  truthy current = true ->
  fst (remote get_url (snd (remote lookup (world s)))) = Ok url ->
  fst (remote put (snd (remote get_url (snd (remote lookup (world s))))))
  = Ok response ->
  py_getattr response "status_code" = Ok (JInt status) ->
  py_getattr response "text" = Ok text ->
  status <> 200 -> status <> 204 ->
  exists s',
    JiraManager.update_issue request s
    = (Err (Exn ValueError
              ("Failed to update issue. Status: " ++ str_of_Z status
               ++ ", Response: " ++ py_str text)), s')
    /\ calls_of (trace s')
       = (calls_of (trace s) ++ [lookup; get_url; put])%list.
Proof.
  intros key lookup get_url put Hlookup Htrue Hurl Hput Hstatus Htext H200 H204.
  subst key lookup get_url put.
  unfold JiraManager.update_issue, JiraManager.update_issue_body, validate_issue,
    try_except.
  unfold bind at 1. unfold bind at 1. rewrite invoke_eq, Hlookup, Htrue.
  cbn [negb ret].
  set (s1 := after_call jira_issue _ s).
  destruct (update_fields_loop_any JiraManager._get_custom_field_id resolves_main
              (JiraIssueUpdate.fields request) [] s1)
    as (s2 & Hloop & (Hw2 & _ & Hs2 & _)).
  change (CUSTOM_FIELD_MAPPINGS s1) with (CUSTOM_FIELD_MAPPINGS s) in Hloop.
  change (world s1)
    with (snd (remote (Call jira_issue [JStr (JiraIssueUpdate.issue_key request)])
                 (world s))) in Hw2.
  assert (Hs1 : calls_of (trace s1)
                = (calls_of (trace s)
                   ++ [Call jira_issue [JStr (JiraIssueUpdate.issue_key request)]])%list)
    by apply calls_after_call.
  clearbody s1.
  unfold bind at 1. rewrite Hloop.
  unfold bind at 1. rewrite invoke_eq, Hw2, Hurl.
  unfold bind at 1. rewrite invoke_eq.
  cbn [world after_call]. rewrite Hw2, Hput.
  unfold bind at 1, lift at 1. rewrite Hstatus.
  unfold bind at 1. cbn [py_eq_int].
  apply Z.eqb_neq in H200, H204. rewrite H200, H204. cbn [orb negb].
  unfold bind at 1, lift at 1.
  unfold bind at 1, lift at 1. rewrite Htext.
  eexists. split; [reflexivity |].
  cbn. rewrite !calls_of_app, Hs2, Hs1. cbn. rewrite <- !app_assoc.
  reflexivity.
Qed.

End UpdateIssue.


(** X8.  In the main variant the answer of the write is checked: when the
    issue exists, the endpoint resolves and the write is answered with a
    status code other than 200 and 204, [update_issue] raises "Failed to
    update issue. Status: {code}, Response: {text}" and does not fetch the
    issue again. *)
Theorem update_issue_rejects_bad_status :
  forall (C : Collaborators) (request : JiraIssueUpdate.t) (s : state)
         (current url response text : json) (status : Z),
    fst (remote (Call jira_issue [JStr (JiraIssueUpdate.issue_key request)])
           (world s)) = Ok current ->
    truthy current = true ->
    fst (remote (Call jira_get_url
                   [JStr ("rest/api/2/issue/" ++ JiraIssueUpdate.issue_key request)])
           (snd (remote (Call jira_issue [JStr (JiraIssueUpdate.issue_key request)])
                   (world s)))) = Ok url ->
    fst (remote (Call jira_session_put
                   [url;
                    JDict [("fields",
                            JDict (renamed (CUSTOM_FIELD_MAPPINGS s)
                                     (JiraIssueUpdate.fields request) []))]])
           (snd (remote (Call jira_get_url
                           [JStr ("rest/api/2/issue/"
                                  ++ JiraIssueUpdate.issue_key request)])
                   (snd (remote (Call jira_issue
                                   [JStr (JiraIssueUpdate.issue_key request)])
                           (world s)))))) = Ok response ->
    py_getattr response "status_code" = Ok (JInt status) ->
    py_getattr response "text" = Ok text ->
    status <> 200 -> status <> 204 ->
    fst (JiraManager.update_issue request s)
    = Err (Exn ValueError
             ("Failed to update issue. Status: " ++ str_of_Z status
              ++ ", Response: " ++ py_str text))
    /\ calls_of (trace (snd (JiraManager.update_issue request s)))
       = (calls_of (trace s)
          ++ [ Call jira_issue [JStr (JiraIssueUpdate.issue_key request)];
               Call jira_get_url
                 [JStr ("rest/api/2/issue/" ++ JiraIssueUpdate.issue_key request)];
               Call jira_session_put
                 [url;
                  JDict [("fields",
                          JDict (renamed (CUSTOM_FIELD_MAPPINGS s)
                                   (JiraIssueUpdate.fields request) []))]] ])%list.
Proof.
  intros C request s current url response text status
    Hlookup Htrue Hurl Hput Hstatus Htext H200 H204.
  destruct (update_issue_bad_status request s current url response text status
              Hlookup Htrue Hurl Hput Hstatus Htext H200 H204)
    as (s' & Hrun & Hcalls).
  rewrite Hrun. split; [reflexivity | exact Hcalls].
Qed.

Lemma update_issue_rejects_bad_status_witness :
  fst (@JiraManager.update_issue (Demo.scripted Demo.refusing) Demo.recolour
         (Demo.start Demo.refusing))
  = Err (Exn ValueError
           "Failed to update issue. Status: 400, Response: Field 'team color' cannot be set")
  /\ calls_of (trace (snd (@JiraManager.update_issue (Demo.scripted Demo.refusing)
                             Demo.recolour (Demo.start Demo.refusing))))
     = [ Call jira_issue [JStr "DEV-1"];
         Call jira_get_url [JStr "rest/api/2/issue/DEV-1"];
         Call jira_session_put
           [ JStr "https://example.atlassian.net/rest/api/2/issue/DEV-1";
             JDict [("fields", JDict [("team color", JStr "blue")])] ] ].
Proof.
  apply (@update_issue_rejects_bad_status (Demo.scripted Demo.refusing)
           Demo.recolour (Demo.start Demo.refusing) Demo.story_DEV_1
           (JStr "https://example.atlassian.net/rest/api/2/issue/DEV-1")
           (JDict [ ("status_code", JInt 400);
                    ("text", JStr "Field 'team color' cannot be set") ])
           (JStr "Field 'team color' cannot be set") 400);
    first [reflexivity | discriminate].
Defined.

(** ** Confluence resources ([server.py], [confluence.py]) *)

Section SpacePages.
Context `{Collaborators}.

(** With [clean_html] set, the first page of the loop of [get_space_pages]
    ends it: whatever the page holds, the iteration raises. *)
Lemma space_pages_clean_loop (space_key : json) (pages : list json)
    (documents : list Document) (s : state) :
  pages <> [] ->
  exists e s',
    for_each (ConfluenceManager.space_page space_key true) pages documents s
    = (Err e, s').
Proof.
  intros Hpages. destruct pages as [| page pages]; [contradiction |].
  cbn [for_each]. unfold bind at 1.
  destruct (ConfluenceManager.space_page space_key true page documents s)
    as [[r | e] s'] eqn:Hrun; [exfalso | eauto].
  unfold ConfluenceManager.space_page, ConfluenceManager._clean_html_content
    in Hrun.
  run_in Hrun.
Qed.

Lemma get_space_pages_clean (space_key : json) (start limit : Z) (s : state)
    (documents : list Document) :
  fst (ConfluenceManager.get_space_pages space_key start limit true s)
  = Ok documents ->
  documents = []
  /\ exists answer,
       fst (remote (Call confluence_get_all_pages_from_space
                      [space_key; JInt start; JInt limit; JStr "body.storage"])
              (world s)) = Ok answer
       /\ py_iter answer = Ok [].
Proof.
  unfold ConfluenceManager.get_space_pages.
  unfold bind at 1. rewrite invoke_eq.
  destruct (fst (remote _ (world s))) as [answer | e]; [| discriminate].
  unfold bind at 1, lift at 1.
  destruct (py_iter answer) as [[| page pages] | e] eqn:Hiter; [| | discriminate].
  - cbn. intros [= <-]. split; [reflexivity |]. now exists answer.
  - intros Hrun.
    destruct (space_pages_clean_loop space_key (page :: pages) []
                (after_call confluence_get_all_pages_from_space
                   [space_key; JInt start; JInt limit; JStr "body.storage"] s))
      as (e & s' & Hloop); [discriminate |].
    rewrite Hloop in Hrun. discriminate.
Qed.

End SpacePages.

(** X9.  No Confluence resource can be read with content.  Whenever
    [read_resource] returns for a URI that starts with "confluence://",
    the URI names a space alone, the remote service listed no page for that
    space, and the text returned is empty: a space that holds pages, and
    every page addressed by title, ends in an exception, because both
    lookups are made with [clean_html] set and run into the missing
    [_clean_html_content]. *)
Theorem confluence_resources_have_no_content :
  forall (C : Collaborators) (uri : string) (s : state) (v : json),
    startswith "confluence://" uri = true ->
    fst (Server.read_resource uri s) = Ok v ->
    v = JStr ""
    /\ exists space_key answer,
         str_split "/" (str_replace "confluence://" "" uri) = [space_key]
         /\ fst (remote (Call confluence_get_all_pages_from_space
                           [JStr space_key; JInt 0; JInt 10; JStr "body.storage"])
                   (world s)) = Ok answer
         /\ py_iter answer = Ok [].
Proof.
  intros C uri s v Hscheme. unfold Server.read_resource. rewrite Hscheme.
  destruct (str_split "/" (str_replace "confluence://" "" uri))
    as [| space_key [| p [| title rest]]]; try discriminate.
  - unfold bind at 1.
    destruct (ConfluenceManager.get_space_pages (JStr space_key) 0 10 true s)
      as [[documents | e] s'] eqn:Hrun; [| discriminate].
    destruct (get_space_pages_clean (JStr space_key) 0 10 s documents)
      as (-> & answer & Hanswer & Hiter); [now rewrite Hrun |].
    cbn. intros [= <-]. split; [reflexivity |].
    exists space_key, answer. auto.
  - destruct (String.eqb p "pages"); [| discriminate].
    unfold bind at 1. rewrite get_page_by_title_eq.
    destruct (ConfluenceManager.get_page_by_title_body (JStr space_key)
                (JStr title) true s) as [[[doc |] | e] s'] eqn:Hrun;
      try discriminate.
    exfalso. unfold ConfluenceManager.get_page_by_title_body,
      ConfluenceManager._clean_html_content in Hrun.
    run_in Hrun.
Qed.

Lemma confluence_resources_have_no_content_witness :
  fst (@Server.read_resource (Demo.scripted Demo.empty_space) "confluence://DEV"
         (Demo.start Demo.empty_space)) = Ok (JStr "")
  /\ (JStr "" = JStr ""
      /\ exists space_key answer,
           str_split "/" (str_replace "confluence://" "" "confluence://DEV")
           = [space_key]
           /\ fst (@remote (Demo.scripted Demo.empty_space)
                     (Call confluence_get_all_pages_from_space
                        [JStr space_key; JInt 0; JInt 10; JStr "body.storage"])
                     (world (Demo.start Demo.empty_space))) = Ok answer
           /\ py_iter answer = Ok []).
Proof.
  split; [reflexivity |].
  apply (@confluence_resources_have_no_content (Demo.scripted Demo.empty_space)
           "confluence://DEV" (Demo.start Demo.empty_space) (JStr ""));
    reflexivity.
Defined.

(** ** Page creation ([confluence.py]) *)

Section CreatePage.
Context `{Collaborators}.

Let NC := no_call_invariant.

Lemma get_page_content_one_call (page_id : json) (clean_html : bool) (s : state) :
  calls_of (trace (snd (ConfluenceManager.get_page_content page_id clean_html s)))
  = (calls_of (trace s)
     ++ [Call confluence_get_page_by_id
           [page_id; JStr "body.storage,version,space"]])%list.
Proof.
  unfold ConfluenceManager.get_page_content.
  unfold bind at 1. rewrite invoke_eq.
  destruct (fst (remote _ (world s))) as [page | e];
    [| cbn; now rewrite calls_of_app].
  match goal with
  | |- calls_of (trace (snd (?K ?s1))) = _ =>
      assert (Hrest : steps no_call K)
  end.
  { unfold ConfluenceManager._process_html_content. steps_auto NC. }
  destruct (Hrest (after_call confluence_get_page_by_id
                     [page_id; JStr "body.storage,version,space"] s))
    as [_ Hcalls].
  rewrite Hcalls. cbn. now rewrite calls_of_app.
Qed.

Lemma create_page_run (request : ConfluencePageCreate.t) (s : state) :
  exists calls,
    calls_of (trace (snd (ConfluenceManager.create_page request s)))
    = (calls_of (trace s) ++ calls)%list
    /\ create_page_calls request s calls.
Proof.
  unfold create_page_calls, ConfluenceManager.create_page, try_except.
  unfold bind at 1. rewrite invoke_eq.
  set (s1 := after_call confluence_get_space _ s).
  assert (Hs1 : calls_of (trace s1)
                = (calls_of (trace s)
                   ++ [Call confluence_get_space
                         [JStr (ConfluencePageCreate.space_key request)]])%list)
    by apply calls_after_call.
  assert (Hw1 : world s1
                = snd (remote (Call confluence_get_space
                                 [JStr (ConfluencePageCreate.space_key request)])
                         (world s))) by reflexivity.
  clearbody s1.
  destruct (fst (remote _ (world s))) as [space | e] eqn:Hspace.
  2:{ eexists. split; [| left; reflexivity].
      etransitivity; [apply (calls_after_log ERROR) | now rewrite Hs1]. }
  unfold bind at 1.
  destruct (truthy space) eqn:Htrue; cbn [negb].
  2:{ eexists. split; [| left; reflexivity].
      etransitivity; [apply (calls_after_log ERROR) | now rewrite Hs1]. }
  cbn [ret]. unfold bind at 1. rewrite invoke_eq, Hw1.
  set (s2 := after_call confluence_create_page _ s1).
  assert (Hs2 : calls_of (trace s2)
                = (calls_of (trace s1)
                   ++ [Call confluence_create_page
                         [ JStr (ConfluencePageCreate.space_key request);
                           JStr (ConfluencePageCreate.title request);
                           JStr (ConfluencePageCreate.content request);
                           match ConfluencePageCreate.parent_id request with
                           | Some p => JStr p
                           | None => JNull
                           end;
                           JStr "wiki" ]])%list)
    by apply calls_after_call.
  clearbody s2.
  destruct (fst (remote _ (snd _))) as [page | e] eqn:Hpage.
  2:{ eexists. split; [| right; exists space; repeat split; auto].
      etransitivity; [apply (calls_after_log ERROR) |].
      now rewrite Hs2, Hs1, <- app_assoc. }
  unfold bind at 1, lift at 1.
  destruct (py_getitem page "id") as [id | e] eqn:Hid.
  2:{ eexists. split; [| right; exists space; repeat split; auto].
      etransitivity; [apply (calls_after_log ERROR) |].
      now rewrite Hs2, Hs1, <- app_assoc. }
  pose proof (get_page_content_one_call id true s2) as Hread.
  destruct (ConfluenceManager.get_page_content id true s2) as [[doc | e] s3];
    cbn [snd] in Hread.
  - eexists. split;
      [| right; exists space; split; [reflexivity |]; split; [exact Htrue |];
         right; exists page, id; repeat split; auto].
    cbn [snd]. now rewrite Hread, Hs2, Hs1, <- !app_assoc.
  - eexists. split;
      [| right; exists space; split; [reflexivity |]; split; [exact Htrue |];
         right; exists page, id; repeat split; auto].
    etransitivity; [apply (calls_after_log ERROR) |].
    now rewrite Hread, Hs2, Hs1, <- !app_assoc.
Qed.

Lemma create_page_missing_space (request : ConfluencePageCreate.t) (s : state)
    (space : json) :
  fst (remote (Call confluence_get_space
                 [JStr (ConfluencePageCreate.space_key request)]) (world s))
  = Ok space ->
  truthy space = false ->
  ConfluenceManager.create_page request s
  = (Err (Exn ValueError
            ("Space " ++ ConfluencePageCreate.space_key request
             ++ " does not exist")),
     after_log ERROR
       ("Error creating page: Space " ++ ConfluencePageCreate.space_key request
        ++ " does not exist")
       (after_call confluence_get_space
          [JStr (ConfluencePageCreate.space_key request)] s)).
Proof.
  intros Hspace Hfalse.
  unfold ConfluenceManager.create_page, try_except.
  unfold bind at 1. rewrite invoke_eq, Hspace.
  unfold bind at 1. now rewrite Hfalse.
Qed.

End CreatePage.

(** X10.  [create_page] creates nothing in a space it has not seen: its
    first call looks the space up, the creation is issued only when that
    lookup returned a true value and at most once, and the page read
    afterwards is the one whose id the creation returned; when the lookup
    returns an empty value it raises "Space {key} does not exist" with the
    lookup as its only call. *)
Theorem create_page_checks_space_first :
  forall (C : Collaborators) (request : ConfluencePageCreate.t) (s : state),
    (exists calls,
       calls_of (trace (snd (ConfluenceManager.create_page request s)))
       = (calls_of (trace s) ++ calls)%list
       /\ create_page_calls request s calls)
    /\ (forall space,
          fst (remote (Call confluence_get_space
                         [JStr (ConfluencePageCreate.space_key request)])
                 (world s)) = Ok space ->
          truthy space = false ->
          fst (ConfluenceManager.create_page request s)
          = Err (Exn ValueError
                   ("Space " ++ ConfluencePageCreate.space_key request
                    ++ " does not exist"))
          /\ calls_of (trace (snd (ConfluenceManager.create_page request s)))
             = (calls_of (trace s)
                ++ [Call confluence_get_space
                      [JStr (ConfluencePageCreate.space_key request)]])%list).
Proof.
  intros C request s. split; [apply create_page_run |].
  intros space Hspace Hfalse.
  rewrite (create_page_missing_space request s space Hspace Hfalse).
  cbn [fst snd]. split; [reflexivity |].
  now rewrite calls_after_log, calls_after_call.
Qed.

(** ** Mappings updated in two ways *)

Lemma dict_set_twice (k : string) (v v' : json) (d : dict) :
  dict_set k v (dict_set k v' d) = dict_set k v d.
Proof.
  induction d as [| [k0 v0] d IH]; cbn.
  - now rewrite String.eqb_refl.
  - destruct (String.eqb k k0) eqn:Hk; cbn; rewrite Hk; [reflexivity |].
    now rewrite IH.
Qed.

Lemma dict_set_swap (k j : string) (v w : json) (d : dict) :
  k <> j -> In k (dict_keys d) ->
  dict_set k v (dict_set j w d) = dict_set j w (dict_set k v d).
Proof.
  intros Hkj. induction d as [| [k0 v0] d IH]; cbn; [contradiction |].
  intros [-> | Hin].
  - rewrite String.eqb_refl.
    assert (Hj : String.eqb j k = false)
      by (apply String.eqb_neq; congruence).
    rewrite Hj. cbn. now rewrite String.eqb_refl, Hj.
  - destruct (String.eqb k k0) eqn:Hk, (String.eqb j k0) eqn:Hj; cbn;
      rewrite ?Hk, ?Hj; try reflexivity.
    + apply String.eqb_eq in Hk, Hj. congruence.
    + now rewrite IH.
Qed.

Lemma dict_update_cons (d e : dict) (k : string) (v : json) :
  dict_update d ((k, v) :: e) = dict_update (dict_set k v d) e.
Proof. reflexivity. Qed.

Lemma dict_update_set_present (k : string) (v : json) (e d : dict) :
  In k (dict_keys d) -> ~ In k (dict_keys e) ->
  dict_set k v (dict_update d e) = dict_update (dict_set k v d) e.
Proof.
  revert d. induction e as [| [j w] e IH]; intros d Hd He; [reflexivity |].
  rewrite !dict_update_cons. cbn in He.
  rewrite IH.
  - rewrite dict_set_swap; [reflexivity | | assumption].
    intros ->. apply He. now left.
  - apply dict_set_keys. now right.
  - intros Hin. apply He. now right.
Qed.

Lemma dict_update_set (k : string) (v : json) (e d : dict) :
  NoDup (dict_keys e) ->
  dict_update d (dict_set k v e) = dict_set k v (dict_update d e).
Proof.
  revert d. induction e as [| [j w] e IH]; intros d Hnd; [reflexivity |].
  cbn [dict_set]. inversion Hnd as [| ? ? Hj Hnd']; subst.
  destruct (String.eqb k j) eqn:Hk.
  - apply String.eqb_eq in Hk as ->. rewrite !dict_update_cons.
    rewrite dict_update_set_present; [| apply dict_set_keys; now left | exact Hj].
    now rewrite dict_set_twice.
  - rewrite !dict_update_cons. now apply IH.
Qed.

Lemma dict_set_NoDup (k : string) (v : json) (d : dict) :
  NoDup (dict_keys d) -> NoDup (dict_keys (dict_set k v d)).
Proof.
  induction d as [| [k0 v0] d IH]; cbn; intros Hnd.
  - constructor; [intros [] | constructor].
  - inversion Hnd as [| ? ? Hk0 Hnd']; subst.
    destruct (String.eqb k k0) eqn:Hk; cbn; [exact Hnd |].
    constructor; [| now apply IH].
    intros Hin. apply dict_set_keys in Hin as [-> | Hin]; [| contradiction].
    now rewrite String.eqb_refl in Hk.
Qed.

Lemma set_if_true_cases (field_id : option string) (v : json) (d : dict) :
  (truthy_id field_id = false /\ set_if_true field_id v d = d)
  \/ exists i, field_id = Some i /\ truthy_id field_id = true
               /\ set_if_true field_id v d = dict_set i v d.
Proof.
  destruct field_id as [i |]; [| now left].
  unfold set_if_true. destruct (truthy_id (Some i)) eqn:Ht; [right | now left].
  exists i. auto.
Qed.

Lemma translate_snoc (m : list (string * string)) (custom_fields acc : dict)
    (name : string) (v : json) :
  translate m (custom_fields ++ [(name, v)])%list acc
  = set_if_true (assoc_get name m) v (translate m custom_fields acc).
Proof. unfold translate. now rewrite fold_left_app. Qed.

Lemma translate_NoDup (m : list (string * string)) (custom_fields : dict) :
  NoDup (dict_keys (translate m custom_fields [])).
Proof.
  induction custom_fields as [| [name v] cf IH] using rev_ind; [constructor |].
  rewrite translate_snoc.
  destruct (set_if_true_cases (assoc_get name m) v (translate m cf []))
    as [[_ ->] | (i & _ & _ & ->)]; [exact IH | now apply dict_set_NoDup].
Qed.

(** Collecting the translated fields and then merging them, as the main
    variant does, gives what setting them one by one gives, as the ib
    variant does. *)
Lemma update_translate (m : list (string * string)) (custom_fields d : dict) :
  dict_update d (translate m custom_fields []) = translate m custom_fields d.
Proof.
  induction custom_fields as [| [name v] cf IH] using rev_ind; [reflexivity |].
  rewrite !translate_snoc.
  destruct (set_if_true_cases (assoc_get name m) v (translate m cf []))
    as [[Hf ->] | (i & Hi & Ht & ->)].
  - rewrite IH. unfold set_if_true. rewrite Hf. now destruct (assoc_get name m).
  - rewrite dict_update_set by apply translate_NoDup.
    rewrite IH. unfold set_if_true. now rewrite Hi, <- Hi, Ht.
Qed.

(** ** Computations that agree *)

Section Agree.
Context `{Collaborators}.

Lemma alike_refl (s : state) : alike s s.
Proof. repeat split. Qed.

Lemma alike_only_logged (s1 s2 s1' s2' : state) :
  alike s1 s2 -> only_logged s1 s1' -> only_logged s2 s2' -> alike s1' s2'.
Proof.
  intros (Hw & Hm & Hc) (Hw1 & Hm1 & Hc1 & _) (Hw2 & Hm2 & Hc2 & _).
  repeat split; congruence.
Qed.

Lemma same_outcome_refl {A} (r : result A) : same_outcome eq r r.
Proof. destruct r; reflexivity. Qed.

Lemma agree_ret {A B} (Q : A -> B -> Prop) (a : A) (b : B) :
  Q a b -> agree Q (ret a) (ret b).
Proof. intros HQ s1 s2 Hs. split; [exact HQ | exact Hs]. Qed.

Lemma agree_ret_eq {A} (a : A) : agree eq (ret a) (ret a).
Proof. now apply agree_ret. Qed.

Lemma agree_raise {A B} (Q : A -> B -> Prop) (e : exn) :
  agree Q (raise_ e) (raise_ e).
Proof. intros s1 s2 Hs. split; [reflexivity | exact Hs]. Qed.

Lemma agree_lift {A} (r : result A) : agree eq (lift r) (lift r).
Proof. intros s1 s2 Hs. split; [apply same_outcome_refl | exact Hs]. Qed.

Lemma agree_get_mappings : agree eq get_mappings get_mappings.
Proof. intros s1 s2 Hs. split; [apply Hs | exact Hs]. Qed.

Lemma agree_log (l1 l2 : level) (m1 m2 : string) :
  agree eq (log l1 m1) (log l2 m2).
Proof.
  intros s1 s2 (Hw & Hm & Hc). split; [reflexivity |].
  repeat split; cbn; auto. rewrite !calls_of_app. cbn. now rewrite Hc.
Qed.

Lemma agree_invoke (m : method) (args : list json) :
  agree eq (invoke m args) (invoke m args).
Proof.
  intros s1 s2 (Hw & Hm & Hc). rewrite !invoke_eq. cbn [fst snd]. rewrite Hw.
  split; [apply same_outcome_refl |].
  repeat split; auto.
  - unfold after_call. cbn. now rewrite Hw.
  - now rewrite !calls_after_call, Hc.
Qed.

Lemma agree_with_world {A} (f : World -> result A * World) :
  agree eq (with_world f) (with_world f).
Proof.
  intros s1 s2 (Hw & Hm & Hc). unfold with_world. rewrite Hw.
  destruct (f (world s2)) as [r w]. cbn.
  split; [apply same_outcome_refl | repeat split; auto].
Qed.

Lemma agree_bind {A1 A2 B1 B2} (P : A1 -> A2 -> Prop) (Q : B1 -> B2 -> Prop)
    (m1 : M A1) (m2 : M A2) (f1 : A1 -> M B1) (f2 : A2 -> M B2) :
  agree P m1 m2 -> (forall a b, P a b -> agree Q (f1 a) (f2 b)) ->
  agree Q (bind m1 f1) (bind m2 f2).
Proof.
  intros Hm Hf s1 s2 Hs. unfold bind. destruct (Hm s1 s2 Hs) as [Hr Hs'].
  destruct (m1 s1) as [[a | e1] s1'], (m2 s2) as [[b | e2] s2']; cbn in *;
    try contradiction.
  - now apply Hf.
  - now split.
Qed.

Lemma agree_bind_eq {A B1 B2} (Q : B1 -> B2 -> Prop)
    (m1 m2 : M A) (f1 : A -> M B1) (f2 : A -> M B2) :
  agree eq m1 m2 -> (forall a, agree Q (f1 a) (f2 a)) ->
  agree Q (bind m1 f1) (bind m2 f2).
Proof.
  intros Hm Hf. apply agree_bind with (P := eq); [exact Hm |].
  intros a b <-. apply Hf.
Qed.

Lemma agree_try_except {A B} (Q : A -> B -> Prop) (m1 : M A) (m2 : M B)
    (h1 : exn -> M A) (h2 : exn -> M B) :
  agree Q m1 m2 -> (forall e, agree Q (h1 e) (h2 e)) ->
  agree Q (try_except m1 h1) (try_except m2 h2).
Proof.
  intros Hm Hh s1 s2 Hs. unfold try_except. destruct (Hm s1 s2 Hs) as [Hr Hs'].
  destruct (m1 s1) as [[a | e1] s1'], (m2 s2) as [[b | e2] s2']; cbn in *;
    try contradiction.
  - now split.
  - subst e2. now apply Hh.
Qed.

Lemma agree_for_each {X A B} (P : A -> B -> Prop)
    (body1 : X -> A -> M A) (body2 : X -> B -> M B) (l : list X) (a : A) (b : B) :
  (forall x a b, P a b -> agree P (body1 x a) (body2 x b)) ->
  P a b -> agree P (for_each body1 l a) (for_each body2 l b).
Proof.
  intros Hbody. revert a b. induction l as [| x l IH]; intros a b HP; cbn.
  - now apply agree_ret.
  - apply agree_bind with (P := P); [now apply Hbody | exact IH].
Qed.

Lemma agree_for_each_eq {X A} (body1 body2 : X -> A -> M A) (l : list X) (a : A) :
  (forall x a, agree eq (body1 x a) (body2 x a)) ->
  agree eq (for_each body1 l a) (for_each body2 l a).
Proof.
  intros Hbody. apply agree_for_each; [| reflexivity].
  intros x a1 a2 <-. apply Hbody.
Qed.

(** What the run of a computation says of its results, once it agrees
    with another. *)
Lemma agree_same_start {A B} (Q : A -> B -> Prop) (m1 : M A) (m2 : M B)
    (s : state) :
  agree Q m1 m2 ->
  same_outcome Q (fst (m1 s)) (fst (m2 s))
  /\ world (snd (m1 s)) = world (snd (m2 s))
  /\ calls_of (trace (snd (m1 s))) = calls_of (trace (snd (m2 s))).
Proof.
  intros Hm. destruct (Hm s s (alike_refl s)) as [Hr (Hw & _ & Hc)]. auto.
Qed.

End Agree.

Create HintDb agree.
#[local] Hint Resolve agree_ret_eq agree_raise agree_lift agree_get_mappings
  agree_log agree_invoke agree_with_world : agree.

(** Takes two computations of the same shape apart, step by step. *)
Ltac agree_auto :=
  repeat first
    [ progress intros
    | solve [auto with agree]
    | eapply agree_bind_eq
    | eapply agree_try_except
    | eapply agree_for_each_eq
    | match goal with
      | |- agree _ (match ?x with _ => _ end) (match ?x with _ => _ end) =>
          destruct x
      | |- agree _ (let '(_, _) := ?x in _) (let '(_, _) := ?x in _) =>
          destruct x
      end ].

Section Variants.
Context `{Collaborators}.

Lemma same_id_set (a b : option string) (v : json) (d : dict) :
  same_id a b -> set_if_true a v d = set_if_true b v d.
Proof.
  intros [Ht Heq]. destruct (truthy_id a) eqn:Ha.
  - now rewrite <- (Heq eq_refl).
  - unfold set_if_true. rewrite <- Ht, Ha. destruct a, b; reflexivity.
Qed.

Lemma agree_resolves (l1 l2 : string -> M (option string)) (name : string) :
  resolves l1 -> resolves l2 -> agree same_id (l1 name) (l2 name).
Proof.
  intros H1 H2 s1 s2 Hs.
  destruct (H1 name s1) as (a & s1' & -> & Hl1 & Ht1 & Hv1 & _).
  destruct (H2 name s2) as (b & s2' & -> & Hl2 & Ht2 & Hv2 & _).
  cbn. split; [| exact (alike_only_logged _ _ _ _ Hs Hl1 Hl2)].
  destruct Hs as (_ & Hm & _). rewrite Hm in *.
  split; [congruence |].
  intros Ha. destruct (Hv1 Ha) as [-> _].
  destruct Hv2 as [-> _]; congruence.
Qed.

Lemma agree_get_issue (shown1 shown2 : string -> json -> bool)
    (issue_key expand : json) :
  agree same_metadata (get_issue_with shown1 issue_key expand)
    (get_issue_with shown2 issue_key expand).
Proof.
  unfold get_issue_with, get_issue_body, issue_comment, _clean_text.
  agree_auto.
  apply agree_ret. reflexivity.
Qed.

Lemma agree_search_issues (shown1 shown2 : string -> json -> bool)
    (jql fields : json) (start limit : Z) (expand : json) :
  agree (Forall2 same_metadata)
    (search_issues_with (get_issue_with shown1) jql fields start limit expand)
    (search_issues_with (get_issue_with shown2) jql fields start limit expand).
Proof.
  unfold search_issues_with.
  apply agree_try_except; [| agree_auto].
  do 3 (eapply agree_bind_eq; [auto with agree | intros ?]).
  apply agree_for_each; [| constructor].
  intros issue docs1 docs2 Hdocs.
  eapply agree_bind_eq; [auto with agree | intros key].
  eapply agree_bind; [apply agree_get_issue |].
  intros d1 d2 Hd. apply agree_ret.
  apply Forall2_app; [exact Hdocs | now constructor].
Qed.

End Variants.

Section VariantsCreate.
Context `{Collaborators}.

Lemma create_custom_fields_loop (custom_fields acc : dict) (s : state) :
  exists s',
    for_each JiraManagerIb.create_custom_field custom_fields acc s
    = (Ok (translate (CUSTOM_FIELD_MAPPINGS s) custom_fields acc), s')
    /\ only_logged s s'.
Proof.
  revert acc s. induction custom_fields as [| [name v] cf IH]; intros acc s.
  - exists s. split; [reflexivity | apply only_logged_refl].
  - cbn [for_each]. unfold bind at 1.
    unfold JiraManagerIb.create_custom_field. unfold bind at 1.
    destruct (resolves_ib name s) as (id & s1 & -> & Hl1 & Ht & Hv & _).
    cbn [ret].
    assert (Hset : set_if_true id v acc
                   = set_if_true (assoc_get name (CUSTOM_FIELD_MAPPINGS s)) v acc).
    { apply same_id_set. split; [exact Ht |]. intros Hid. now apply Hv. }
    rewrite Hset.
    destruct (IH (set_if_true (assoc_get name (CUSTOM_FIELD_MAPPINGS s)) v acc) s1)
      as (s' & Hrun & Hl2).
    destruct Hl1 as (Hw1 & Hm1 & Hc1 & Ht1). destruct Hl2 as (Hw2 & Hm2 & Hc2 & Ht2).
    exists s'. rewrite Hm1 in Hrun. split; [exact Hrun |].
    repeat split; try congruence; auto.
Qed.

Lemma agree_type_specific_fields (l1 l2 : string -> M (option string))
    (request : JiraIssueCreate.t) (fields : dict) :
  resolves l1 -> resolves l2 ->
  agree eq (type_specific_fields l1 request fields)
    (type_specific_fields l2 request fields).
Proof.
  intros H1 H2. unfold type_specific_fields.
  destruct (String.eqb (JiraIssueCreate.issue_type request) "Epic").
  - eapply agree_bind; [now apply agree_resolves |].
    intros a b Hab. rewrite (same_id_set _ _ _ _ Hab). apply agree_ret_eq.
  - destruct (JiraIssueCreate.epic_link request) as [link |];
      [| apply agree_ret_eq].
    destruct (String.eqb (JiraIssueCreate.issue_type request) "Story"
              && negb (String.eqb link "")); [| apply agree_ret_eq].
    eapply agree_bind_eq; [auto with agree | intros epic].
    eapply agree_bind_eq; [agree_auto | intros _].
    eapply agree_bind; [now apply agree_resolves |].
    intros a b Hab. rewrite (same_id_set _ _ _ _ Hab). apply agree_ret_eq.
Qed.

Lemma agree_custom_fields (custom_fields fields : dict) :
  agree eq
    (processed_fields <- JiraManager._process_custom_fields custom_fields ;;
     ret (dict_update fields processed_fields))
    (for_each JiraManagerIb.create_custom_field custom_fields fields).
Proof.
  intros s1 s2 Hs. unfold bind, JiraManager._process_custom_fields.
  destruct (process_custom_fields_loop custom_fields [] s1)
    as (s1' & -> & Hl1 & _).
  destruct (create_custom_fields_loop custom_fields fields s2)
    as (s2' & -> & Hl2).
  cbn. split; [| exact (alike_only_logged _ _ _ _ Hs Hl1 Hl2)].
  destruct Hs as (_ & -> & _). apply update_translate.
Qed.

Lemma agree_create_issue (request : JiraIssueCreate.t) :
  agree same_metadata (JiraManager.create_issue request)
    (JiraManagerIb.create_issue request).
Proof.
  unfold JiraManager.create_issue, JiraManagerIb.create_issue,
    JiraManager.create_issue_body, JiraManagerIb.create_issue_body,
    validate_project.
  apply agree_try_except; [| agree_auto].
  eapply agree_bind_eq; [agree_auto | intros _].
  eapply agree_bind_eq;
    [apply agree_type_specific_fields; [apply resolves_main | apply resolves_ib] |].
  intros fields.
  eapply agree_bind_eq;
    [destruct (JiraIssueCreate.custom_fields request);
       [apply agree_ret_eq | apply agree_custom_fields]
    | intros fields'].
  eapply agree_bind_eq; [auto with agree | intros issue].
  eapply agree_bind_eq; [auto with agree | intros key].
  apply agree_get_issue.
Qed.

End VariantsCreate.

(** X11.  The two variants of [jira.py] create the same issue.  For every
    request, catalog and remote service, [create_issue] issues the same
    calls in both, argument for argument: the fields sent are the same
    although one variant merges the translated custom fields into them and
    the other sets them one by one.  Both leave the remote services in the
    same state and either raise the same exception or return documents
    with the same metadata. *)
Theorem variants_create_the_same_issue :
  forall (C : Collaborators) (request : JiraIssueCreate.t) (s : state),
    calls_of (trace (snd (JiraManager.create_issue request s)))
    = calls_of (trace (snd (JiraManagerIb.create_issue request s)))
    /\ world (snd (JiraManager.create_issue request s))
       = world (snd (JiraManagerIb.create_issue request s))
    /\ same_outcome same_metadata
         (fst (JiraManager.create_issue request s))
         (fst (JiraManagerIb.create_issue request s)).
Proof.
  intros C request s.
  destruct (agree_same_start same_metadata _ _ s (agree_create_issue request))
    as (Hr & Hw & Hc).
  auto.
Qed.

Section VariantsRead.
Context `{Collaborators}.

Let RO := read_only_invariant.

(** Two continuations that agree wherever the first part of a computation
    can lead, the catalog being what it was. *)
Lemma bind_cong {A B} (catalog : list (string * string)) (m : M A)
    (f1 f2 : A -> M B) (s : state) :
  CUSTOM_FIELD_MAPPINGS s = catalog ->
  steps read_only m ->
  (forall a s', CUSTOM_FIELD_MAPPINGS s' = catalog -> m s = (Ok a, s') ->
                f1 a s' = f2 a s') ->
  bind m f1 s = bind m f2 s.
Proof.
  intros Hs Hm Hf. unfold bind. destruct (Hm s) as [Hcat _].
  destruct (m s) as [[a | e] s'] eqn:Hrun; [| reflexivity].
  apply Hf; [| reflexivity]. cbn in Hcat. congruence.
Qed.

Lemma read_custom_fields_keys (fields : json) (mappings : list (string * string))
    (acc custom_fields : dict) (s s' : state) :
  for_each (fun e acc => lift (read_custom_field fields e acc)) mappings acc s
  = (Ok custom_fields, s') ->
  forall k, In k (dict_keys custom_fields) ->
            In k (dict_keys acc) \/ In k (map fst mappings).
Proof.
  revert acc s. induction mappings as [| [name id] mappings IH]; intros acc s.
  - cbn. intros [= <- <-] k Hk. now left.
  - cbn [for_each]. unfold bind at 1, lift at 1.
    destruct (read_custom_field fields (name, id) acc) as [acc' | e] eqn:Hread;
      [| discriminate].
    intros Hrun k Hk.
    destruct (IH acc' s Hrun k Hk) as [Hacc | Hin]; [| right; now right].
    unfold read_custom_field, rbind in Hread.
    destruct (py_in id fields) as [[|] | e]; try discriminate.
    + destruct (py_getitem fields id); [| discriminate].
      injection Hread as <-.
      apply dict_set_keys in Hacc as [-> | Hacc]; [right; now left | now left].
    + injection Hread as <-. now left.
Qed.

Lemma render_custom_fields_ext (shown1 shown2 : string -> json -> bool)
    (custom_fields : dict) :
  (forall k v, In k (dict_keys custom_fields) -> shown1 k v = shown2 k v) ->
  render_custom_fields shown1 custom_fields
  = render_custom_fields shown2 custom_fields.
Proof.
  unfold render_custom_fields. intros Hshown.
  assert (Hfold : forall acc : string,
            fold_left
              (fun acc kv =>
                 if shown1 (fst kv) (snd kv)
                 then acc ++ fst kv ++ ": " ++ py_str (snd kv) ++ nl
                 else acc) custom_fields acc
            = fold_left
                (fun acc kv =>
                   if shown2 (fst kv) (snd kv)
                   then acc ++ fst kv ++ ": " ++ py_str (snd kv) ++ nl
                   else acc) custom_fields acc);
    [| apply Hfold].
  induction custom_fields as [| [k v] cf IH]; intros acc; [reflexivity |].
  cbn [fold_left fst snd]. rewrite (Hshown k v) by now left.
  apply IH. intros k' v' Hk'. apply Hshown. now right.
Qed.

Lemma get_issue_with_ext (shown1 shown2 : string -> json -> bool)
    (issue_key expand : json) (s : state) :
  (forall name v, In name (map fst (CUSTOM_FIELD_MAPPINGS s)) ->
                  shown1 name v = shown2 name v) ->
  get_issue_with shown1 issue_key expand s
  = get_issue_with shown2 issue_key expand s.
Proof.
  intros Hshown. unfold get_issue_with, try_except.
  assert (Hbody : get_issue_body shown1 issue_key expand s
                  = get_issue_body shown2 issue_key expand s);
    [| now rewrite Hbody].
  unfold get_issue_body.
  do 8 (apply bind_cong with (catalog := CUSTOM_FIELD_MAPPINGS s);
        [first [reflexivity | assumption]
        | unfold issue_comment, _clean_text; steps_auto RO
        | intros ? ? ? _]).
  apply bind_cong with (catalog := CUSTOM_FIELD_MAPPINGS s);
    [assumption | steps_auto RO | intros mappings s_m Hs_m Hget].
  injection Hget as <- <-.
  apply bind_cong with (catalog := CUSTOM_FIELD_MAPPINGS s);
    [assumption | steps_auto RO | intros custom_fields s_c Hs_c Hloop].
  assert (Hrender : render_custom_fields shown1 custom_fields
                    = render_custom_fields shown2 custom_fields).
  { apply render_custom_fields_ext. intros k v Hk. apply Hshown.
    destruct (read_custom_fields_keys _ _ _ _ _ _ Hloop k Hk) as [[] | Hin].
    congruence. }
  rewrite Hrender. reflexivity.
Qed.

End VariantsRead.

(** X12.  The two variants of [jira.py] read alike when they are run with
    the same catalog against the same remote services.  For every issue
    key, every search, every catalog and every state of the remote
    services, [get_issue] and [search_issues], started in both variants
    from that one state, issue the same calls, leave the remote services
    in the same state, and either raise the same exception or return
    documents with the same metadata, one for one.  The catalogs the two
    modules are seeded with are not compared. *)
Theorem variants_read_alike :
  forall (C : Collaborators) (issue_key expand jql fields : json)
         (start limit : Z) (s : state),
    (calls_of (trace (snd (JiraManager.get_issue issue_key expand s)))
     = calls_of (trace (snd (JiraManagerIb.get_issue issue_key expand s)))
     /\ world (snd (JiraManager.get_issue issue_key expand s))
        = world (snd (JiraManagerIb.get_issue issue_key expand s))
     /\ same_outcome same_metadata
          (fst (JiraManager.get_issue issue_key expand s))
          (fst (JiraManagerIb.get_issue issue_key expand s)))
    /\ (calls_of (trace (snd (JiraManager.search_issues jql fields start limit
                                expand s)))
        = calls_of (trace (snd (JiraManagerIb.search_issues jql fields start limit
                                  expand s)))
        /\ world (snd (JiraManager.search_issues jql fields start limit expand s))
           = world (snd (JiraManagerIb.search_issues jql fields start limit
                           expand s))
        /\ same_outcome (Forall2 same_metadata)
             (fst (JiraManager.search_issues jql fields start limit expand s))
             (fst (JiraManagerIb.search_issues jql fields start limit expand s))).
Proof.
  intros C issue_key expand jql fields start limit s. split.
  - destruct (agree_same_start same_metadata _ _ s
                (agree_get_issue (fun _ value => truthy value)
                   (fun name value =>
                      truthy value && negb (startswith "customfield_" name))
                   issue_key expand))
      as (Hr & Hw & Hc).
    auto.
  - destruct (agree_same_start (Forall2 same_metadata) _ _ s
                (agree_search_issues (fun _ value => truthy value)
                   (fun name value =>
                      truthy value && negb (startswith "customfield_" name))
                   jql fields start limit expand))
      as (Hr & Hw & Hc).
    auto.
Qed.

(** X13.  The text of an issue differs between the variants only through
    catalog names of the "customfield_" form, which the ib variant leaves
    out of the custom-fields section: when the catalog has no such name,
    [get_issue] of the ib variant is [get_issue] of the main variant,
    result, log and all. *)
Theorem variants_render_alike :
  forall (C : Collaborators) (issue_key expand : json) (s : state),
    (forall name, In name (map fst (CUSTOM_FIELD_MAPPINGS s)) ->
                  startswith "customfield_" name = false) ->
    JiraManagerIb.get_issue issue_key expand s
    = JiraManager.get_issue issue_key expand s.
Proof.
  intros C issue_key expand s Hnames.
  unfold JiraManagerIb.get_issue, JiraManager.get_issue.
  apply get_issue_with_ext. intros name v Hin.
  rewrite (Hnames name Hin). cbn. apply andb_true_r.
Qed.

Lemma variants_render_alike_witness :
  @JiraManagerIb.get_issue (Demo.scripted Demo.tracker) (JStr "DEV-1") JNull
    (Demo.start Demo.tracker)
  = @JiraManager.get_issue (Demo.scripted Demo.tracker) (JStr "DEV-1") JNull
      (Demo.start Demo.tracker).
Proof.
  apply (@variants_render_alike (Demo.scripted Demo.tracker) (JStr "DEV-1") JNull
           (Demo.start Demo.tracker)).
  intros name Hin. cbn in Hin.
  destruct Hin as [<- | [<- | [<- | [<- | []]]]]; reflexivity.
Defined.

(** ** Jira resources ([server.py]) *)

Lemma no_slash_cons (c : ascii) (s : string) :
  str_contains "/" (String c s) = false ->
  Ascii.eqb c "/" = false /\ str_contains "/" s = false.
Proof.
  cbn [str_contains]. intros Hno. apply orb_false_iff in Hno as [Hhead Htail].
  split; [| exact Htail].
  destruct (Ascii.eqb c "/") eqn:Hc; [| reflexivity].
  apply Ascii.eqb_eq in Hc as ->. destruct s; discriminate Hhead.
Qed.

Lemma str_split_no_slash (s : string) :
  str_contains "/" s = false -> str_split "/" s = [s].
Proof.
  induction s as [| c s IH]; [reflexivity |].
  intros Hno. apply no_slash_cons in Hno as [Hc Hs].
  cbn [str_split]. rewrite Hc, (IH Hs). reflexivity.
Qed.

Lemma str_split_segment (p r : string) :
  str_contains "/" p = false ->
  str_split "/" (p ++ String "/" r) = p :: str_split "/" r.
Proof.
  induction p as [| c p IH]; [reflexivity |].
  intros Hno. apply no_slash_cons in Hno as [Hc Hp].
  cbn [append str_split]. rewrite Hc, (IH Hp). reflexivity.
Qed.

Lemma prefix_split (p s : string) :
  String.prefix p s = true -> exists t, s = p ++ t.
Proof.
  revert s. induction p as [| a p IH]; intros s; [now exists s |].
  destruct s as [| b s]; cbn; [discriminate |].
  destruct (ascii_dec a b) as [<- |]; [| discriminate].
  intros Hp. destruct (IH s Hp) as [t ->]. now exists t.
Qed.

Lemma double_slash_tail (c : ascii) (s : string) :
  double_slash (String c s) = false -> double_slash s = false.
Proof.
  destruct s as [| b s]; [reflexivity |].
  cbn [double_slash]. intros Hno. now apply orb_false_iff in Hno.
Qed.

(** A text without two adjacent slashes holds no occurrence of the
    scheme. *)
Lemma replace_scheme_none (s : string) :
  double_slash s = false -> replace_from "jira://" "" 0 s = s.
Proof.
  induction s as [| c s IH]; [reflexivity |].
  intros Hno. cbn [replace_from].
  destruct (String.prefix "jira://" (String c s)) eqn:Hp.
  - apply prefix_split in Hp as [t Ht]. rewrite Ht in Hno. discriminate Hno.
  - now rewrite (IH (double_slash_tail _ _ Hno)).
Qed.

Lemma prefix_append (p t : string) : String.prefix p (p ++ t) = true.
Proof.
  induction p as [| a p IH]; [now destruct t |].
  cbn. destruct (ascii_dec a a) as [_ | Hne]; [exact IH | now elim Hne].
Qed.

Lemma replace_scheme (rest : string) :
  double_slash rest = false -> str_replace "jira://" "" ("jira://" ++ rest) = rest.
Proof.
  intros Hno. unfold str_replace.
  change ("jira://" ++ rest) with (String "j" ("ira://" ++ rest)).
  cbn [replace_from].
  change (String "j" ("ira://" ++ rest)) with ("jira://" ++ rest).
  rewrite prefix_append.
  change (replace_from "jira://" "" 0 rest = rest).
  now apply replace_scheme_none.
Qed.

Lemma double_slash_no_slash (p : string) :
  str_contains "/" p = false -> double_slash p = false.
Proof.
  induction p as [| a p IH]; [reflexivity |].
  intros Hno. apply no_slash_cons in Hno as [Ha Hp].
  destruct p as [| b p]; [reflexivity |].
  change (double_slash (String a (String b p)))
    with ((Ascii.eqb a "/" && Ascii.eqb b "/") || double_slash (String b p)).
  rewrite Ha. exact (IH Hp).
Qed.

Lemma double_slash_segment (p r : string) :
  str_contains "/" p = false ->
  double_slash (String "/" r) = false ->
  double_slash (p ++ String "/" r) = false.
Proof.
  intros Hp Hr. induction p as [| a p IH]; [exact Hr |].
  apply no_slash_cons in Hp as [Ha Hp].
  specialize (IH Hp). cbn [append].
  destruct (p ++ String "/" r) as [| b q] eqn:Hq; [reflexivity |].
  change (double_slash (String a (String b q)))
    with ((Ascii.eqb a "/" && Ascii.eqb b "/") || double_slash (String b q)).
  rewrite Ha. exact IH.
Qed.

Section JiraResources.
Context `{Collaborators}.

Lemma read_issue_resource (project issue_key : string) (s : state) :
  str_contains "/" project = false ->
  str_contains "/" issue_key = false ->
  Server.read_resource ("jira://" ++ project ++ "/issues/" ++ issue_key) s
  = (issue <- JiraManager.get_issue (JStr issue_key) JNull ;;
     ret (page_content issue)) s.
Proof.
  intros Hproject Hkey.
  assert (Hparts : str_split "/"
                     (str_replace "jira://" ""
                        ("jira://" ++ project ++ "/issues/" ++ issue_key))
                   = [project; "issues"; issue_key]).
  { rewrite replace_scheme.
    - change (project ++ "/issues/" ++ issue_key)
        with (project ++ String "/" ("issues" ++ String "/" issue_key)).
      rewrite (str_split_segment project _ Hproject).
      rewrite (str_split_segment "issues" issue_key eq_refl).
      now rewrite (str_split_no_slash issue_key Hkey).
    - change (project ++ "/issues/" ++ issue_key)
        with (project ++ String "/" ("issues" ++ String "/" issue_key)).
      apply double_slash_segment; [exact Hproject |].
      change (double_slash (String "/" ("issues" ++ String "/" issue_key)))
        with (double_slash ("issues" ++ String "/" issue_key)).
      apply double_slash_segment; [reflexivity |].
      pose proof (double_slash_no_slash issue_key Hkey) as Hd.
      destruct issue_key as [| c k]; [reflexivity |].
      apply no_slash_cons in Hkey as [Hc _].
      change (double_slash (String "/" (String c k)))
        with ((Ascii.eqb "/" "/" && Ascii.eqb c "/") || double_slash (String c k)).
      now rewrite Hc, Hd. }
  unfold Server.read_resource.
  change (startswith "confluence://"
            ("jira://" ++ project ++ "/issues/" ++ issue_key)) with false.
  unfold startswith at 1. rewrite prefix_append, Hparts. reflexivity.
Qed.

Lemma read_project_resource (project : string) (s : state) :
  str_contains "/" project = false ->
  Server.read_resource ("jira://" ++ project) s
  = (issues <- JiraManager.search_issues
                 (JStr ("project = " ++ project ++ " ORDER BY created DESC"))
                 (JStr "*all") 0 50 JNull ;;
     r <- lift (Server.project_listing issues) ;;
     ret (JStr r)) s.
Proof.
  intros Hproject.
  assert (Hparts : str_split "/" (str_replace "jira://" "" ("jira://" ++ project))
                   = [project]).
  { rewrite replace_scheme by now apply double_slash_no_slash.
    now apply str_split_no_slash. }
  unfold Server.read_resource.
  change (startswith "confluence://" ("jira://" ++ project)) with false.
  unfold startswith at 1. rewrite prefix_append, Hparts. reflexivity.
Qed.

End JiraResources.

(** X14.  What a Jira resource URI reads.  For a project and an issue key
    without a slash, "jira://{project}/issues/{key}" reads the content of
    [get_issue(key)], whatever the project is: the project part of the URI
    is never compared with the issue's own project.  "jira://{project}"
    reads the listing of the search "project = {project} ORDER BY created
    DESC", the key spliced into the query as it is, over all fields, from
    the first hit, at most 50 hits. *)
Theorem jira_resource_uris :
  forall (C : Collaborators) (project issue_key : string) (s : state),
    str_contains "/" project = false ->
    str_contains "/" issue_key = false ->
    Server.read_resource ("jira://" ++ project ++ "/issues/" ++ issue_key) s
    = (issue <- JiraManager.get_issue (JStr issue_key) JNull ;;
       ret (page_content issue)) s
    /\ Server.read_resource ("jira://" ++ project) s
       = (issues <- JiraManager.search_issues
                      (JStr ("project = " ++ project ++ " ORDER BY created DESC"))
                      (JStr "*all") 0 50 JNull ;;
          r <- lift (Server.project_listing issues) ;;
          ret (JStr r)) s.
Proof.
  intros C project issue_key s Hproject Hkey. split.
  - now apply read_issue_resource.
  - now apply read_project_resource.
Qed.

Lemma jira_resource_uris_witness :
  @Server.read_resource (Demo.scripted Demo.tracker) "jira://OTHER/issues/DEV-1"
    (Demo.start Demo.tracker)
  = (issue <- @JiraManager.get_issue (Demo.scripted Demo.tracker)
                (JStr "DEV-1") JNull ;;
     ret (page_content issue)) (Demo.start Demo.tracker)
  /\ @Server.read_resource (Demo.scripted Demo.tracker) "jira://OTHER"
       (Demo.start Demo.tracker)
     = (issues <- @JiraManager.search_issues (Demo.scripted Demo.tracker)
                    (JStr "project = OTHER ORDER BY created DESC")
                    (JStr "*all") 0 50 JNull ;;
        r <- lift (@Server.project_listing (Demo.scripted Demo.tracker) issues) ;;
        ret (JStr r)) (Demo.start Demo.tracker).
Proof.
  apply (@jira_resource_uris (Demo.scripted Demo.tracker) "OTHER" "DEV-1"
           (Demo.start Demo.tracker));
    reflexivity.
Defined.

(** ** Page comments ([confluence.py]) *)

Section PageComments.
Context `{Collaborators}.

Let NC := no_call_invariant.

Lemma page_comment_document (page_id space_key space_name : json)
    (clean_html : bool) (comment : json) (acc acc' : list Document)
    (s s' : state) :
  ConfluenceManager.page_comment page_id space_key space_name clean_html
    comment acc s = (Ok acc', s') ->
  exists doc, acc' = (acc ++ [doc])%list /\ comment_document page_id comment doc.
Proof.
  intros Hrun.
  unfold ConfluenceManager.page_comment, ConfluenceManager._process_html_content,
    with_world in Hrun.
  run_in Hrun.
  all: injection Hrun as <- <-; eexists; split; [reflexivity |];
    split; [reflexivity |]; split; [reflexivity |];
    split; [eexists; split; [eassumption | reflexivity] |];
    do 2 eexists; split; reflexivity.
Qed.

Lemma page_comments_loop (page_id space_key space_name : json)
    (clean_html : bool) (comments : list json) (acc docs : list Document)
    (s s' : state) :
  for_each (ConfluenceManager.page_comment page_id space_key space_name clean_html)
    comments acc s = (Ok docs, s') ->
  exists found,
    docs = (acc ++ found)%list
    /\ Forall2 (comment_document page_id) comments found.
Proof.
  revert acc s. induction comments as [| comment comments IH]; intros acc s.
  - cbn. intros [= <- <-]. exists []. rewrite app_nil_r. split; constructor.
  - cbn [for_each]. unfold bind at 1.
    destruct (ConfluenceManager.page_comment _ _ _ _ comment acc s)
      as [[acc' | e] s1] eqn:Hone; [| discriminate].
    intros Hrest.
    apply page_comment_document in Hone as (doc & -> & Hdoc).
    apply IH in Hrest as (found & -> & Hfound).
    exists (doc :: found). rewrite <- app_assoc. split; [reflexivity |].
    now constructor.
Qed.

Lemma get_page_comments_run (page_id : json) (clean_html : bool)
    (s s' : state) (docs : list Document) :
  ConfluenceManager.get_page_comments page_id clean_html s = (Ok docs, s') ->
  exists answer results comments,
    fst (remote (Call confluence_get_page_comments
                   [page_id; JStr "body.view.value,version"; JStr "all"])
           (snd (remote (Call confluence_get_page_by_id [page_id; JStr "space"])
                   (world s)))) = Ok answer
    /\ py_getitem answer "results" = Ok results
    /\ py_iter results = Ok comments
    /\ Forall2 (comment_document page_id) comments docs
    /\ calls_of (trace s')
       = (calls_of (trace s)
          ++ [ Call confluence_get_page_by_id [page_id; JStr "space"];
               Call confluence_get_page_comments
                 [page_id; JStr "body.view.value,version"; JStr "all"] ])%list.
Proof.
  intros Hrun. unfold ConfluenceManager.get_page_comments in Hrun.
  run_in Hrun.
  rewrite invoke_eq in Heqp. injection Heqp as Hpage <-.
  rewrite invoke_eq in Heqp0. injection Heqp0 as Hanswer <-.
  assert (Hquiet : steps no_call
                     (for_each (ConfluenceManager.page_comment page_id a1 a2
                                  clean_html) a5 [])).
  { unfold ConfluenceManager.page_comment,
      ConfluenceManager._process_html_content.
    steps_auto NC. }
  match type of Hrun with
  | ?loop ?s2 = _ => destruct (Hquiet s2) as [_ Hcalls]
  end.
  rewrite Hrun in Hcalls. cbn [snd] in Hcalls.
  apply page_comments_loop in Hrun as (found & -> & Hfound).
  exists a3, a4, a5. repeat split; try assumption.
  rewrite Hcalls, !calls_after_call, <- app_assoc. reflexivity.
Qed.

End PageComments.

(** X15.  [get_page_comments], when it returns, has issued two calls, the
    read of the page and the read of its comments, and returns one
    document per comment of the remote answer, in the answer's order, each
    tagged "comment" and carrying the page id asked for, its comment's id,
    an author name and a last-modified entry. *)
Theorem page_comments_one_per_comment :
  forall (C : Collaborators) (page_id : json) (clean_html : bool)
         (s s' : state) (docs : list Document),
    ConfluenceManager.get_page_comments page_id clean_html s = (Ok docs, s') ->
    exists answer results comments,
      fst (remote (Call confluence_get_page_comments
                     [page_id; JStr "body.view.value,version"; JStr "all"])
             (snd (remote (Call confluence_get_page_by_id [page_id; JStr "space"])
                     (world s)))) = Ok answer
      /\ py_getitem answer "results" = Ok results
      /\ py_iter results = Ok comments
      /\ Forall2 (comment_document page_id) comments docs
      /\ calls_of (trace s')
         = (calls_of (trace s)
            ++ [ Call confluence_get_page_by_id [page_id; JStr "space"];
                 Call confluence_get_page_comments
                   [page_id; JStr "body.view.value,version"; JStr "all"] ])%list.
Proof.
  intros C page_id clean_html s s' docs. apply get_page_comments_run.
Qed.

Lemma page_comments_one_per_comment_witness :
  exists answer results comments,
    fst (@remote (Demo.scripted Demo.commented)
           (Call confluence_get_page_comments
              [JStr "1001"; JStr "body.view.value,version"; JStr "all"])
           (snd (@remote (Demo.scripted Demo.commented)
                   (Call confluence_get_page_by_id [JStr "1001"; JStr "space"])
                   (world (Demo.start Demo.commented))))) = Ok answer
    /\ py_getitem answer "results" = Ok results
    /\ py_iter results = Ok comments
    /\ Forall2 (comment_document (JStr "1001")) comments
         [ mk_Document (JStr "<p>Thanks</p>")
             [ ("page_id", JStr "1001"); ("comment_id", JStr "2002");
               ("last_modified", JStr "2024-01-06T09:30:00Z");
               ("type", JStr "comment"); ("author_name", JStr "Grace");
               ("space_key", JStr "DEV"); ("space_name", JStr "Development") ] ]
    /\ calls_of (trace (snd (@ConfluenceManager.get_page_comments
                               (Demo.scripted Demo.commented) (JStr "1001") true
                               (Demo.start Demo.commented))))
       = ([]
          ++ [ Call confluence_get_page_by_id [JStr "1001"; JStr "space"];
               Call confluence_get_page_comments
                 [JStr "1001"; JStr "body.view.value,version"; JStr "all"] ])%list.
Proof.
  apply (@page_comments_one_per_comment (Demo.scripted Demo.commented)
           (JStr "1001") true (Demo.start Demo.commented)
           (snd (@ConfluenceManager.get_page_comments
                   (Demo.scripted Demo.commented) (JStr "1001") true
                   (Demo.start Demo.commented)))).
  reflexivity.
Defined.

(** ** No operation writes twice ([confluence.py], [jira.py]) *)

Section Writes.
Context `{Collaborators}.

Let RO := read_only_invariant.

Lemma writes_read_only {A} (m : M A) : steps read_only m -> writes_at_most 0 m.
Proof.
  intros Hm s. destruct (Hm s) as (_ & rest & Ht & Hw). exists rest.
  split; [exact Ht |].
  induction Hw as [| c cs Hc _ IH]; cbn; [constructor |]. now rewrite Hc.
Qed.

Lemma writes_invoke (m : method) (args : list json) :
  writes_at_most 1 (invoke m args).
Proof.
  intros s. rewrite invoke_eq. eexists. split; [reflexivity |].
  cbn. destruct (is_write _); cbn; lia.
Qed.

Lemma writes_bind (a b : nat) {A B} (m : M A) (f : A -> M B) :
  writes_at_most a m -> (forall x, writes_at_most b (f x)) ->
  writes_at_most (a + b) (bind m f).
Proof.
  intros Hm Hf s. unfold bind. destruct (Hm s) as (r1 & Ht1 & Hn1).
  destruct (m s) as [[x | e] s1]; cbn [snd] in *.
  - destruct (Hf x s1) as (r2 & Ht2 & Hn2). exists (r1 ++ r2)%list.
    rewrite Ht2, Ht1, app_assoc. split; [reflexivity |].
    rewrite calls_of_app, filter_app, length_app. lia.
  - exists r1. split; [exact Ht1 | lia].
Qed.

Lemma writes_try_except (a b : nat) {A} (m : M A) (h : exn -> M A) :
  writes_at_most a m -> (forall e, writes_at_most b (h e)) ->
  writes_at_most (a + b) (try_except m h).
Proof.
  intros Hm Hh s. unfold try_except. destruct (Hm s) as (r1 & Ht1 & Hn1).
  destruct (m s) as [[x | e] s1]; cbn [snd] in *.
  - exists r1. split; [exact Ht1 | lia].
  - destruct (Hh e s1) as (r2 & Ht2 & Hn2). exists (r1 ++ r2)%list.
    rewrite Ht2, Ht1, app_assoc. split; [reflexivity |].
    rewrite calls_of_app, filter_app, length_app. lia.
Qed.

Lemma read_only_resolve_main (name : string) :
  steps read_only (JiraManager._get_custom_field_id name).
Proof. unfold JiraManager._get_custom_field_id. steps_auto RO. Qed.

Lemma read_only_resolve_ib (name : string) :
  steps read_only (JiraManagerIb._get_custom_field_id name).
Proof. unfold JiraManagerIb._get_custom_field_id. steps_auto RO. Qed.

Lemma read_only_type_specific_fields (lookup : string -> M (option string))
    (request : JiraIssueCreate.t) (fields : dict) :
  (forall name, steps read_only (lookup name)) ->
  steps read_only (type_specific_fields lookup request fields).
Proof. intros Hlookup. unfold type_specific_fields. steps_auto RO. Qed.

Lemma read_only_update_fields (lookup : string -> M (option string))
    (fields acc : dict) :
  (forall name, steps read_only (lookup name)) ->
  steps read_only (for_each (update_field lookup) fields acc).
Proof. intros Hlookup. unfold update_field. steps_auto RO. Qed.

End Writes.

#[local] Hint Resolve read_only_get_page_content read_only_get_issue
  read_only_resolve_main read_only_resolve_ib read_only_type_specific_fields
  read_only_update_fields : steps.

(** Splits a computation at its one modifying call: what comes before
    and what comes after only reads. *)
Ltac writes_auto RO :=
  repeat first
    [ progress intros
    | solve [apply writes_read_only; steps_auto RO]
    | solve [apply writes_invoke]
    | apply (writes_try_except 1 0)
    | apply (writes_bind 0 1); [solve [apply writes_read_only; steps_auto RO] |]
    | apply (writes_bind 1 0) ].

Section WriteOnce.
Context `{Collaborators}.

Let RO := read_only_invariant.

Lemma create_page_writes : forall request,
  writes_at_most 1 (ConfluenceManager.create_page request).
Proof.
  intros request. unfold ConfluenceManager.create_page. writes_auto RO.
Qed.

Lemma update_page_writes : forall request,
  writes_at_most 1 (ConfluenceManager.update_page request).
Proof.
  intros request.
  unfold ConfluenceManager.update_page, ConfluenceManager.update_page_body.
  writes_auto RO.
Qed.

Lemma create_issue_writes : forall request,
  writes_at_most 1 (JiraManager.create_issue request).
Proof.
  intros request.
  unfold JiraManager.create_issue, JiraManager.create_issue_body,
    validate_project, JiraManager._process_custom_fields,
    JiraManager.process_custom_field, JiraManager.get_issue.
  writes_auto RO.
Qed.

Lemma create_issue_ib_writes : forall request,
  writes_at_most 1 (JiraManagerIb.create_issue request).
Proof.
  intros request.
  unfold JiraManagerIb.create_issue, JiraManagerIb.create_issue_body,
    validate_project, JiraManagerIb.create_custom_field, JiraManagerIb.get_issue.
  writes_auto RO.
Qed.

Lemma update_issue_writes : forall request,
  writes_at_most 1 (JiraManager.update_issue request).
Proof.
  intros request.
  unfold JiraManager.update_issue, JiraManager.update_issue_body,
    validate_issue, JiraManager.get_issue.
  writes_auto RO.
Qed.

Lemma update_issue_ib_writes : forall request,
  writes_at_most 1 (JiraManagerIb.update_issue request).
Proof.
  intros request.
  unfold JiraManagerIb.update_issue, JiraManagerIb.update_issue_body,
    validate_issue, JiraManagerIb.get_issue.
  writes_auto RO.
Qed.

End WriteOnce.

(** X16.  No operation of the managers writes twice.  Whatever the remote
    services answer, [create_page], [update_page], [create_issue] and
    [update_issue], the last two in both variants of [jira.py], issue at
    most one call that modifies a remote service, and take back nothing
    that was issued before them. *)
Theorem no_operation_writes_twice :
  forall (C : Collaborators),
    (forall request, writes_at_most 1 (ConfluenceManager.create_page request))
    /\ (forall request, writes_at_most 1 (ConfluenceManager.update_page request))
    /\ (forall request, writes_at_most 1 (JiraManager.create_issue request))
    /\ (forall request, writes_at_most 1 (JiraManagerIb.create_issue request))
    /\ (forall request, writes_at_most 1 (JiraManager.update_issue request))
    /\ (forall request, writes_at_most 1 (JiraManagerIb.update_issue request)).
Proof.
  intros C. repeat split.
  - apply create_page_writes.
  - apply update_page_writes.
  - apply create_issue_writes.
  - apply create_issue_ib_writes.
  - apply update_issue_writes.
  - apply update_issue_ib_writes.
Qed.

(** ** The router's projections ([server.py]) *)

Section Projections.
Context `{Collaborators}.

Lemma comprehension_total (f : Document -> result json) (documents : list Document) :
  Forall (fun doc => exists entry, f doc = Ok entry) documents ->
  exists entries,
    Server.comprehension f documents = Ok entries
    /\ List.length entries = List.length documents.
Proof.
  induction 1 as [| doc docs [entry Hentry] _ (entries & Hentries & Hlen)].
  - now exists [].
  - exists (entry :: entries). cbn. rewrite Hentry, Hentries. cbn. auto.
Qed.

Lemma meta_some (doc : Document) (k : string) (v : json) :
  dict_get k (metadata doc) = Some v -> Server.meta doc k = Ok v.
Proof. unfold Server.meta, py_getitem. now intros ->. Qed.

Lemma comment_entry_total (page_id comment : json) (doc : Document) :
  comment_document page_id comment doc ->
  exists entry, Server.comment_entry doc = Ok entry.
Proof.
  intros (_ & _ & _ & author & when & Hauthor & Hwhen).
  unfold Server.comment_entry.
  rewrite (meta_some _ _ _ Hauthor), (meta_some _ _ _ Hwhen). cbn. eauto.
Qed.

Lemma project_issue_entry_total (doc : Document) :
  issue_document doc -> exists entry, Server.project_issue_entry doc = Ok entry.
Proof.
  intros (c & key & title & ty & st & cr & pr & link & cf & ->).
  eexists. reflexivity.
Qed.

Lemma search_entry_total (hit : json) (doc : Document) :
  ConfluenceManager.search_hit hit [] = Ok [doc] ->
  exists entry, Server.confluence_search_entry doc = Ok entry.
Proof.
  unfold ConfluenceManager.search_hit, rbind. intros Hhit.
  repeat match type of Hhit with
         | context [match ?x with _ => _ end] =>
             lazymatch x with
             | context [match _ with _ => _ end] => fail
             | _ => destruct x; try discriminate Hhit
             end
         end.
  injection Hhit as <-. eexists. reflexivity.
Qed.

Lemma search_documents (cql : json) (limit : Z) (s : state) :
  exists docs,
    fst (ConfluenceManager.search cql limit s) = Ok docs
    /\ Forall (fun doc => exists entry, Server.confluence_search_entry doc = Ok entry)
         docs.
Proof.
  rewrite search_eq, search_body_eq. cbn [fst].
  destruct (rbind _ _) as [docs | e] eqn:Hrun; cbn [fst]; [| now exists []].
  exists docs. split; [reflexivity |].
  unfold rbind in Hrun.
  destruct (fst (remote _ _)) as [results | e]; [| discriminate].
  destruct (py_get results "results" (JList [])) as [hv | e]; [| discriminate].
  destruct (py_iter hv) as [hits | e]; [| discriminate].
  apply search_loop_pages in Hrun as (found & -> & Hall & _). cbn [app].
  clear -Hall. induction Hall as [| hit doc hs ds Hdoc _ IH]; constructor.
  - exact (search_entry_total hit doc Hdoc).
  - exact IH.
Qed.

Lemma confluence_search_formats (arguments query : json) (limit : Z) (s : state) :
  Server.effective_limit arguments = Ok limit ->
  py_getitem arguments "query" = Ok query ->
  exists docs entries,
    fst (ConfluenceManager.search query limit s) = Ok docs
    /\ fst (Server.call_tool "confluence_search" arguments s)
       = Ok [mk_TextContent "text" (json_dumps (JList entries))]
    /\ List.length entries = List.length docs.
Proof.
  intros Hlimit Hquery.
  destruct (search_documents query limit s) as (docs & Hdocs & Hall).
  destruct (comprehension_total _ docs Hall) as (entries & Hentries & Hlen).
  exists docs, entries. split; [exact Hdocs |]. split; [| exact Hlen].
  unfold Server.call_tool, try_except, Server.call_tool_body.
  cbn [String.eqb Ascii.eqb Bool.eqb].
  unfold bind at 1, lift at 1. rewrite Hlimit.
  unfold bind at 1, lift at 1. rewrite Hquery.
  unfold bind at 1.
  destruct (ConfluenceManager.search query limit s) as [[ds | e] s1];
    cbn [fst] in Hdocs; [| discriminate].
  injection Hdocs as ->.
  unfold bind at 1, lift at 1. rewrite Hentries. reflexivity.
Qed.

Lemma list_tool_run (manager : M (list Document)) (f : Document -> result json)
    (s : state) :
  try_except
    (documents <- manager ;;
     entries <- lift (Server.comprehension f documents) ;;
     Server.respond (JList entries))
    (fun e => log ERROR ("Tool execution error: " ++ exn_msg e) ;;
              raise_ (Server.execution_failed e)) s
  = match manager s with
    | (Ok docs, s1) =>
        match Server.comprehension f docs with
        | Ok entries =>
            (Ok [mk_TextContent "text" (json_dumps (JList entries))], s1)
        | Err e =>
            (Err (Server.execution_failed e),
             after_log ERROR ("Tool execution error: " ++ exn_msg e) s1)
        end
    | (Err e, s1) =>
        (Err (Server.execution_failed e),
         after_log ERROR ("Tool execution error: " ++ exn_msg e) s1)
    end.
Proof.
  unfold try_except. unfold bind at 1.
  destruct (manager s) as [[docs | e] s1]; [| reflexivity].
  unfold bind at 1, lift at 1.
  destruct (Server.comprehension f docs); reflexivity.
Qed.

Lemma get_comments_formats (arguments page_id : json) (s : state) :
  py_getitem arguments "page_id" = Ok page_id ->
  match fst (ConfluenceManager.get_page_comments page_id true s) with
  | Ok docs =>
      exists entries,
        fst (Server.call_tool "confluence_get_comments" arguments s)
        = Ok [mk_TextContent "text" (json_dumps (JList entries))]
        /\ List.length entries = List.length docs
  | Err e =>
      fst (Server.call_tool "confluence_get_comments" arguments s)
      = Err (Server.execution_failed e)
  end.
Proof.
  intros Hid.
  assert (Hrun : Server.call_tool "confluence_get_comments" arguments s
                 = try_except
                     (documents <- ConfluenceManager.get_page_comments page_id true ;;
                      entries <- lift (Server.comprehension Server.comment_entry
                                         documents) ;;
                      Server.respond (JList entries))
                     (fun e => log ERROR ("Tool execution error: " ++ exn_msg e) ;;
                               raise_ (Server.execution_failed e)) s).
  { unfold Server.call_tool, try_except, Server.call_tool_body.
    cbn [String.eqb Ascii.eqb Bool.eqb].
    unfold bind at 1, lift at 1. now rewrite Hid. }
  rewrite Hrun, list_tool_run. clear Hrun.
  destruct (ConfluenceManager.get_page_comments page_id true s)
    as [[docs | e] s1] eqn:Hrun; cbn [fst]; [| reflexivity].
  apply get_page_comments_run in Hrun
    as (answer & results & comments & _ & _ & _ & Hall & _).
  assert (Hentry : Forall (fun doc => exists entry, Server.comment_entry doc = Ok entry)
                     docs).
  { clear -Hall. induction Hall as [| c d cs ds Hd _ IH]; constructor.
    - exact (comment_entry_total _ _ _ Hd).
    - exact IH. }
  destruct (comprehension_total _ docs Hentry) as (entries & Hentries & Hlen).
  exists entries. rewrite Hentries. split; [reflexivity | exact Hlen].
Qed.

Lemma project_issues_formats (arguments project_key : json) (limit : Z)
    (s : state) :
  Server.effective_limit arguments = Ok limit ->
  py_getitem arguments "project_key" = Ok project_key ->
  match fst (JiraManager.get_project_issues project_key 0 limit s) with
  | Ok docs =>
      exists entries,
        fst (Server.call_tool "jira_get_project_issues" arguments s)
        = Ok [mk_TextContent "text" (json_dumps (JList entries))]
        /\ List.length entries = List.length docs
  | Err e =>
      fst (Server.call_tool "jira_get_project_issues" arguments s)
      = Err (Server.execution_failed e)
  end.
Proof.
  intros Hlimit Hkey.
  assert (Hrun : Server.call_tool "jira_get_project_issues" arguments s
                 = try_except
                     (documents <- JiraManager.get_project_issues project_key 0
                                     limit ;;
                      entries <- lift (Server.comprehension
                                         Server.project_issue_entry documents) ;;
                      Server.respond (JList entries))
                     (fun e => log ERROR ("Tool execution error: " ++ exn_msg e) ;;
                               raise_ (Server.execution_failed e)) s).
  { unfold Server.call_tool, try_except, Server.call_tool_body.
    cbn [String.eqb Ascii.eqb Bool.eqb].
    unfold bind at 1, lift at 1. rewrite Hlimit.
    unfold bind at 1, lift at 1. now rewrite Hkey. }
  rewrite Hrun, list_tool_run. clear Hrun.
  destruct (JiraManager.get_project_issues project_key 0 limit s)
    as [[docs | e] s1] eqn:Hrun; cbn [fst]; [| reflexivity].
  unfold JiraManager.get_project_issues in Hrun.
  apply search_issues_documents in Hrun.
  assert (Hentry : Forall (fun doc => exists entry,
                             Server.project_issue_entry doc = Ok entry) docs).
  { eapply Forall_impl; [| exact Hrun]. apply project_issue_entry_total. }
  destruct (comprehension_total _ docs Hentry) as (entries & Hentries & Hlen).
  exists entries. rewrite Hentries. split; [reflexivity | exact Hlen].
Qed.

End Projections.

(** ** The excerpt of an issue search ([server.py]) *)

Section SearchTool.
Context `{Collaborators}.

(** The excerpt of a text: the text, or its first 500 characters and the
    marker. *)
Lemma excerpt_text (c : string) :
  exists e,
    Server.excerpt (JStr c) = Ok (JStr e)
    /\ ((str_len c <= 500)%nat -> e = c)
    /\ ((500 < str_len c)%nat ->
        exists first rest,
          c = first ++ rest /\ str_len first = 500%nat
          /\ starts_char rest = true /\ e = first ++ "...").
Proof.
  unfold Server.excerpt.
  destruct (Nat.ltb_spec 500 (str_len c)) as [Hlong | Hshort];
    eexists; (split; [reflexivity |]).
  - split; [lia |]. intros _.
    destruct (str_take_split 500%nat c) as (rest & Hc & Hl & Hrest); [lia |].
    exists (str_take 500%nat c), rest.
    destruct (Hrest Hlong) as [Hstart _]. auto.
  - split; [reflexivity | lia].
Qed.

(** The summary of a document of [search_issues]. *)
Lemma jira_search_entry_excerpt (doc : Document) :
  issue_document doc ->
  exists c entry e,
    page_content doc = JStr c
    /\ Server.jira_search_entry doc = Ok (JDict entry)
    /\ dict_get "excerpt" entry = Some (JStr e)
    /\ ((str_len c <= 500)%nat -> e = c)
    /\ ((500 < str_len c)%nat ->
        exists first rest,
          c = first ++ rest /\ str_len first = 500%nat
          /\ starts_char rest = true /\ e = first ++ "...").
Proof.
  intros (c & key & title & ty & st & cr & pr & link & cf & ->).
  destruct (excerpt_text c) as (e & He & Hshort & Hlong).
  exists c.
  assert (Hentry :
    Server.jira_search_entry
      (mk_Document (JStr c)
         [ ("key", key); ("title", title); ("type", ty); ("status", st);
           ("created_date", cr); ("priority", pr); ("link", link);
           ("custom_fields", cf) ])
    = rbind (Server.excerpt (JStr c))
        (fun e =>
           Ok (JDict [ ("key", key); ("title", title); ("type", ty);
                       ("status", st); ("created_date", cr); ("priority", pr);
                       ("link", link); ("excerpt", e) ]))) by reflexivity.
  rewrite Hentry, He. cbn [rbind page_content].
  eexists. exists e. repeat split; auto.
Qed.

Lemma comprehension_each (f : Document -> result json) (P : Document -> json -> Prop)
    (documents : list Document) :
  Forall (fun doc => exists entry, f doc = Ok entry /\ P doc entry) documents ->
  exists entries,
    Server.comprehension f documents = Ok entries
    /\ Forall2 P documents entries.
Proof.
  induction 1 as [| doc docs (entry & Hentry & HP) _ (entries & Hentries & Hall)].
  - exists []. split; [reflexivity | constructor].
  - exists (entry :: entries). cbn. rewrite Hentry, Hentries. cbn.
    split; [reflexivity | now constructor].
Qed.

Lemma jira_search_run (arguments jql fields : json) (limit : Z) (s : state) :
  Server.effective_limit arguments = Ok limit ->
  py_getitem arguments "jql" = Ok jql ->
  py_get arguments "fields" (JStr "*all") = Ok fields ->
  Server.call_tool "jira_search" arguments s
  = try_except
      (documents <- JiraManager.search_issues jql fields 0 limit JNull ;;
       entries <- lift (Server.comprehension Server.jira_search_entry documents) ;;
       Server.respond (JList entries))
      (fun e => log ERROR ("Tool execution error: " ++ exn_msg e) ;;
                raise_ (Server.execution_failed e)) s.
Proof.
  intros Hlimit Hjql Hfields.
  unfold Server.call_tool, try_except, Server.call_tool_body.
  cbn [String.eqb Ascii.eqb Bool.eqb].
  unfold bind at 1, lift at 1. rewrite Hlimit.
  unfold bind at 1, lift at 1. rewrite Hjql.
  unfold bind at 1, lift at 1. now rewrite Hfields.
Qed.

End SearchTool.

(** C7.  The issue-search tool answers with one summary object per
    document that [search_issues] returns, in their order, and the
    excerpt of each is the document's content when that has at most 500
    characters, and otherwise the first 500 characters of the content
    followed by "...". *)
Theorem issue_search_excerpt :
  forall (C : Collaborators) (arguments jql fields : json) (limit : Z)
         (s s' : state) (docs : list Document),
    Server.effective_limit arguments = Ok limit ->
    py_getitem arguments "jql" = Ok jql ->
    py_get arguments "fields" (JStr "*all") = Ok fields ->
    JiraManager.search_issues jql fields 0 limit JNull s = (Ok docs, s') ->
    exists summaries,
      Server.call_tool "jira_search" arguments s
      = (Ok [mk_TextContent "text" (json_dumps (JList summaries))], s')
      /\ Forall2
           (fun doc summary =>
              exists c entry e,
                page_content doc = JStr c
                /\ summary = JDict entry
                /\ dict_get "excerpt" entry = Some (JStr e)
                /\ ((str_len c <= 500)%nat -> e = c)
                /\ ((500 < str_len c)%nat ->
                    exists first rest,
                      c = first ++ rest /\ str_len first = 500%nat
                      /\ starts_char rest = true /\ e = first ++ "..."))
           docs summaries.
Proof.
  intros C arguments jql fields limit s s' docs Hlimit Hjql Hfields Hrun.
  rewrite (jira_search_run arguments jql fields limit s Hlimit Hjql Hfields).
  rewrite list_tool_run, Hrun.
  apply search_issues_documents in Hrun.
  destruct (comprehension_each Server.jira_search_entry
              (fun doc summary =>
                 exists c entry e,
                   page_content doc = JStr c
                   /\ summary = JDict entry
                   /\ dict_get "excerpt" entry = Some (JStr e)
                   /\ ((str_len c <= 500)%nat -> e = c)
                   /\ ((500 < str_len c)%nat ->
                       exists first rest,
                         c = first ++ rest /\ str_len first = 500%nat
                         /\ starts_char rest = true /\ e = first ++ "..."))
              docs) as (summaries & Hsummaries & Hall).
  { eapply Forall_impl; [| exact Hrun].
    intros doc Hdoc.
    destruct (jira_search_entry_excerpt doc Hdoc)
      as (c & entry & e & Hc & Hentry & He & Hshort & Hlong).
    exists (JDict entry). split; [exact Hentry |].
    exists c, entry, e. auto. }
  exists summaries. rewrite Hsummaries. split; [reflexivity | exact Hall].
Qed.

Lemma issue_search_excerpt_witness :
  exists summaries,
    @Server.call_tool (Demo.scripted Demo.tracker) "jira_search"
      (JDict [("jql", JStr "project = DEV")]) (Demo.start Demo.tracker)
    = (Ok [mk_TextContent "text" (json_dumps (JList summaries))],
       snd (@JiraManager.search_issues (Demo.scripted Demo.tracker)
              (JStr "project = DEV") (JStr "*all") 0 10 JNull
              (Demo.start Demo.tracker)))
    /\ Forall2
         (fun doc summary =>
            exists c entry e,
              page_content doc = JStr c
              /\ summary = JDict entry
              /\ dict_get "excerpt" entry = Some (JStr e)
              /\ ((str_len c <= 500)%nat -> e = c)
              /\ ((500 < str_len c)%nat ->
                  exists first rest,
                    c = first ++ rest /\ str_len first = 500%nat
                    /\ starts_char rest = true /\ e = first ++ "..."))
         (match fst (@JiraManager.search_issues (Demo.scripted Demo.tracker)
                       (JStr "project = DEV") (JStr "*all") 0 10 JNull
                       (Demo.start Demo.tracker)) with
          | Ok docs => docs
          | Err _ => []
          end)
         summaries.
Proof.
  apply (@issue_search_excerpt (Demo.scripted Demo.tracker)
           (JDict [("jql", JStr "project = DEV")])
           (JStr "project = DEV") (JStr "*all") 10 (Demo.start Demo.tracker)).
  - reflexivity.
  - reflexivity.
  - reflexivity.
  - vm_compute. reflexivity.
Defined.

(** Characters are counted, not bytes: 300 characters of two bytes are
    returned whole, 600 are cut after the 500th. *)
Example excerpt_counts_characters :
  String.length (Demo.filler 300) = 600%nat
  /\ Server.excerpt (JStr (Demo.filler 300)) = Ok (JStr (Demo.filler 300))
  /\ Server.excerpt (JStr (Demo.filler 600))
     = Ok (JStr (Demo.filler 500 ++ "...")).
Proof. repeat split; vm_compute; reflexivity. Qed.

(** X17.  The projections of the list tools are total on what the
    managers return: once its arguments are read, a list tool fails only
    if its manager does, and then with the manager's exception wrapped;
    otherwise its payload lists one entry per document.  For
    confluence_search, whose manager never raises, this means that the
    tool always answers. *)
Theorem list_tools_format_what_managers_return :
  forall (C : Collaborators) (arguments : json) (s : state),
    (forall limit query,
       Server.effective_limit arguments = Ok limit ->
       py_getitem arguments "query" = Ok query ->
       exists docs entries,
         fst (ConfluenceManager.search query limit s) = Ok docs
         /\ fst (Server.call_tool "confluence_search" arguments s)
            = Ok [mk_TextContent "text" (json_dumps (JList entries))]
         /\ List.length entries = List.length docs)
    /\ (forall page_id,
          py_getitem arguments "page_id" = Ok page_id ->
          match fst (ConfluenceManager.get_page_comments page_id true s) with
          | Ok docs =>
              exists entries,
                fst (Server.call_tool "confluence_get_comments" arguments s)
                = Ok [mk_TextContent "text" (json_dumps (JList entries))]
                /\ List.length entries = List.length docs
          | Err e =>
              fst (Server.call_tool "confluence_get_comments" arguments s)
              = Err (Server.execution_failed e)
          end)
    /\ (forall limit project_key,
          Server.effective_limit arguments = Ok limit ->
          py_getitem arguments "project_key" = Ok project_key ->
          match fst (JiraManager.get_project_issues project_key 0 limit s) with
          | Ok docs =>
              exists entries,
                fst (Server.call_tool "jira_get_project_issues" arguments s)
                = Ok [mk_TextContent "text" (json_dumps (JList entries))]
                /\ List.length entries = List.length docs
          | Err e =>
              fst (Server.call_tool "jira_get_project_issues" arguments s)
              = Err (Server.execution_failed e)
          end).
Proof.
  intros C arguments s. split; [| split].
  - intros limit query. apply confluence_search_formats.
  - intros page_id. apply get_comments_formats.
  - intros limit project_key. apply project_issues_formats.
Qed.

(** ** What a new issue is created with ([jira.py], both variants) *)

Section CreateFields.
Context `{Collaborators}.
Variable target : call.

Lemma creates_only_invariant :
  invariant (creates_only target) (fun c => negb (is_create c)).
Proof.
  split.
  - intros s. split; [reflexivity |]. exists []. rewrite app_nil_r.
    split; constructor.
  - intros s1 s2 s3 (Hm1 & c1 & Ht1 & Hc1) (Hm2 & c2 & Ht2 & Hc2).
    split; [congruence |]. exists (c1 ++ c2)%list.
    rewrite Ht2, Ht1, app_assoc. split; [reflexivity |].
    apply Forall_app. now split.
  - intros lvl msg s. split; [reflexivity |]. exists [].
    rewrite calls_after_log, app_nil_r. split; constructor.
  - intros w s. split; [reflexivity |]. exists []. cbn. rewrite app_nil_r.
    split; constructor.
  - intros m args s Hok. split; [reflexivity |]. exists [Call m args].
    rewrite calls_after_call. split; [reflexivity |].
    constructor; [| constructor]. cbn. intros ->. discriminate Hok.
Qed.

Lemma creates_only_only_logged (s s' : state) :
  only_logged s s' -> creates_only target s s'.
Proof.
  intros (_ & Hm & Hc & _). split; [exact Hm |]. exists [].
  rewrite app_nil_r. split; [exact Hc | constructor].
Qed.

End CreateFields.

Section CreatePayload.
Context `{Collaborators}.

Lemma bind_ok {A B} (m : M A) (f : A -> M B) (s s' : state) (b : B) :
  bind m f s = (Ok b, s') ->
  exists a s1, m s = (Ok a, s1) /\ f a s1 = (Ok b, s').
Proof.
  unfold bind. destruct (m s) as [[a | e] s1]; [| discriminate].
  intros Hrun. now exists a, s1.
Qed.

Lemma type_specific_fields_value (lookup : string -> M (option string))
    (request : JiraIssueCreate.t) (fields : dict) (s s' : state) :
  resolves lookup ->
  type_specific_fields lookup request (base_fields request) s = (Ok fields, s') ->
  fields = type_fields (CUSTOM_FIELD_MAPPINGS s) request.
Proof.
  intros Hlookup. unfold type_specific_fields, type_fields.
  assert (Hset : forall name v s0 s1 fields,
            CUSTOM_FIELD_MAPPINGS s0 = CUSTOM_FIELD_MAPPINGS s ->
            (field_id <- lookup name ;;
             ret (set_if_true field_id v (base_fields request))) s0
            = (Ok fields, s1) ->
            fields = set_if_true (assoc_get name (CUSTOM_FIELD_MAPPINGS s)) v
                       (base_fields request)).
  { intros name v s0 s1 fs Hm. unfold bind.
    destruct (Hlookup name s0) as (id & s0' & -> & _ & Ht & Hv & _).
    cbn. intros [= <- _]. rewrite <- Hm. apply same_id_set.
    split; [exact Ht |]. intros Hid. now apply Hv. }
  destruct (String.eqb (JiraIssueCreate.issue_type request) "Epic").
  - intros Hrun. exact (Hset _ _ s s' fields eq_refl Hrun).
  - destruct (JiraIssueCreate.epic_link request) as [link |];
      [| now intros [= <- _]].
    destruct (String.eqb (JiraIssueCreate.issue_type request) "Story"
              && negb (String.eqb link "")); [| now intros [= <- _]].
    intros Hrun.
    apply bind_ok in Hrun as (epic & s1 & Hepic & Hrun).
    apply bind_ok in Hrun as ([] & s2 & Hcheck & Hrun).
    apply (Hset _ _ s2 s' fields); [| exact Hrun].
    rewrite invoke_eq in Hepic. injection Hepic as _ <-.
    pose proof no_call_invariant as NC.
    match type of Hcheck with
    | ?check ?s0 = _ =>
        assert (Hsteps : steps no_call check) by steps_auto NC;
        destruct (Hsteps s0) as [Hm _]
    end.
    rewrite Hcheck in Hm. exact Hm.
Qed.

Lemma create_issue_payload (request : JiraIssueCreate.t) (s : state) :
  let target :=
    Call jira_create_issue
      [JDict (create_fields (CUSTOM_FIELD_MAPPINGS s) request)] in
  exists calls,
    calls_of (trace (snd (JiraManager.create_issue request s)))
    = (calls_of (trace s) ++ calls)%list
    /\ Forall (fun c => call_method c = jira_create_issue -> c = target) calls
    /\ (forall doc, fst (JiraManager.create_issue request s) = Ok doc ->
                    In target calls).
Proof.
  intros target.
  pose (post := fun run : result Document * state =>
          exists calls,
            calls_of (trace (snd run)) = (calls_of (trace s) ++ calls)%list
            /\ Forall (fun c => call_method c = jira_create_issue -> c = target)
                 calls
            /\ (forall doc, fst run = Ok doc -> In target calls)).
  change (post (JiraManager.create_issue request s)).
  pose proof (creates_only_invariant target) as CO.
  assert (Hfail : forall e s0,
            creates_only target s s0 ->
            post ((log ERROR ("Error creating issue: " ++ exn_msg e) ;;
                   @raise_ _ Document e) s0)).
  { intros e s0 Hs0.
    destruct (inv_trans CO _ _ _ Hs0
                (inv_log CO ERROR ("Error creating issue: " ++ exn_msg e) s0))
      as (_ & calls & Hc & Hall).
    exists calls. split; [exact Hc |]. split; [exact Hall |].
    intros doc Hdoc. discriminate Hdoc. }
  unfold JiraManager.create_issue, try_except, JiraManager.create_issue_body.
  (* the project *)
  unfold bind at 1.
  assert (H1 : steps (creates_only target) (validate_project request))
    by (unfold validate_project; steps_auto CO).
  specialize (H1 s).
  destruct (validate_project request s) as [[[] | e] s1]; cbn [snd] in H1;
    [| exact (Hfail e s1 H1)].
  (* the fields of the issue type *)
  unfold bind at 1.
  assert (H2 : steps (creates_only target)
                 (type_specific_fields JiraManager._get_custom_field_id request
                    (base_fields request))).
  { unfold type_specific_fields, JiraManager._get_custom_field_id.
    steps_auto CO. }
  specialize (H2 s1).
  destruct (type_specific_fields JiraManager._get_custom_field_id request
              (base_fields request) s1) as [[fields | e] s2] eqn:Hfields;
    cbn [snd] in H2.
  2:{ exact (Hfail e s2 (inv_trans CO _ _ _ H1 H2)). }
  apply (type_specific_fields_value _ _ _ _ _ resolves_main) in Hfields.
  destruct H1 as [Hm1 H1'].
  rewrite Hm1 in Hfields. subst fields.
  pose proof (inv_trans CO _ _ _ (conj Hm1 H1') H2) as H12. clear H1' H2.
  (* the custom fields *)
  assert (H3 : exists s3,
            (match JiraIssueCreate.custom_fields request with
             | [] => ret (type_fields (CUSTOM_FIELD_MAPPINGS s) request)
             | p :: l =>
                 processed_fields <-
                   JiraManager._process_custom_fields (p :: l) ;;
                 ret (dict_update (type_fields (CUSTOM_FIELD_MAPPINGS s) request)
                        processed_fields)
             end) s2
            = (Ok (create_fields (CUSTOM_FIELD_MAPPINGS s) request), s3)
            /\ creates_only target s s3).
  { unfold create_fields.
    destruct (JiraIssueCreate.custom_fields request) as [| p l] eqn:Hcf.
    - exists s2. split; [reflexivity | exact H12].
    - unfold bind, JiraManager._process_custom_fields.
      destruct (process_custom_fields_loop (p :: l) [] s2)
        as (s3 & -> & Hlog & _).
      exists s3. destruct H12 as [Hm2 H12']. rewrite Hm2, update_translate.
      split; [reflexivity |].
      exact (inv_trans CO _ _ _ (conj Hm2 H12')
               (creates_only_only_logged target _ _ Hlog)). }
  destruct H3 as (s3 & Hcustom & H3).
  unfold bind at 1. rewrite Hcustom.
  (* the creation *)
  unfold bind at 1. rewrite invoke_eq.
  set (s4 := after_call jira_create_issue _ s3).
  assert (H4 : exists calls,
            calls_of (trace s4) = (calls_of (trace s) ++ calls)%list
            /\ Forall (fun c => call_method c = jira_create_issue -> c = target)
                 calls
            /\ In target calls).
  { destruct H3 as (Hm3 & calls & Hc & Hall).
    exists (calls ++ [target])%list. subst s4.
    rewrite calls_after_call, Hc, <- app_assoc.
    split; [reflexivity |]. split.
    - apply Forall_app. split; [exact Hall |]. now constructor.
    - apply in_or_app. right. now left. }
  clearbody s4. destruct H4 as (calls4 & Hc4 & Hall4 & Hin4).
  assert (Hrest : forall (K : M Document),
            steps (creates_only target) K -> post (K s4)).
  { intros K HK. destruct (HK s4) as (_ & more & Hc & Hall).
    exists (calls4 ++ more)%list. rewrite Hc, Hc4, <- app_assoc.
    split; [reflexivity |]. split.
    - apply Forall_app. now split.
    - intros _ _. apply in_or_app. now left. }
  destruct (fst (remote _ (world s3))) as [issue | e].
  - match goal with
    | |- post (let (r, s') := ?K s4 in _) =>
        apply (Hrest (try_except K
                        (fun e => log ERROR ("Error creating issue: "
                                             ++ exn_msg e) ;;
                                  raise_ e)))
    end.
    unfold JiraManager.get_issue, get_issue_with, get_issue_body, issue_comment,
      _clean_text.
    steps_auto CO.
  - apply (Hrest (log ERROR ("Error creating issue: " ++ exn_msg e) ;;
                  raise_ e)).
    steps_auto CO.
Qed.

End CreatePayload.

(** ** Custom-field names, from the request to the call ([jira.py]) *)

Section UpdateWrites.
Context `{Collaborators}.

(** Once the issue is found and the endpoint resolved, the update is
    written, with every field of the request under its key. *)
Lemma update_issue_puts (request : JiraIssueUpdate.t) (s : state)
    (current url : json) :
  let key := JiraIssueUpdate.issue_key request in
  let lookup := Call jira_issue [JStr key] in
  let get_url := Call jira_get_url [JStr ("rest/api/2/issue/" ++ key)] in
  let put :=
    Call jira_session_put
      [url;
       JDict [("fields",
               JDict (renamed (CUSTOM_FIELD_MAPPINGS s)
                        (JiraIssueUpdate.fields request) []))]] in
  fst (remote lookup (world s)) = Ok current ->
  truthy current = true ->
  fst (remote get_url (snd (remote lookup (world s)))) = Ok url ->
  exists rest,
    calls_of (trace (snd (JiraManager.update_issue request s)))
    = (calls_of (trace s) ++ [lookup; get_url; put] ++ rest)%list.
Proof.
  intros key lookup get_url put Hlookup Htrue Hurl.
  subst key lookup get_url put.
  unfold JiraManager.update_issue, JiraManager.update_issue_body, validate_issue,
    try_except.
  unfold bind at 1. unfold bind at 1. rewrite invoke_eq, Hlookup, Htrue.
  cbn [negb ret].
  set (s1 := after_call jira_issue _ s).
  destruct (update_fields_loop_any JiraManager._get_custom_field_id resolves_main
              (JiraIssueUpdate.fields request) [] s1)
    as (s2 & Hloop & (Hw2 & _ & Hs2 & _)).
  change (CUSTOM_FIELD_MAPPINGS s1) with (CUSTOM_FIELD_MAPPINGS s) in Hloop.
  change (world s1)
    with (snd (remote (Call jira_issue [JStr (JiraIssueUpdate.issue_key request)])
                 (world s))) in Hw2.
  assert (Hs1 : calls_of (trace s1)
                = (calls_of (trace s)
                   ++ [Call jira_issue
                         [JStr (JiraIssueUpdate.issue_key request)]])%list)
    by apply calls_after_call.
  clearbody s1.
  unfold bind at 1. rewrite Hloop.
  unfold bind at 1. rewrite invoke_eq, Hw2, Hurl.
  set (s3 := after_call jira_get_url _ s2).
  assert (Hs3 : calls_of (trace s3)
                = (calls_of (trace s)
                   ++ [ Call jira_issue [JStr (JiraIssueUpdate.issue_key request)];
                        Call jira_get_url
                          [JStr ("rest/api/2/issue/"
                                 ++ JiraIssueUpdate.issue_key request)] ])%list).
  { subst s3. rewrite calls_after_call, Hs2, Hs1, <- app_assoc. reflexivity. }
  clearbody s3.
  unfold bind at 1. rewrite invoke_eq.
  set (s4 := after_call jira_session_put _ s3).
  assert (Hs4 : calls_of (trace s4)
                = (calls_of (trace s)
                   ++ [ Call jira_issue [JStr (JiraIssueUpdate.issue_key request)];
                        Call jira_get_url
                          [JStr ("rest/api/2/issue/"
                                 ++ JiraIssueUpdate.issue_key request)];
                        Call jira_session_put
                          [url;
                           JDict [("fields",
                                   JDict (renamed (CUSTOM_FIELD_MAPPINGS s)
                                            (JiraIssueUpdate.fields request) []))]]
                      ])%list).
  { subst s4. rewrite calls_after_call, Hs3, <- app_assoc. reflexivity. }
  clearbody s4.
  destruct (fst (remote _ (world s3))) as [response | e].
  2:{ exists []. etransitivity; [apply (calls_after_log ERROR) | now rewrite Hs4]. }
  match goal with
  | |- exists rest, calls_of (trace (snd (let (r, s') := ?m s4 in _))) = _ =>
      assert (Happ : appends
                       (try_except m
                          (fun e => log ERROR ("Error updating issue: " ++ exn_msg e) ;;
                                    raise_ e)))
  end.
  { unfold JiraManager.get_issue. appends_steps. }
  destruct (appends_calls _ s4 Happ) as [rest Hrest].
  exists rest. etransitivity; [exact Hrest |].
  rewrite Hs4, <- app_assoc. reflexivity.
Qed.

End UpdateWrites.

(** C5, as the code has it.  On creation, [_process_custom_fields] looks
    every supplied name up in the catalog and never raises or calls the
    remote: its result has an entry exactly for the true identifiers of
    the supplied names, each with the value supplied last for it, and a
    name without a true identifier adds no entry and is logged as
    skipped; the creation call carries these entries on top of the fields
    of the issue's type, and nothing else.  On update, the loop of
    [update_issue] does not raise either, but a name without a true
    identifier is kept: a warning is logged and its value goes under the
    lower-cased name; once the issue is found and the endpoint resolved,
    the fields are written so. *)
Theorem custom_field_names_on_create_and_update :
  forall C : Collaborators,
    (forall (custom_fields : dict) (s : state),
       exists processed s',
         JiraManager._process_custom_fields custom_fields s = (Ok processed, s')
         /\ only_logged s s'
         /\ (forall k,
               In k (dict_keys processed)
               <-> exists name,
                     In name (dict_keys custom_fields)
                     /\ assoc_get name (CUSTOM_FIELD_MAPPINGS s) = Some k
                     /\ truthy_id (Some k) = true)
         /\ (forall before name v after i,
               custom_fields = (before ++ (name, v) :: after)%list ->
               assoc_get name (CUSTOM_FIELD_MAPPINGS s) = Some i ->
               truthy_id (Some i) = true ->
               (forall n, In n (dict_keys after) ->
                          assoc_get n (CUSTOM_FIELD_MAPPINGS s) <> Some i) ->
               dict_get i processed = Some v)
         /\ (forall name,
               In name (dict_keys custom_fields) ->
               truthy_id (assoc_get name (CUSTOM_FIELD_MAPPINGS s)) = false ->
               In (ELog WARNING ("Skipping unknown custom field: " ++ name))
                 (trace s')))
    /\ (forall (request : JiraIssueCreate.t) (s : state),
          exists processed sent calls,
            fst (JiraManager._process_custom_fields
                   (JiraIssueCreate.custom_fields request) s) = Ok processed
            /\ sent = dict_update (type_fields (CUSTOM_FIELD_MAPPINGS s) request)
                        processed
            /\ calls_of (trace (snd (JiraManager.create_issue request s)))
               = (calls_of (trace s) ++ calls)%list
            /\ Forall (fun c => call_method c = jira_create_issue ->
                                c = Call jira_create_issue [JDict sent]) calls
            /\ (forall doc,
                  fst (JiraManager.create_issue request s) = Ok doc ->
                  In (Call jira_create_issue [JDict sent]) calls)
            /\ (forall k,
                  In k (dict_keys sent)
                  <-> In k (dict_keys (type_fields (CUSTOM_FIELD_MAPPINGS s)
                                         request))
                      \/ In k (dict_keys processed)))
    /\ (forall (fields : dict) (s : state),
          exists sent s',
            for_each (update_field JiraManager._get_custom_field_id) fields [] s
            = (Ok sent, s')
            /\ only_logged s s'
            /\ (forall k,
                  In k (dict_keys sent)
                  <-> exists name,
                        In name (dict_keys fields)
                        /\ k = update_key (CUSTOM_FIELD_MAPPINGS s) name)
            /\ (forall before name v after,
                  fields = (before ++ (name, v) :: after)%list ->
                  (forall n, In n (dict_keys after) ->
                             update_key (CUSTOM_FIELD_MAPPINGS s) n
                             <> update_key (CUSTOM_FIELD_MAPPINGS s) name) ->
                  dict_get (update_key (CUSTOM_FIELD_MAPPINGS s) name) sent
                  = Some v)
            /\ (forall name i,
                  assoc_get name (CUSTOM_FIELD_MAPPINGS s) = Some i ->
                  truthy_id (Some i) = true ->
                  update_key (CUSTOM_FIELD_MAPPINGS s) name = i)
            /\ (forall name,
                  In name (dict_keys fields) ->
                  truthy_id (assoc_get name (CUSTOM_FIELD_MAPPINGS s)) = false ->
                  update_key (CUSTOM_FIELD_MAPPINGS s) name = py_lower name
                  /\ In (py_lower name) (dict_keys sent)
                  /\ In (ELog WARNING ("Unknown custom field: " ++ name))
                       (trace s')))
    /\ (forall (request : JiraIssueUpdate.t) (s : state) (current url : json),
          fst (remote (Call jira_issue [JStr (JiraIssueUpdate.issue_key request)])
                 (world s)) = Ok current ->
          truthy current = true ->
          fst (remote (Call jira_get_url
                         [JStr ("rest/api/2/issue/"
                                ++ JiraIssueUpdate.issue_key request)])
                 (snd (remote (Call jira_issue
                                 [JStr (JiraIssueUpdate.issue_key request)])
                         (world s)))) = Ok url ->
          exists sent rest,
            fst (for_each (update_field JiraManager._get_custom_field_id)
                   (JiraIssueUpdate.fields request) [] s) = Ok sent
            /\ calls_of (trace (snd (JiraManager.update_issue request s)))
               = (calls_of (trace s)
                  ++ [ Call jira_issue [JStr (JiraIssueUpdate.issue_key request)];
                       Call jira_get_url
                         [JStr ("rest/api/2/issue/"
                                ++ JiraIssueUpdate.issue_key request)];
                       Call jira_session_put
                         [url; JDict [("fields", JDict sent)]] ]
                  ++ rest)%list).
Proof.
  intros C. split; [| split; [| split]].
  - intros custom_fields s.
    destruct (process_custom_fields_loop custom_fields [] s)
      as (s' & Hrun & Hlogged & Hwarn).
    exists (translate (CUSTOM_FIELD_MAPPINGS s) custom_fields []), s'.
    split; [exact Hrun |]. split; [exact Hlogged |].
    split; [| split; [| exact Hwarn]].
    + intros k. rewrite translate_keys_iff. cbn [dict_keys map In].
      split; [intros [[] | Hk]; exact Hk | now right].
    + intros before name v after i -> Hi Ht Hafter.
      now apply translate_last.
  - intros request s.
    destruct (process_custom_fields_loop (JiraIssueCreate.custom_fields request)
                [] s) as (s' & Hrun & _).
    destruct (create_issue_payload request s) as (calls & Hcalls & Hall & Hin).
    exists (translate (CUSTOM_FIELD_MAPPINGS s)
              (JiraIssueCreate.custom_fields request) []),
      (create_fields (CUSTOM_FIELD_MAPPINGS s) request), calls.
    unfold JiraManager._process_custom_fields. rewrite Hrun.
    split; [reflexivity |].
    split; [unfold create_fields; now rewrite update_translate |].
    split; [exact Hcalls |]. split; [exact Hall |]. split; [exact Hin |].
    intros k. unfold create_fields. rewrite !translate_keys_iff.
    cbn [dict_keys map In]. tauto.
  - intros fields s.
    destruct (update_fields_loop_warns fields [] s)
      as (s' & Hrun & Hlogged & Hwarn).
    exists (renamed (CUSTOM_FIELD_MAPPINGS s) fields []), s'.
    split; [exact Hrun |]. split; [exact Hlogged |].
    split; [| split; [| split]].
    + intros k. rewrite renamed_keys_iff. cbn [dict_keys map In].
      split; [intros [[] | Hk]; exact Hk | now right].
    + intros before name v after -> Hafter. now apply renamed_last.
    + intros name i. apply update_key_resolved.
    + intros name Hin Hun. split; [now apply update_key_unresolved |].
      split; [| now apply Hwarn].
      rewrite <- (update_key_unresolved _ _ Hun). now apply renamed_has.
  - intros request s current url Hlookup Htrue Hurl.
    destruct (update_fields_loop_warns (JiraIssueUpdate.fields request) [] s)
      as (s' & Hrun & _).
    destruct (update_issue_puts request s current url Hlookup Htrue Hurl)
      as [rest Hrest].
    exists (renamed (CUSTOM_FIELD_MAPPINGS s) (JiraIssueUpdate.fields request) []),
      rest.
    rewrite Hrun. split; [reflexivity | exact Hrest].
Qed.

(** C5 fails on update: "Team Color", which the catalog does not know, is
    sent to the remote service, as "team color". *)
Lemma update_sends_unresolved_name :
  assoc_get "Team Color" Demo.seed = None
  /\ calls_of (trace (snd (@JiraManager.update_issue (Demo.scripted Demo.tracker)
                             Demo.recolour (Demo.start Demo.tracker))))
     = [ Call jira_issue [JStr "DEV-1"];
         Call jira_get_url [JStr "rest/api/2/issue/DEV-1"];
         Call jira_session_put
           [ JStr "https://example.atlassian.net/rest/api/2/issue/DEV-1";
             JDict [("fields", JDict [("team color", JStr "blue")])] ];
         Call jira_issue [JStr "DEV-1"; JNull] ].
Proof.
  split; [reflexivity | vm_compute; reflexivity].
Qed.

(** X18.  What a new issue is created with.  In both variants of
    [jira.py], every creation call [create_issue] issues carries exactly
    the fields [create_fields] computes from the request and the catalog:
    project, summary, description and issue type; the summary again as the
    name of an Epic, or the link of a Story, under the catalog's
    identifier; and each custom field the catalog resolves, under its
    identifier, a later one replacing an earlier one of the same
    identifier.  When [create_issue] returns, that call has been issued. *)
Theorem new_issue_fields :
  forall (C : Collaborators) (request : JiraIssueCreate.t) (s : state),
    (exists calls,
       calls_of (trace (snd (JiraManager.create_issue request s)))
       = (calls_of (trace s) ++ calls)%list
       /\ Forall (fun c => call_method c = jira_create_issue ->
                           c = create_call (CUSTOM_FIELD_MAPPINGS s) request) calls
       /\ (forall doc, fst (JiraManager.create_issue request s) = Ok doc ->
                       In (create_call (CUSTOM_FIELD_MAPPINGS s) request) calls))
    /\ (exists calls,
          calls_of (trace (snd (JiraManagerIb.create_issue request s)))
          = (calls_of (trace s) ++ calls)%list
          /\ Forall (fun c => call_method c = jira_create_issue ->
                              c = create_call (CUSTOM_FIELD_MAPPINGS s) request)
               calls
          /\ (forall doc, fst (JiraManagerIb.create_issue request s) = Ok doc ->
                          In (create_call (CUSTOM_FIELD_MAPPINGS s) request) calls)).
Proof.
  intros C request s.
  destruct (create_issue_payload request s) as (calls & Hcalls & Hall & Hin).
  split; [exists calls; auto |].
  destruct (agree_same_start same_metadata _ _ s (agree_create_issue request))
    as (Hsame & _ & Hib).
  exists calls. rewrite <- Hib. split; [exact Hcalls |]. split; [exact Hall |].
  intros doc Hdoc. rewrite Hdoc in Hsame.
  destruct (fst (JiraManager.create_issue request s)) as [doc' | e];
    [| contradiction].
  now apply (Hin doc').
Qed.
